(** * kOS documentation parser: normalisation and enrichment pipeline

    A shallow embedding of [tools/kos_doc_parser] (models.py, postprocess.py,
    tag_taxonomy.py, metadata_mappings.py) and the properties of its
    deduplicator, cross-referencer, tag engine, category classifier and
    cross-reference validator.

    Conventions of the embedding.
    - A Python [str] is a [string] holding the UTF-8 encoding of the text,
      so [len] counts the code points, not the bytes; prefix, substring and
      equality tests on two texts agree with those on their encodings. The
      identifiers and the keywords of the tables are ASCII, and
      [upper]/[lower] are the ASCII case mappings.
    - [Optional[str]] is [option string]; Python truthiness of such a field
      ([if entry.snippet:]) is [truthy]: present and not the empty string.
    - A [dict] is an association list in insertion order (Python dicts keep
      it, and assigning to an existing key keeps the key's position).
    - A [set] of strings is a duplicate-free list in insertion order; the
      order in which Python enumerates the set is not fixed by the language
      (string hashes are salted per process), so it is a parameter [enum] of
      the functions that enumerate one.
    - A function that mutates its argument returns the updated value, and a
      loop that rewrites the entries of a list passes the list along; the
      entries of a list are distinct objects, as the parsers build them. *)

From Stdlib Require Import String Ascii List Bool Arith PeanoNat Lia Permutation.
From Stdlib Require Import Sorted.
From Stdlib Require OrderedTypeEx.
Import ListNotations.
Open Scope string_scope.
Open Scope list_scope.
Open Scope nat_scope.

(** ** Python built-ins used by the code *)

Module py.

(** [if s:] for an optional string. *)
Definition truthy (o : option string) : bool :=
  match o with
  | Some (String _ _) => true
  | _ => false
  end.

(** A byte [10xxxxxx] continues the encoding of a code point; every other
    byte starts one. *)
Definition continuation_byte (c : ascii) : bool :=
  match c with
  | Ascii _ _ _ _ _ _ b6 b7 => b7 && negb b6
  end.

(** The number of code points of a text. *)
Fixpoint code_points (s : string) : nat :=
  match s with
  | EmptyString => 0
  | String c s' =>
      if continuation_byte c then code_points s' else S (code_points s')
  end.

(** [len(s)] with [s] possibly [None] only where the code guards it. *)
Definition len (o : option string) : nat :=
  match o with
  | Some s => code_points s
  | None => 0
  end.

(** [x in xs] for a list of strings. *)
Definition mem (x : string) (xs : list string) : bool :=
  existsb (String.eqb x) xs.

(** [s.startswith(p)]. *)
Definition startswith (s p : string) : bool := String.prefix p s.

(** [sub in s] for strings. *)
Fixpoint contains (sub s : string) : bool :=
  if String.prefix sub s then true
  else match s with
       | EmptyString => false
       | String _ s' => contains sub s'
       end.

Definition upper_char (c : ascii) : ascii :=
  let n := nat_of_ascii c in
  if (97 <=? n) && (n <=? 122) then ascii_of_nat (n - 32) else c.

Definition lower_char (c : ascii) : ascii :=
  let n := nat_of_ascii c in
  if (65 <=? n) && (n <=? 90) then ascii_of_nat (n + 32) else c.

Fixpoint upper (s : string) : string :=
  match s with
  | EmptyString => EmptyString
  | String c s' => String (upper_char c) (upper s')
  end.

Fixpoint lower (s : string) : string :=
  match s with
  | EmptyString => EmptyString
  | String c s' => String (lower_char c) (lower s')
  end.

(** [s.split(sep)[0]] for a one-character separator. *)
Fixpoint split_head (sep : ascii) (s : string) : string :=
  match s with
  | EmptyString => EmptyString
  | String c s' =>
      if Ascii.eqb c sep then EmptyString else String c (split_head sep s')
  end.

(** An insertion-ordered [dict] with string keys. *)
Definition dict (V : Type) : Type := list (string * V).

Fixpoint get {V : Type} (k : string) (d : dict V) : option V :=
  match d with
  | [] => None
  | (k', v) :: d' => if String.eqb k k' then Some v else get k d'
  end.

(** [d[k] = v]: an existing key keeps its position, a new one goes last. *)
Fixpoint set {V : Type} (k : string) (v : V) (d : dict V) : dict V :=
  match d with
  | [] => [(k, v)]
  | (k', v') :: d' =>
      if String.eqb k k' then (k', v) :: d' else (k', v') :: set k v d'
  end.

Definition keys {V : Type} (d : dict V) : list string := map fst d.
Definition values {V : Type} (d : dict V) : list V := map snd d.

(** [s.add(x)] on a set kept as a duplicate-free list. *)
Fixpoint add (x : string) (s : list string) : list string :=
  match s with
  | [] => [x]
  | y :: s' => if String.eqb x y then s else y :: add x s'
  end.

(** [s.update(xs)]. *)
Definition update (s xs : list string) : list string :=
  fold_left (fun acc x => add x acc) xs s.

(** [set(xs)]. *)
Definition set_of (xs : list string) : list string := update [] xs.

End py.

(** ** models.py *)

Module models.

Inductive DocEntryType : Type :=
| STRUCTURE | SUFFIX | FUNCTION | KEYWORD | CONSTANT | COMMAND.

Inductive DocAccessMode : Type :=
| NONE | GET | SET | GET_SET | METHOD.

Record DocEntry : Type := mkDocEntry {
  id : string;
  name : string;
  type : DocEntryType;
  parent_structure : option string;
  return_type : option string;
  access : DocAccessMode;
  signature : option string;
  description : option string;
  snippet : option string;
  source_ref : option string;
  tags : list string;
  aliases : list string;
  related : list string;
  deprecated : bool;
  deprecation_note : option string
}.

Definition DocEntryType_eqb (a b : DocEntryType) : bool :=
  match a, b with
  | STRUCTURE, STRUCTURE | SUFFIX, SUFFIX | FUNCTION, FUNCTION
  | KEYWORD, KEYWORD | CONSTANT, CONSTANT | COMMAND, COMMAND => true
  | _, _ => false
  end.

(** Field assignments [entry.f = v]. *)
Definition set_snippet (e : DocEntry) (v : option string) : DocEntry :=
  mkDocEntry (id e) (name e) (type e) (parent_structure e) (return_type e)
    (access e) (signature e) (description e) v (source_ref e) (tags e)
    (aliases e) (related e) (deprecated e) (deprecation_note e).

Definition set_description (e : DocEntry) (v : option string) : DocEntry :=
  mkDocEntry (id e) (name e) (type e) (parent_structure e) (return_type e)
    (access e) (signature e) v (snippet e) (source_ref e) (tags e)
    (aliases e) (related e) (deprecated e) (deprecation_note e).

Definition set_tags (e : DocEntry) (v : list string) : DocEntry :=
  mkDocEntry (id e) (name e) (type e) (parent_structure e) (return_type e)
    (access e) (signature e) (description e) (snippet e) (source_ref e) v
    (aliases e) (related e) (deprecated e) (deprecation_note e).

Definition set_related (e : DocEntry) (v : list string) : DocEntry :=
  mkDocEntry (id e) (name e) (type e) (parent_structure e) (return_type e)
    (access e) (signature e) (description e) (snippet e) (source_ref e)
    (tags e) (aliases e) v (deprecated e) (deprecation_note e).

(** [DocEntry(id=..., name=..., type=...)] with every default. *)
Definition new_entry (i n : string) (t : DocEntryType) : DocEntry :=
  mkDocEntry i n t None None NONE None None None None [] [] [] false None.

End models.

Import models.

(** ** postprocess.py: the deduplicator *)

Module dedup.

(** [_entry_quality_score]. *)
Definition _entry_quality_score (entry : DocEntry) : nat :=
  let score := 0 in
  let score :=
    if py.truthy (description entry)
    then score + Nat.min (py.len (description entry)) 200 else score in
  let score := if py.truthy (snippet entry) then score + 50 else score in
  let score :=
    match tags entry with
    | [] => score
    | _ :: _ => score + List.length (tags entry) * 5
    end in
  let score :=
    match related entry with
    | [] => score
    | _ :: _ => score + List.length (related entry) * 3
    end in
  let score :=
    match source_ref entry with
    | Some r =>
        if py.truthy (Some r) && py.contains "#" r then score + 10 else score
    | None => score
    end in
  score.

(** The loops [for x in source.xs: if x not in target.xs: target.xs.append(x)]. *)
Definition append_missing (target source : list string) : list string :=
  fold_left
    (fun acc x => if py.mem x acc then acc else acc ++ [x]) source target.

(** [_merge_entry_fields(target, source)]: the updated [target]. *)
Definition _merge_entry_fields (target source : DocEntry) : DocEntry :=
  let target :=
    if negb (py.truthy (snippet target)) && py.truthy (snippet source)
    then set_snippet target (snippet source) else target in
  let target :=
    if negb (py.truthy (description target)) && py.truthy (description source)
    then set_description target (description source) else target in
  let target := set_tags target (append_missing (tags target) (tags source)) in
  let target :=
    set_related target (append_missing (related target) (related source)) in
  target.

(** One iteration of the loop of [deduplicate_entries] on [entry_map]. *)
Definition dedup_step (entry_map : py.dict DocEntry) (entry : DocEntry)
  : py.dict DocEntry :=
  match py.get (id entry) entry_map with
  | None => py.set (id entry) entry entry_map
  | Some existing =>
      let existing_score := _entry_quality_score existing in
      let new_score := _entry_quality_score entry in
      if existing_score <? new_score
      then py.set (id entry) entry entry_map
      else py.set (id entry) (_merge_entry_fields existing entry) entry_map
  end.

(** [entry_map] after the loop has consumed [entries]. *)
Definition dedup_loop (entries : list DocEntry) : py.dict DocEntry :=
  fold_left dedup_step entries [].

Definition deduplicate_entries (entries : list DocEntry) : list DocEntry :=
  py.values (dedup_loop entries).

(** *** The deduplication rule in the words of the specification *)

Definition present (o : option string) : nat :=
  if py.truthy o then 1 else 0.

Definition has_fragment (o : option string) : nat :=
  match o with
  | Some r => if py.contains "#" r then 1 else 0
  | None => 0
  end.

(** score = min(len(description), 200) + 50·(snippet present)
    + 5·(tag count) + 3·(related count) + 10·(sourceRef has a fragment). *)
Definition spec_score (e : DocEntry) : nat :=
  Nat.min (py.len (description e)) 200
  + 50 * present (snippet e)
  + 5 * List.length (tags e)
  + 3 * List.length (related e)
  + 10 * has_fragment (source_ref e).

(** A field of the new entry is copied only into an empty field of the
    kept one, and only when it is itself non-empty. *)
Definition spec_fill (kept new : option string) : option string :=
  if py.truthy kept then kept
  else if py.truthy new then new else kept.

(** The elements of [xs] in order, each once (first occurrence), leaving
    out those of [seen]. *)
Fixpoint fresh_in_order (seen xs : list string) : list string :=
  match xs with
  | [] => []
  | x :: xs' =>
      if py.mem x seen then fresh_in_order seen xs'
      else x :: fresh_in_order (x :: seen) xs'
  end.

(** Order-preserving union: the kept list, then what the new one adds. *)
Definition spec_union (kept new : list string) : list string :=
  kept ++ fresh_in_order kept new.

Definition spec_merge (kept new : DocEntry) : DocEntry :=
  mkDocEntry (id kept) (name kept) (type kept) (parent_structure kept)
    (return_type kept) (access kept) (signature kept)
    (spec_fill (description kept) (description new))
    (spec_fill (snippet kept) (snippet new))
    (source_ref kept)
    (spec_union (tags kept) (tags new))
    (aliases kept)
    (spec_union (related kept) (related new))
    (deprecated kept) (deprecation_note kept).

Definition spec_resolve (kept new : DocEntry) : DocEntry :=
  if spec_score kept <? spec_score new then new else spec_merge kept new.

(** The invariant of [entry_map]: every key once, each entry under its
    own id. *)
Definition keyed (m : py.dict DocEntry) : Prop :=
  NoDup (py.keys m) /\ Forall (fun kv => id (snd kv) = fst kv) m.

(** The scenario of the specification: two [LOCK] entries. *)
Definition lock_first (n : string) (t : DocEntryType) : DocEntry :=
  set_tags (new_entry "LOCK" n t) ["language"].

Definition lock_second (n : string) (t : DocEntryType) : DocEntry :=
  set_description (set_tags (new_entry "LOCK" n t) ["core"])
    (Some "Locks a value").

End dedup.

Import dedup.

(** ** postprocess.py: the cross-referencer *)

Module xref.

(** *** The regular expression [\bNAME\b] of the description scan *)

Definition in_range (lo hi : nat) (c : ascii) : bool :=
  (lo <=? nat_of_ascii c) && (nat_of_ascii c <=? hi).

(** [\w] on ASCII text: letters, digits and the underscore. *)
Definition is_word_char (c : ascii) : bool :=
  in_range 48 57 c || in_range 65 90 c || in_range 97 122 c
  || Ascii.eqb c "_"%char.

Definition starts_with_word_char (s : string) : bool :=
  match s with
  | String c _ => is_word_char c
  | EmptyString => false
  end.

(** [\b] between a previous character (a word character or not; none at
    the start of the text) and the text that follows. *)
Definition boundary (prev_is_word : bool) (rest : string) : bool :=
  xorb prev_is_word (starts_with_word_char rest).

(** The text that follows a literal prefix, with what the last character
    consumed was. *)
Fixpoint after_literal (lit : string) (prev_is_word : bool) (s : string)
  : option (bool * string) :=
  match lit with
  | EmptyString => Some (prev_is_word, s)
  | String c lit' =>
      match s with
      | String d s' =>
          if Ascii.eqb c d then after_literal lit' (is_word_char d) s'
          else None
      | EmptyString => None
      end
  end.

Definition word_match_here (lit : string) (prev_is_word : bool) (s : string)
  : bool :=
  boundary prev_is_word s
  && match after_literal lit prev_is_word s with
     | Some (last_is_word, rest) => boundary last_is_word rest
     | None => false
     end.

Fixpoint word_search_from (lit : string) (prev_is_word : bool) (s : string)
  : bool :=
  word_match_here lit prev_is_word s
  || match s with
     | EmptyString => false
     | String c s' => word_search_from lit (is_word_char c) s'
     end.

(** [re.search(r"\b" + re.escape(lit) + r"\b", text)] as a truth value. *)
Definition re_search_word (lit text : string) : bool :=
  word_search_from lit false text.

(** *** [build_related_links] *)

(** [{e.id: e for e in entries}]. *)
Definition entry_by_id_of (entries : list DocEntry) : py.dict DocEntry :=
  fold_left (fun d e => py.set (id e) e d) entries [].

(** [k in d] for a dict. *)
Definition has_key (k : string) (d : py.dict DocEntry) : bool :=
  match py.get k d with
  | Some _ => true
  | None => false
  end.

(** Link suffixes to their parent structure. *)
Definition link_parent (entry_by_id : py.dict DocEntry) (entry : DocEntry)
  (related_ids : list string) : list string :=
  match parent_structure entry with
  | Some p =>
      if py.truthy (Some p) && has_key p entry_by_id
      then py.add p related_ids else related_ids
  | None => related_ids
  end.

(** [len([r for r in related_ids if r.startswith(entry.id + ":")])]. *)
Definition count_suffix_ids (entry : DocEntry) (related_ids : list string)
  : nat :=
  List.length
    (filter (fun r => py.startswith r (id entry ++ ":")%string) related_ids).

(** [other.parent_structure == entry.id]. *)
Definition parent_is (other entry : DocEntry) : bool :=
  match parent_structure other with
  | Some p => String.eqb p (id entry)
  | None => false
  end.

(** The body of [for other in entries] of the structure rule. *)
Definition link_suffix_step (entry : DocEntry) (related_ids : list string)
  (other : DocEntry) : list string :=
  if parent_is other entry && negb (String.eqb (id other) (id entry))
  then
    if count_suffix_ids entry related_ids <? 5
    then py.add (id other) related_ids else related_ids
  else related_ids.

(** Link structures to their suffixes. *)
Definition link_suffixes (entries : list DocEntry) (entry : DocEntry)
  (related_ids : list string) : list string :=
  match type entry with
  | STRUCTURE => fold_left (link_suffix_step entry) entries related_ids
  | _ => related_ids
  end.

Definition complementary_pairs : list (string * string) :=
  [ ("PROGRADE", "RETROGRADE");
    ("NORMAL", "ANTINORMAL");
    ("RADIAL", "ANTIRADIAL");
    ("LOCK", "UNLOCK");
    ("APOAPSIS", "PERIAPSIS");
    ("ETA:APOAPSIS", "ETA:PERIAPSIS") ].

Definition link_pair_step (entry_by_id : py.dict DocEntry) (entry : DocEntry)
  (related_ids : list string) (pair : string * string) : list string :=
  if String.eqb (id entry) (fst pair) && has_key (snd pair) entry_by_id
  then py.add (snd pair) related_ids
  else if String.eqb (id entry) (snd pair) && has_key (fst pair) entry_by_id
  then py.add (fst pair) related_ids
  else related_ids.

(** Link complementary pairs. *)
Definition link_pairs (entry_by_id : py.dict DocEntry) (entry : DocEntry)
  (related_ids : list string) : list string :=
  fold_left (link_pair_step entry_by_id entry) complementary_pairs related_ids.

(** The body of [for other_id, other_entry in entry_by_id.items()]. *)
Definition link_mention_step (entry : DocEntry) (desc_upper : string)
  (related_ids : list string) (item : string * DocEntry) : list string :=
  let (other_id, other_entry) := item in
  if String.eqb other_id (id entry) then related_ids
  else if py.contains (py.upper (name other_entry)) desc_upper
  then
    if re_search_word (py.upper (name other_entry)) desc_upper
    then py.add other_id related_ids else related_ids
  else related_ids.

(** Check the description for references to other entries. *)
Definition link_mentions (entry_by_id : py.dict DocEntry) (entry : DocEntry)
  (related_ids : list string) : list string :=
  match description entry with
  | Some d =>
      if py.truthy (Some d)
      then fold_left (link_mention_step entry (py.upper d)) entry_by_id
             related_ids
      else related_ids
  | None => related_ids
  end.

(** The set [related_ids] of one entry when the loop body reaches its last
    statement. *)
Definition related_ids_of (entries : list DocEntry) (entry : DocEntry)
  : list string :=
  let entry_by_id := entry_by_id_of entries in
  let related_ids := py.set_of (related entry) in
  let related_ids := link_parent entry_by_id entry related_ids in
  let related_ids := link_suffixes entries entry related_ids in
  let related_ids := link_pairs entry_by_id entry related_ids in
  let related_ids := link_mentions entry_by_id entry related_ids in
  related_ids.

(** [entry.related = list(related_ids)[:10]], with [enum] the order in
    which the set is enumerated. *)
Definition relink (enum : list string -> list string)
  (entries : list DocEntry) (entry : DocEntry) : DocEntry :=
  set_related entry (firstn 10 (enum (related_ids_of entries entry))).

(** The loop [for entry in entries] of [build_related_links]: [visited] are
    the entries the loop has already rewritten, [todo] those it has yet to
    reach. The body reads the other entries (through [entries] and through
    [entry_by_id], which holds the same objects) as they are at that moment,
    and writes [related] of its own entry. *)
Fixpoint relink_loop (enum : list string -> list string)
  (visited todo : list DocEntry) : list DocEntry :=
  match todo with
  | [] => visited
  | entry :: rest =>
      relink_loop enum
        (visited ++ [relink enum (visited ++ entry :: rest) entry]) rest
  end.

(** [build_related_links(entries)]: the entries as the loop leaves them.
    ([entry_by_name] is built and never read.) *)
Definition build_related_links (enum : list string -> list string)
  (entries : list DocEntry) : list DocEntry :=
  relink_loop enum [] entries.

(** What an iteration reads of the other entries. *)
Definition same_core (a b : DocEntry) : Prop :=
  id a = id b /\ name a = name b /\ parent_structure a = parent_structure b.

Definition same_item (kv kv' : string * DocEntry) : Prop :=
  fst kv = fst kv' /\ same_core (snd kv) (snd kv').

(** Two enumeration orders: by insertion, and its reverse. *)
Definition insertion_order (s : list string) : list string := s.
Definition reverse_order (s : list string) : list string := rev s.

(** *** [validate_cross_references] *)

Definition parent_warning (entry : DocEntry) (p : string) : string :=
  ("Entry " ++ id entry ++ " references non-existent parent: " ++ p)%string.

(** The loop body: the entry as it is left, and the warnings it adds. *)
Definition validate_entry (entry_ids : list string) (entry : DocEntry)
  : DocEntry * list string :=
  let invalid_related :=
    filter (fun r => negb (py.mem r entry_ids)) (related entry) in
  let entry :=
    match invalid_related with
    | [] => entry
    | _ :: _ =>
        set_related entry
          (filter (fun r => py.mem r entry_ids) (related entry))
    end in
  let warnings :=
    match parent_structure entry with
    | Some p =>
        if py.truthy (Some p) && negb (py.mem p entry_ids)
        then [parent_warning entry p] else []
    | None => []
    end in
  (entry, warnings).

(** [validate_cross_references(entries)]: the entries as they are left,
    with the returned [(errors, warnings)]. *)
Definition validate_cross_references (entries : list DocEntry)
  : list DocEntry * (list string * list string) :=
  let errors : list string := [] in
  let entry_ids := py.set_of (map id entries) in
  let results := map (validate_entry entry_ids) entries in
  (map fst results, (errors, concat (map snd results))).

(** The parent id of an entry that has one. *)
Definition parent_of (entry : DocEntry) : string :=
  match parent_structure entry with
  | Some p => p
  | None => EmptyString
  end.

(** An entry whose truthy [parent_structure] names no entry. *)
Definition dangling_parent (entries : list DocEntry) (entry : DocEntry)
  : bool :=
  match parent_structure entry with
  | Some p => py.truthy (Some p) && negb (py.mem p (map id entries))
  | None => false
  end.

End xref.

Import xref.

(** ** Concrete entry collections *)

Module samples.

(** A suffix [VESSEL:<n>] of the structure [VESSEL]. *)
Definition vessel_suffix (n : string) : DocEntry :=
  mkDocEntry ("VESSEL:" ++ n)%string n SUFFIX (Some "VESSEL") None GET None
    None None None [] [] [] false None.

Definition vessel : DocEntry := new_entry "VESSEL" "VESSEL" STRUCTURE.

(** A structure with six suffixes. *)
Definition vessel_entries : list DocEntry :=
  [ vessel; vessel_suffix "ALTITUDE"; vessel_suffix "APOAPSIS";
    vessel_suffix "PERIAPSIS"; vessel_suffix "VELOCITY";
    vessel_suffix "MASS"; vessel_suffix "THRUST" ].

(** An entry that arrives with its own id among its related ids. *)
Definition self_related : DocEntry :=
  set_related (new_entry "LOCK" "LOCK" KEYWORD) ["LOCK"; "UNLOCK"].

(** [PROGRADE] arriving with ten related ids, and [RETROGRADE]. *)
Definition prograde_crowded : DocEntry :=
  set_related (new_entry "PROGRADE" "PROGRADE" CONSTANT)
    [ "NORMAL"; "ANTINORMAL"; "RADIAL"; "ANTIRADIAL"; "SRFPROGRADE";
      "SRFRETROGRADE"; "STEERING"; "THROTTLE"; "LOCK"; "HEADING" ].

Definition retrograde : DocEntry :=
  new_entry "RETROGRADE" "RETROGRADE" CONSTANT.


(** A suffix that no tag rule matches, under a parent that none matches. *)
Definition pidloop_kp : DocEntry :=
  mkDocEntry "PIDLOOP:KP" "KP" SUFFIX (Some "PIDLOOP") None GET_SET None
    None None None [] [] [] false None.

(** A suffix whose parent is missing and whose related ids dangle. *)
Definition orphan : DocEntry :=
  mkDocEntry "ORBIT:PERIOD" "PERIOD" SUFFIX (Some "ORBIT") None GET None
    None None None [] [] ["ORBIT:ETA"; "VESSEL"] false None.

(** Two entries for one id whose descriptions differ in script: five Greek
    letters, two bytes each, and seven ASCII letters. *)
Definition greek_delta : string :=
  String (ascii_of_nat 206) (String (ascii_of_nat 148) EmptyString).

Definition delta_first : DocEntry :=
  set_description (new_entry "DELTAV" "DELTAV" CONSTANT)
    (Some (greek_delta ++ greek_delta ++ greek_delta ++ greek_delta
           ++ greek_delta)%string).

Definition delta_second : DocEntry :=
  set_description (new_entry "DELTAV" "DELTAV" CONSTANT) (Some "delta-v").

(** A member listed before its structure, which arrives tagged. *)
Definition tagged_vessel : DocEntry := set_tags vessel ["vessel"; "core"].

Definition tagged_family : list DocEntry :=
  [ vessel_suffix "MASS"; tagged_vessel ].

End samples.

Import samples.

(** ** tag_taxonomy.py *)

Module tag_taxonomy.

(** The three shapes of regular expression in [TAG_PATTERNS]:
    [Starts "X"] is [^X], [StartsSegment "X"] is [^X(:|$)] and
    [EndsWith ":X"] is [:X$]. *)
Inductive tag_pattern : Type :=
| Starts (x : string)
| StartsSegment (x : string)
| EndsWith (x : string).

(** [$] without MULTILINE: the end of the text, or just before a newline
    that ends the text. *)
Definition at_end (s : string) : bool :=
  match s with
  | EmptyString => true
  | String c EmptyString => Ascii.eqb c (ascii_of_nat 10)
  | _ => false
  end.

(** The text that follows the literal [x] at the start of [s]. *)
Fixpoint after_prefix (x s : string) : option string :=
  match x with
  | EmptyString => Some s
  | String c x' =>
      match s with
      | String d s' => if Ascii.eqb c d then after_prefix x' s' else None
      | EmptyString => None
      end
  end.

(** The literal [x] followed by [$], tried at the start of [s]. *)
Definition literal_then_end (x s : string) : bool :=
  match after_prefix x s with
  | Some rest => at_end rest
  | None => false
  end.

(** The literal [x] followed by [$], tried at every position of [s]. *)
Fixpoint search_literal_then_end (x s : string) : bool :=
  literal_then_end x s
  || match s with
     | EmptyString => false
     | String _ s' => search_literal_then_end x s'
     end.

(** [re.search(pattern, text)] as a truth value. *)
Definition re_search (pattern : tag_pattern) (text : string) : bool :=
  match pattern with
  | Starts x =>
      match after_prefix x text with
      | Some _ => true
      | None => false
      end
  | StartsSegment x =>
      match after_prefix x text with
      | Some rest => py.startswith rest ":" || at_end rest
      | None => false
      end
  | EndsWith x => search_literal_then_end x text
  end.

Definition TAG_PATTERNS : list (tag_pattern * list string) :=
  [ (StartsSegment "VESSEL", ["vessel"; "core"]);
    (StartsSegment "SHIP", ["vessel"; "core"]);
    (StartsSegment "ORBIT", ["orbit"]);
    (StartsSegment "BODY", ["body"]);
    (StartsSegment "PART", ["part"]);
    (StartsSegment "ENGINE", ["part"; "control"]);
    (StartsSegment "SENSOR", ["part"; "science"]);
    (Starts "SCIENCE", ["science"]);
    (Starts "ANTENNA", ["communication"; "part"]);
    (Starts "COMM", ["communication"]);
    (Starts "DOCK", ["docking"; "part"]);
    (Starts "CREW", ["crew"]);
    (Starts "KERBAL", ["crew"]);
    (Starts "MANEUVER", ["maneuver"; "orbit"]);
    (StartsSegment "NODE", ["maneuver"; "orbit"]);
    (StartsSegment "STAGE", ["staging"]);
    (Starts "RESOURCE", ["resource"; "fuel"]);
    (Starts "GUI", ["gui"]);
    (Starts "WIDGET", ["gui"]);
    (Starts "FILE", ["io"]);
    (Starts "VOLUME", ["io"]);
    (Starts "TIME", ["time"]);
    (Starts "TIMESTAMP", ["time"]);
    (StartsSegment "LIST", ["collection"]);
    (Starts "LEXICON", ["collection"]);
    (Starts "ITERATOR", ["collection"]);
    (Starts "RANGE", ["collection"]);
    (Starts "QUEUE", ["collection"]);
    (Starts "STACK", ["collection"]);
    (StartsSegment "VECTOR", ["vector"; "math"]);
    (StartsSegment "DIRECTION", ["direction"; "navigation"]);
    (Starts "HEADING", ["direction"; "navigation"]);
    (Starts "GEOPOSITION", ["position"; "navigation"; "body"]);
    (Starts "LATLNG", ["position"; "navigation"]);
    (Starts "ATMOSPHERE", ["atmosphere"; "body"]);
    (Starts "WAYPOINT", ["navigation"]);
    (EndsWith ":ALTITUDE", ["vessel"; "position"]);
    (EndsWith ":APOAPSIS", ["orbit"]);
    (EndsWith ":PERIAPSIS", ["orbit"]);
    (EndsWith ":INCLINATION", ["orbit"]);
    (EndsWith ":ECCENTRICITY", ["orbit"]);
    (EndsWith ":SEMIMAJORAXIS", ["orbit"]);
    (EndsWith ":VELOCITY", ["velocity"]);
    (EndsWith ":POSITION", ["position"]);
    (EndsWith ":FACING", ["direction"; "rotation"]);
    (EndsWith ":UP", ["direction"]);
    (EndsWith ":NORTH", ["direction"]);
    (EndsWith ":HEADING", ["direction"; "navigation"]);
    (EndsWith ":THRUST", ["control"]);
    (EndsWith ":THROTTLE", ["control"]);
    (EndsWith ":MASS", ["vessel"]);
    (EndsWith ":DRYMASS", ["vessel"; "fuel"]);
    (EndsWith ":WETMASS", ["vessel"; "fuel"]);
    (EndsWith ":MAXTHRUST", ["control"; "part"]);
    (EndsWith ":ISP", ["control"; "fuel"]);
    (EndsWith ":STAGE", ["staging"]);
    (EndsWith ":RESOURCES", ["resource"]);
    (EndsWith ":FUEL", ["fuel"; "resource"]);
    (EndsWith ":LIQUIDFUEL", ["fuel"; "resource"]);
    (EndsWith ":OXIDIZER", ["fuel"; "resource"]);
    (EndsWith ":MONOPROPELLANT", ["fuel"; "resource"]);
    (EndsWith ":ELECTRICCHARGE", ["resource"]);
    (EndsWith ":CREW", ["crew"]);
    (EndsWith ":PARTS", ["part"]);
    (EndsWith ":ENGINES", ["part"; "control"]);
    (EndsWith ":SENSORS", ["part"; "science"]);
    (EndsWith ":ETA", ["time"; "orbit"]);
    (EndsWith ":PERIOD", ["time"; "orbit"]);
    (EndsWith ":BODY", ["body"]);
    (EndsWith ":SOI", ["body"; "orbit"]);
    (EndsWith ":ATMOSPHERE", ["atmosphere"; "body"]);
    (EndsWith ":HASATMOSPHERE", ["atmosphere"; "body"]);
    (EndsWith ":STATUS", ["vessel"]);
    (EndsWith ":SITUATION", ["vessel"]);
    (EndsWith ":CONTROL", ["control"]);
    (EndsWith ":CONNECTION", ["communication"]);
    (EndsWith ":SIGNAL", ["communication"]);
    (EndsWith ":EXPERIMENTS", ["science"]);
    (EndsWith ":DATA", ["science"]);
    (EndsWith ":MAG", ["vector"; "math"]);
    (EndsWith ":NORMALIZED", ["vector"; "math"]);
    (EndsWith ":X", ["vector"; "position"]);
    (EndsWith ":Y", ["vector"; "position"]);
    (EndsWith ":Z", ["vector"; "position"]);
    (EndsWith ":ROLL", ["rotation"; "direction"]);
    (EndsWith ":PITCH", ["rotation"; "direction"]);
    (EndsWith ":YAW", ["rotation"; "direction"]);
    (EndsWith ":TARGET", ["navigation"]);
    (EndsWith ":HASTARGET", ["navigation"]) ].

Definition KEYWORD_TAG_HINTS : py.dict (list string) :=
  [ ("THROTTLE", ["control"; "core"]);
    ("STEERING", ["control"; "navigation"; "core"]);
    ("LOCK", ["binding"; "core"]);
    ("UNLOCK", ["binding"]);
    ("SAS", ["control"; "autopilot"; "systems"]);
    ("RCS", ["control"; "systems"]);
    ("GEAR", ["systems"; "landing"]);
    ("LIGHTS", ["systems"]);
    ("BRAKES", ["systems"; "landing"]);
    ("ABORT", ["systems"; "staging"]);
    ("AG1", ["action"; "systems"]);
    ("AG2", ["action"; "systems"]);
    ("AG3", ["action"; "systems"]);
    ("AG4", ["action"; "systems"]);
    ("AG5", ["action"; "systems"]);
    ("AG6", ["action"; "systems"]);
    ("AG7", ["action"; "systems"]);
    ("AG8", ["action"; "systems"]);
    ("AG9", ["action"; "systems"]);
    ("AG10", ["action"; "systems"]);
    ("PROGRADE", ["direction"; "navigation"; "orbit"]);
    ("RETROGRADE", ["direction"; "navigation"; "orbit"]);
    ("NORMAL", ["direction"; "navigation"; "orbit"]);
    ("ANTINORMAL", ["direction"; "navigation"; "orbit"]);
    ("RADIAL", ["direction"; "navigation"; "orbit"]);
    ("ANTIRADIAL", ["direction"; "navigation"; "orbit"]);
    ("SRFPROGRADE", ["direction"; "navigation"; "flight"]);
    ("SRFRETROGRADE", ["direction"; "navigation"; "flight"]);
    ("TARGET", ["navigation"]);
    ("WAIT", ["time"; "core"]);
    ("WHEN", ["trigger"]);
    ("ON", ["trigger"]);
    ("UNTIL", ["language"; "core"]);
    ("IF", ["language"; "core"]);
    ("ELSE", ["language"; "core"]);
    ("FOR", ["language"; "collection"]);
    ("FROM", ["language"]);
    ("SET", ["language"; "core"]);
    ("PRINT", ["io"; "core"]);
    ("LOG", ["io"]);
    ("RUN", ["language"; "core"]);
    ("RUNPATH", ["language"; "io"]);
    ("RUNONCEPATH", ["language"; "io"]);
    ("STAGE", ["staging"; "core"]);
    ("REBOOT", ["systems"]);
    ("SHUTDOWN", ["systems"]);
    ("ABS", ["math"; "function"]);
    ("CEILING", ["math"; "function"]);
    ("FLOOR", ["math"; "function"]);
    ("ROUND", ["math"; "function"]);
    ("SQRT", ["math"; "function"]);
    ("LN", ["math"; "function"]);
    ("LOG10", ["math"; "function"]);
    ("MIN", ["math"; "function"]);
    ("MAX", ["math"; "function"]);
    ("MOD", ["math"; "function"]);
    ("SIN", ["math"; "function"]);
    ("COS", ["math"; "function"]);
    ("TAN", ["math"; "function"]);
    ("ARCSIN", ["math"; "function"]);
    ("ARCCOS", ["math"; "function"]);
    ("ARCTAN", ["math"; "function"]);
    ("ARCTAN2", ["math"; "function"]);
    ("RANDOM", ["math"; "function"]);
    ("V", ["vector"; "math"; "function"]);
    ("R", ["direction"; "rotation"; "function"]);
    ("Q", ["rotation"; "function"]);
    ("HEADING", ["direction"; "navigation"; "function"]);
    ("LOOKDIRUP", ["direction"; "rotation"; "function"]);
    ("ANGLEAXIS", ["rotation"; "math"; "function"]);
    ("ROTATEFROMTO", ["rotation"; "math"; "function"]);
    ("VCRS", ["vector"; "math"; "function"]);
    ("VDOT", ["vector"; "math"; "function"]);
    ("VANG", ["vector"; "math"; "function"]);
    ("VXCL", ["vector"; "math"; "function"]) ].

Definition RETURN_TYPE_TAGS : py.dict (list string) :=
  [ ("vector", ["vector"]);
    ("direction", ["direction"]);
    ("scalar", ["numeric"]);
    ("number", ["numeric"]);
    ("boolean", ["boolean"]);
    ("bool", ["boolean"]);
    ("string", ["string"]);
    ("list", ["collection"]);
    ("lexicon", ["collection"]);
    ("iterator", ["collection"]);
    ("timespan", ["time"]);
    ("timestamp", ["time"]);
    ("geoposition", ["position"; "navigation"]);
    ("vessel", ["vessel"]);
    ("body", ["body"]);
    ("orbit", ["orbit"]);
    ("part", ["part"]) ].

Definition description_hints : py.dict (list string) :=
  [ ("orbit", ["orbit"; "orbital"; "apoapsis"; "periapsis"; "inclination"]);
    ("maneuver", ["maneuver"; "burn"; "delta-v"; "deltav"]);
    ("velocity", ["velocity"; "speed"]);
    ("position", ["position"; "coordinate"; "location"]);
    ("autopilot", ["autopilot"; "auto-pilot"; "cooked control"]);
    ("trajectory", ["trajectory"; "path"; "prediction"]);
    ("atmosphere", ["atmosphere"; "atmospheric"; "air"]);
    ("docking", ["dock"; "docking"; "port"]);
    ("landing", ["land"; "landing"; "touchdown"; "gear"]);
    ("staging", ["stage"; "staging"; "decouple"; "separate"]) ].

Definition get_tags_from_patterns (entry_id : string) : list string :=
  let entry_upper := py.upper entry_id in
  fold_left
    (fun tags item =>
       if re_search (fst item) entry_upper
       then py.update tags (snd item) else tags)
    TAG_PATTERNS [].

Definition get_tags_from_keyword (name : string) : list string :=
  let name_upper := py.upper name in
  match py.get name_upper KEYWORD_TAG_HINTS with
  | Some hints => py.set_of hints
  | None => []
  end.

Definition get_tags_from_return_type (return_type : option string)
  : list string :=
  match return_type with
  | Some (String c r) =>
      let type_lower := py.lower (String c r) in
      fold_left
        (fun tags item =>
           if py.contains (fst item) type_lower
           then py.update tags (snd item) else tags)
        RETURN_TYPE_TAGS []
  | _ => []
  end.

Definition get_tags_from_description (description : option string)
  : list string :=
  match description with
  | Some (String c d) =>
      let desc_lower := py.lower (String c d) in
      fold_left
        (fun tags item =>
           if existsb (fun keyword => py.contains keyword desc_lower)
                (snd item)
           then py.add (fst item) tags else tags)
        description_hints []
  | _ => []
  end.

Definition type_tags (t : DocEntryType) : list string :=
  match t with
  | STRUCTURE => ["structure"]
  | SUFFIX => []
  | FUNCTION => ["function"]
  | KEYWORD => ["keyword"]
  | CONSTANT => ["constant"]
  | COMMAND => ["command"]
  end.

(** [sorted]: strings in code-point order. *)
Fixpoint insert_sorted (x : string) (l : list string) : list string :=
  match l with
  | [] => [x]
  | y :: l' => if String.leb x y then x :: l else y :: insert_sorted x l'
  end.

Definition sorted (l : list string) : list string :=
  fold_right insert_sorted [] l.

(** The set [tags] when [assign_tags_to_entry] reaches its [return]. *)
Definition assigned_tag_set (entry : DocEntry) : list string :=
  let tags := py.set_of (tags entry) in
  let tags := py.update tags (get_tags_from_patterns (id entry)) in
  let tags := py.update tags (get_tags_from_keyword (name entry)) in
  let tags := py.update tags (get_tags_from_return_type (return_type entry)) in
  let tags := py.update tags (get_tags_from_description (description entry)) in
  let tags := py.update tags (type_tags (type entry)) in
  let tags := if deprecated entry then py.add "deprecated" tags else tags in
  if List.length tags <? 2
  then
    let tags :=
      match parent_structure entry with
      | Some (String c p) =>
          py.update tags (get_tags_from_patterns (String c p))
      | _ => tags
      end in
    if List.length tags <? 2 then py.add "misc" tags else tags
  else tags.

(** [assign_tags_to_entry]: [sorted(list(tags))]; the set holds each
    string once, so the sorted list is the same in whatever order the set
    is enumerated. *)
Definition assign_tags_to_entry (entry : DocEntry) : list string :=
  sorted (assigned_tag_set entry).

End tag_taxonomy.

Import tag_taxonomy.

(** ** metadata_mappings.py *)

Module metadata_mappings.

Definition STRUCTURE_CATEGORIES : py.dict string :=
  [ ("VESSEL", "Vessel Properties");
    ("SHIP", "Vessel Properties");
    ("ORBITABLE", "Vessel Properties");
    ("VESSELALT", "Vessel Properties");
    ("BOUNDS", "Vessel Properties");
    ("CREWMEMBER", "Vessel Properties");
    ("ORBIT", "Orbital Mechanics");
    ("ORBITETA", "Orbital Mechanics");
    ("ORBITINFO", "Orbital Mechanics");
    ("BODY", "Celestial Bodies");
    ("ATMOSPHERE", "Celestial Bodies");
    ("GEOPOSITION", "Celestial Bodies");
    ("LATLNG", "Celestial Bodies");
    ("WAYPOINT", "Celestial Bodies");
    ("PART", "Parts & Modules");
    ("PARTMODULE", "Parts & Modules");
    ("ENGINE", "Parts & Modules");
    ("GIMBAL", "Parts & Modules");
    ("DECOUPLER", "Parts & Modules");
    ("SEPARATOR", "Parts & Modules");
    ("DOCKINGPORT", "Parts & Modules");
    ("SENSOR", "Parts & Modules");
    ("LAUNCHCLAMP", "Parts & Modules");
    ("RCS", "Parts & Modules");
    ("SOLARPANEL", "Parts & Modules");
    ("CONSUMEDRESOURCE", "Parts & Modules");
    ("RESOURCE", "Resources");
    ("AGGREGATERESOURCE", "Resources");
    ("STAGEVALUES", "Resources");
    ("CONTROL", "Flight Control");
    ("STEERINGMANAGER", "Flight Control");
    ("PIDLOOP", "Flight Control");
    ("MANEUVERNODE", "Maneuvers & Navigation");
    ("NODE", "Maneuvers & Navigation");
    ("DIRECTION", "Maneuvers & Navigation");
    ("HEADING", "Maneuvers & Navigation");
    ("VECTOR", "Math & Vectors");
    ("SCALAR", "Math & Vectors");
    ("CONSTANT", "Math & Vectors");
    ("LIST", "Collections");
    ("LEXICON", "Collections");
    ("ITERATOR", "Collections");
    ("RANGE", "Collections");
    ("QUEUE", "Collections");
    ("STACK", "Collections");
    ("UNIQUESET", "Collections");
    ("FILE", "I/O & Communication");
    ("VOLUME", "I/O & Communication");
    ("VOLUMEFILE", "I/O & Communication");
    ("VOLUMEDIRECTORY", "I/O & Communication");
    ("VOLUMEITEM", "I/O & Communication");
    ("CORE", "I/O & Communication");
    ("PROCESSOR", "I/O & Communication");
    ("CONNECTION", "I/O & Communication");
    ("MESSAGE", "I/O & Communication");
    ("MESSAGEQUEUE", "I/O & Communication");
    ("GUI", "GUI Elements");
    ("WIDGET", "GUI Elements");
    ("BOX", "GUI Elements");
    ("BUTTON", "GUI Elements");
    ("LABEL", "GUI Elements");
    ("TEXTFIELD", "GUI Elements");
    ("POPUPMENU", "GUI Elements");
    ("SLIDER", "GUI Elements");
    ("SCROLLBOX", "GUI Elements");
    ("SPACING", "GUI Elements");
    ("SKIN", "GUI Elements");
    ("STYLE", "GUI Elements");
    ("STYLESTATE", "GUI Elements");
    ("STYLERECTSTYLE", "GUI Elements");
    ("TIPDISPLAY", "GUI Elements");
    ("TIME", "Time");
    ("TIMESPAN", "Time");
    ("TIMESTAMP", "Time");
    ("KUNIVERSE", "Time");
    ("SCIENCEDATA", "Science");
    ("SCIENCEEXPERIMENT", "Science");
    ("SCIENCEEXPERIMENTMODULE", "Science");
    ("CAREER", "Career");
    ("CONTRACT", "Career");
    ("CONTRACTPARAMETER", "Career");
    ("NOTE", "Career");
    ("RGBA", "Colors & Styling");
    ("HSVA", "Colors & Styling");
    ("HIGHLIGHT", "Colors & Styling");
    ("VECDRAW", "Colors & Styling");
    ("VECDRAWARGS", "Colors & Styling");
    ("ADDON", "Addons");
    ("ADDONLIST", "Addons") ].

Definition TYPE_CATEGORIES : py.dict string :=
  [ ("function", "Built-in Functions");
    ("keyword", "Language Keywords");
    ("command", "Commands");
    ("constant", "Constants") ].

(** [d.get(k, default)]. *)
Definition get_default (k default : string) (d : py.dict string) : string :=
  match py.get k d with
  | Some v => v
  | None => default
  end.

(** The loop [for struct, category in STRUCTURE_CATEGORIES.items()] with
    its [return] on the first hit. *)
Fixpoint first_structure_prefix (id_upper : string) (items : py.dict string)
  : option string :=
  match items with
  | [] => None
  | (struct, category) :: items' =>
      if py.startswith id_upper (struct ++ ":")%string
         || String.eqb id_upper struct
      then Some category
      else first_structure_prefix id_upper items'
  end.

Definition get_category_for_entry (entry : DocEntry) : option string :=
  if DocEntryType_eqb (type entry) FUNCTION
  then Some (get_default "function" "Built-in Functions" TYPE_CATEGORIES)
  else if DocEntryType_eqb (type entry) KEYWORD
  then Some (get_default "keyword" "Language Keywords" TYPE_CATEGORIES)
  else if DocEntryType_eqb (type entry) COMMAND
  then Some (get_default "command" "Commands" TYPE_CATEGORIES)
  else if DocEntryType_eqb (type entry) CONSTANT
  then Some (get_default "constant" "Constants" TYPE_CATEGORIES)
  else
    let structure_name :=
      match parent_structure entry with
      | Some (String c p) => String c p
      | _ => name entry
      end in
    match py.get (py.upper structure_name) STRUCTURE_CATEGORIES with
    | Some category => Some category
    | None =>
        let parts0 := py.split_head ":" (py.upper structure_name) in
        match py.get parts0 STRUCTURE_CATEGORIES with
        | Some category => Some category
        | None =>
            first_structure_prefix (py.upper (id entry)) STRUCTURE_CATEGORIES
        end
    end.


End metadata_mappings.

Import metadata_mappings.

(** ** postprocess.py: the essential-entry injector *)

Module essentials.

(** A value of [ESSENTIAL_ENTRIES]: a dict in which "type" is always set and
    the other keys may be missing. *)
Record essential : Type := mkEssential {
  e_type : DocEntryType;
  e_return_type : option string;
  e_access : option DocAccessMode;
  e_description : option string;
  e_signature : option string;
  e_snippet : option string;
  e_tags : option (list string);
  e_related : option (list string)
}.

(** The newline of the snippets. *)
Definition nl : string := String (ascii_of_nat 10) EmptyString.

Definition ESSENTIAL_ENTRIES : py.dict essential :=
  [ ("RETROGRADE",
   mkEssential CONSTANT (Some "Direction") (Some GET)
     (Some "A direction pointing opposite to the vessel's orbital velocity. Used for deceleration burns.")
     None
     (Some "LOCK STEERING TO RETROGRADE.")
     (Some ["constant"; "direction"; "navigation"; "orbit"])
     (Some ["PROGRADE"; "NORMAL"; "RADIAL"]));
    ("ANTINORMAL",
   mkEssential CONSTANT (Some "Direction") (Some GET)
     (Some "A direction pointing opposite to normal, perpendicular to the orbit plane.")
     None
     None
     (Some ["constant"; "direction"; "navigation"; "orbit"])
     (Some ["NORMAL"; "PROGRADE"; "RETROGRADE"]));
    ("RADIAL",
   mkEssential CONSTANT (Some "Direction") (Some GET)
     (Some "A direction pointing away from the body being orbited (radially outward).")
     None
     None
     (Some ["constant"; "direction"; "navigation"; "orbit"])
     (Some ["ANTIRADIAL"; "PROGRADE"; "NORMAL"]));
    ("ANTIRADIAL",
   mkEssential CONSTANT (Some "Direction") (Some GET)
     (Some "A direction pointing toward the body being orbited (radially inward).")
     None
     None
     (Some ["constant"; "direction"; "navigation"; "orbit"])
     (Some ["RADIAL"; "PROGRADE"; "NORMAL"]));
    ("SRFPROGRADE",
   mkEssential CONSTANT (Some "Direction") (Some GET)
     (Some "Surface prograde - the direction of travel relative to the surface.")
     None
     None
     (Some ["constant"; "direction"; "navigation"; "flight"])
     (Some ["SRFRETROGRADE"; "PROGRADE"]));
    ("SRFRETROGRADE",
   mkEssential CONSTANT (Some "Direction") (Some GET)
     (Some "Surface retrograde - opposite to the direction of travel relative to the surface.")
     None
     None
     (Some ["constant"; "direction"; "navigation"; "flight"])
     (Some ["SRFPROGRADE"; "RETROGRADE"]));
    ("VECTOR",
   mkEssential STRUCTURE None None
     (Some "A 3D vector with X, Y, Z components. Used for positions, velocities, and directions. Create with V(x,y,z) function.")
     None
     (Some ("SET myVec TO V(1, 2, 3)." ++ nl ++ "PRINT myVec:MAG. // magnitude")%string)
     (Some ["math"; "vector"; "core"])
     (Some ["DIRECTION"; "FUNCTION:V"]));
    ("THROTTLE",
   mkEssential KEYWORD (Some "Scalar") None
     (Some "A special variable that controls the vessel's throttle. Lock it to a value between 0.0 (no thrust) and 1.0 (full thrust).")
     (Some "LOCK THROTTLE TO value.")
     (Some ("LOCK THROTTLE TO 1.0." ++ nl ++ "WAIT UNTIL SHIP:APOAPSIS > 80000." ++ nl ++ "LOCK THROTTLE TO 0.")%string)
     (Some ["control"; "flight"; "keyword"])
     (Some ["LOCK"; "STEERING"]));
    ("STEERING",
   mkEssential KEYWORD (Some "Direction") None
     (Some "A special variable that controls the vessel's attitude. Lock it to a direction to have the autopilot point the ship.")
     (Some "LOCK STEERING TO direction.")
     (Some ("LOCK STEERING TO PROGRADE." ++ nl ++ "WAIT 5." ++ nl ++ "LOCK STEERING TO HEADING(90, 45).")%string)
     (Some ["control"; "navigation"; "flight"; "keyword"])
     (Some ["LOCK"; "THROTTLE"; "PROGRADE"])) ].

(** [d.get(key, default)] on a possibly missing key. *)
Definition or_default {A : Type} (default : A) (o : option A) : A :=
  match o with
  | Some a => a
  | None => default
  end.

(** The [DocEntry(...)] built for a missing essential id. *)
Definition essential_entry (base_url : string) (item : string * essential)
  : DocEntry :=
  let (entry_id, entry_data) := item in
  mkDocEntry entry_id entry_id (e_type entry_data) None
    (e_return_type entry_data) (or_default NONE (e_access entry_data))
    (e_signature entry_data) (e_description entry_data)
    (e_snippet entry_data) (Some base_url)
    (or_default [] (e_tags entry_data)) []
    (or_default [] (e_related entry_data)) false None.

(** The body of [for entry_id, entry_data in ESSENTIAL_ENTRIES.items()] on
    the pair of [entries] and [added]. *)
Definition add_essential_step (existing_ids : list string) (base_url : string)
  (state : list DocEntry * nat) (item : string * essential)
  : list DocEntry * nat :=
  let (entries, added) := state in
  if negb (py.mem (fst item) existing_ids)
  then (entries ++ [essential_entry base_url item], added + 1)
  else (entries, added).

(** [entries] and [added] when the loop ends; [existing_ids] is computed
    once, before the loop. *)
Definition add_essential_loop (entries : list DocEntry) (base_url : string)
  : list DocEntry * nat :=
  let existing_ids := py.set_of (map id entries) in
  fold_left (add_essential_step existing_ids base_url) ESSENTIAL_ENTRIES
    (entries, 0).

Definition add_essential_entries (entries : list DocEntry) (base_url : string)
  : list DocEntry :=
  fst (add_essential_loop entries base_url).

(** The number the function reports when it is positive. *)
Definition added_count (entries : list DocEntry) (base_url : string) : nat :=
  snd (add_essential_loop entries base_url).

End essentials.

Import essentials.

(** ** postprocess.py: tags inferred from relationships *)

Module infer.

(** [next((e for e in entries if e.id == entry.parent_structure), None)]. *)
Definition find_by_id (p : string) (entries : list DocEntry)
  : option DocEntry :=
  find (fun e => String.eqb (id e) p) entries.

(** The tags of the parent, without those that are not propagated. *)
Definition parent_tags_to_add (parent : DocEntry) (tags_to_add : list string)
  : list string :=
  fold_left
    (fun acc tag => if negb (py.mem tag ["core"]) then py.add tag acc else acc)
    (tags parent) tags_to_add.

(** The tags read off the lowercased return type. *)
Definition return_type_tags_to_add (type_lower : string)
  (tags_to_add : list string) : list string :=
  let tags_to_add :=
    if py.contains "vector" type_lower
    then py.add "vector" tags_to_add else tags_to_add in
  let tags_to_add :=
    if py.contains "direction" type_lower
    then py.add "direction" tags_to_add else tags_to_add in
  let tags_to_add :=
    if py.contains "scalar" type_lower || py.contains "number" type_lower
    then py.add "numeric" tags_to_add else tags_to_add in
  let tags_to_add :=
    if py.contains "list" type_lower
    then py.add "collection" tags_to_add else tags_to_add in
  let tags_to_add :=
    if py.contains "boolean" type_lower || py.contains "bool" type_lower
    then py.add "boolean" tags_to_add else tags_to_add in
  tags_to_add.

(** The set [tags_to_add] of one iteration; [entries] is the collection as
    the iteration finds it. *)
Definition tags_to_add_of (entries : list DocEntry) (entry : DocEntry)
  : list string :=
  let tags_to_add : list string := [] in
  let tags_to_add :=
    match parent_structure entry with
    | Some (String c p) =>
        match find_by_id (String c p) entries with
        | Some parent => parent_tags_to_add parent tags_to_add
        | None => tags_to_add
        end
    | _ => tags_to_add
    end in
  match return_type entry with
  | Some (String c r) =>
      return_type_tags_to_add (py.lower (String c r)) tags_to_add
  | _ => tags_to_add
  end.

(** One iteration: the entry with the inferred tags appended, in the order
    [enum] in which the set is enumerated. *)
Definition infer_entry (enum : list string -> list string)
  (entries : list DocEntry) (entry : DocEntry) : DocEntry :=
  set_tags entry
    (append_missing (tags entry) (enum (tags_to_add_of entries entry))).

(** The loop [for entry in entries]: an iteration reads the tags of the
    parent as the earlier iterations left them. *)
Fixpoint infer_loop (enum : list string -> list string)
  (visited todo : list DocEntry) : list DocEntry :=
  match todo with
  | [] => visited
  | entry :: rest =>
      infer_loop enum
        (visited ++ [infer_entry enum (visited ++ entry :: rest) entry]) rest
  end.

Definition infer_additional_tags (enum : list string -> list string)
  (entries : list DocEntry) : list DocEntry :=
  infer_loop enum [] entries.

End infer.

Import infer.

(** ** tag_taxonomy.py: the description tables and the two halves of
    [assign_tags_to_entry] *)

Module tag_descriptions.

Definition DOMAIN_TAGS : py.dict string :=
  [ ("orbit", "Orbital mechanics and trajectory");
    ("vessel", "Vessel properties and state");
    ("control", "Throttle, steering, and autopilot");
    ("navigation", "Heading, waypoints, and directions");
    ("staging", "Stage management and separation");
    ("fuel", "Propellant and resource consumption");
    ("communication", "Antennas and CommNet");
    ("science", "Experiments and science data");
    ("part", "Part modules and components");
    ("body", "Celestial bodies and planets");
    ("time", "Time, scheduling, and delays");
    ("math", "Mathematical functions and operations");
    ("io", "File I/O and terminal output");
    ("gui", "Graphical user interface elements") ].

Definition CONCEPT_TAGS : py.dict string :=
  [ ("position", "Positions and coordinates");
    ("velocity", "Velocity and speed");
    ("maneuver", "Maneuver nodes and planning");
    ("autopilot", "Automated flight control");
    ("resource", "Resources (fuel, electricity, etc.)");
    ("trajectory", "Flight paths and predictions");
    ("vector", "Vector operations");
    ("direction", "Direction and heading");
    ("rotation", "Rotation and attitude") ].

Definition USAGE_TAGS : py.dict string :=
  [ ("core", "Fundamental/essential feature");
    ("advanced", "Complex or specialized feature");
    ("deprecated", "Deprecated feature") ].

(** The literal entries of [ALL_TAG_DESCRIPTIONS] after the three
    unpacked tables. *)
Definition additional_tag_descriptions : py.dict string :=
  [ ("flight", "In-flight operations");
    ("collection", "Lists, lexicons, and iterators");
    ("language", "kOS language constructs");
    ("binding", "Variable bindings and locks");
    ("trigger", "Event triggers (WHEN/ON)");
    ("numeric", "Numeric values");
    ("boolean", "Boolean values");
    ("string", "String operations");
    ("constant", "Constant values");
    ("function", "Built-in functions");
    ("command", "Commands and statements");
    ("keyword", "Language keywords");
    ("crew", "Kerbal crew management");
    ("action", "Action groups");
    ("systems", "Ship systems (SAS, RCS, etc.)");
    ("docking", "Docking operations");
    ("landing", "Landing and touchdown");
    ("atmosphere", "Atmospheric flight") ].

(** A dict display [{**a, **b, k: v, ...}]: later keys overwrite. *)
Definition dict_of_items (items : py.dict string) : py.dict string :=
  fold_left (fun d kv => py.set (fst kv) (snd kv) d) items [].

Definition ALL_TAG_DESCRIPTIONS : py.dict string :=
  dict_of_items
    (DOMAIN_TAGS ++ CONCEPT_TAGS ++ USAGE_TAGS ++ additional_tag_descriptions).

(** [get_all_tag_descriptions()]: a copy of the table. *)
Definition get_all_tag_descriptions : py.dict string := ALL_TAG_DESCRIPTIONS.

(** [tag in ALL_TAG_DESCRIPTIONS]. *)
Definition described (tag : string) : bool :=
  match py.get tag ALL_TAG_DESCRIPTIONS with
  | Some _ => true
  | None => false
  end.

(** The set [tags] of [assign_tags_to_entry] when it reaches the comment
    "Ensure minimum tag count". *)
Definition base_tag_set (entry : DocEntry) : list string :=
  let tags := py.set_of (tags entry) in
  let tags := py.update tags (get_tags_from_patterns (id entry)) in
  let tags := py.update tags (get_tags_from_keyword (name entry)) in
  let tags := py.update tags (get_tags_from_return_type (return_type entry)) in
  let tags := py.update tags (get_tags_from_description (description entry)) in
  let tags := py.update tags (type_tags (type entry)) in
  if deprecated entry then py.add "deprecated" tags else tags.

(** The statement [if len(tags) < 2: ...] that follows. *)
Definition tag_floor (entry : DocEntry) (tags : list string) : list string :=
  if List.length tags <? 2
  then
    let tags :=
      match parent_structure entry with
      | Some (String c p) =>
          py.update tags (get_tags_from_patterns (String c p))
      | _ => tags
      end in
    if List.length tags <? 2 then py.add "misc" tags else tags
  else tags.

(** The tags the floor borrows from the parent's id. *)
Definition parent_pattern_tags (entry : DocEntry) : list string :=
  match parent_structure entry with
  | Some (String c p) => get_tags_from_patterns (String c p)
  | _ => []
  end.

(** Every tag a rule table can contribute. *)
Definition rule_vocabulary : list string :=
  concat (map snd TAG_PATTERNS)
  ++ concat (map snd KEYWORD_TAG_HINTS)
  ++ concat (map snd RETURN_TYPE_TAGS)
  ++ map fst description_hints
  ++ ["structure"; "function"; "keyword"; "constant"; "command";
      "deprecated"; "misc"].

End tag_descriptions.

Import tag_descriptions.

(** ** metadata_mappings.py and postprocess.py: categories and usage
    frequency *)

Module classifiers.

Definition COMMON_ENTRIES : list string :=
  [ "THROTTLE"; "STEERING"; "LOCK"; "UNLOCK"; "STAGE"; "SAS"; "RCS"; "GEAR";
    "BRAKES"; "LIGHTS"; "PROGRADE"; "RETROGRADE"; "NORMAL"; "ANTINORMAL";
    "RADIAL"; "ANTIRADIAL"; "SRFPROGRADE"; "SRFRETROGRADE"; "UP"; "NORTH";
    "VESSEL:ALTITUDE"; "VESSEL:APOAPSIS"; "VESSEL:PERIAPSIS";
    "VESSEL:VELOCITY"; "VESSEL:FACING"; "VESSEL:MASS"; "VESSEL:THRUST";
    "VESSEL:MAXTHRUST"; "VESSEL:ORBIT"; "VESSEL:BODY"; "VESSEL:STATUS";
    "VESSEL:PARTS"; "VESSEL:ENGINES"; "SHIP"; "SHIP:ALTITUDE"; "ALTITUDE";
    "APOAPSIS"; "PERIAPSIS"; "VELOCITY"; "ORBIT:APOAPSIS"; "ORBIT:PERIAPSIS";
    "ORBIT:ECCENTRICITY"; "ORBIT:INCLINATION"; "ORBIT:PERIOD";
    "ORBIT:SEMIMAJORAXIS"; "ORBIT:ETA"; "ORBIT:BODY"; "BODY:NAME";
    "BODY:MASS"; "BODY:RADIUS"; "BODY:MU"; "BODY:ATM"; "BODY:ATMOSPHERE";
    "ETA:APOAPSIS"; "ETA:PERIAPSIS"; "ETA:TRANSITION"; "MANEUVERNODE"; "NODE";
    "NEXTNODE"; "HASNODE"; "ADD"; "REMOVE"; "ABS"; "MIN"; "MAX"; "SQRT";
    "ROUND"; "FLOOR"; "CEILING"; "MOD"; "SIN"; "COS"; "TAN"; "ARCSIN";
    "ARCCOS"; "ARCTAN"; "ARCTAN2"; "V"; "R"; "Q"; "HEADING"; "LOOKDIRUP";
    "VCRS"; "VDOT"; "VANG"; "VXCL"; "VECTOR:MAG"; "VECTOR:NORMALIZED";
    "VECTOR:X"; "VECTOR:Y"; "VECTOR:Z"; "TIME"; "TIME:SECONDS"; "WAIT";
    "WARP"; "KUNIVERSE"; "IF"; "ELSE"; "UNTIL"; "FOR"; "WHEN"; "ON"; "RETURN";
    "BREAK"; "PRESERVE"; "PRINT"; "LOG"; "CLEARSCREEN"; "RUN"; "RUNPATH";
    "LIST"; "LIST:ADD"; "LIST:REMOVE"; "LIST:LENGTH"; "LIST:CLEAR"; "TARGET";
    "HASTARGET"; "PART:NAME"; "PART:MASS"; "PART:MODULES"; "PART:TAG";
    "PART:STAGE"; "PARTSTAGGED"; "PARTSNAMED"; "PARTSDUBBED"; "PARTSINGROUP";
    "ENGINE:THRUST"; "ENGINE:MAXTHRUST"; "ENGINE:ISP"; "ENGINE:ACTIVATE";
    "ENGINE:SHUTDOWN"; "RESOURCE:AMOUNT"; "RESOURCE:CAPACITY";
    "STAGE:LIQUIDFUEL"; "STAGE:OXIDIZER"; "STAGE:MONOPROPELLANT";
    "STAGE:ELECTRICCHARGE"; "AG1"; "AG2"; "AG3"; "AG4"; "AG5"; "AG6"; "AG7";
    "AG8"; "AG9"; "AG10"; "ABORT" ].

Definition RARE_ENTRIES : list string :=
  [ "SURFACESPEED"; "VERTICALSPEED"; "TERMVELOCITY"; "STYLESTATE";
    "STYLERECTSTYLE"; "STYLERECTOFFSET"; "TIPDISPLAY"; "SKIN:ADD";
    "ADDON:AGX"; "ADDON:IR"; "ADDON:KAC"; "ADDON:RT"; "ADDON:SCANSAT";
    "PROCESSOR:MODE"; "PROCESSOR:BOOTFILENAME"; "CONSTANT:AVOGADRO";
    "CONSTANT:BOLTZMANN"; "CONSTANT:IDEALGAS"; "VOLUME:FREESPACE";
    "VOLUME:POWERREQUIREMENT"; "VOLUME:FILES"; "VOLUMEFILE:WRITE";
    "VOLUMEFILE:WRITELN"; "VOLUMEFILE:READALL"; "MESSAGE:SENT";
    "MESSAGE:RECEIVEDAT"; "MESSAGE:SENDER"; "MESSAGEQUEUE:EMPTY";
    "MESSAGEQUEUE:LENGTH"; "CAREER:CANTRACKOBJECTS"; "CAREER:PATCHLIMIT";
    "CONTRACT:STATE"; "CONTRACT:DEADLINE"; "HIGHLIGHT:ENABLED";
    "HIGHLIGHT:COLOR" ].

(** The loop body of [assign_categories] on the categories assigned so far
    (one per entry, in order) and the counter [uncategorized]. *)
Definition assign_category_step (state : list string * nat) (entry : DocEntry)
  : list string * nat :=
  let (categories, uncategorized) := state in
  let category := get_category_for_entry entry in
  match category with
  | Some (String c s) => (categories ++ [String c s], uncategorized)
  | _ =>
      if DocEntryType_eqb (type entry) STRUCTURE
      then (categories ++ ["Structures"], uncategorized)
      else if DocEntryType_eqb (type entry) SUFFIX
      then (categories ++ ["Structure Members"], uncategorized)
      else (categories ++ ["Miscellaneous"], uncategorized + 1)
  end.

(** [assign_categories(entries)]: the value of [entry.category] for each
    entry, and [uncategorized] when the loop ends. *)
Definition assign_categories (entries : list DocEntry) : list string * nat :=
  fold_left assign_category_step entries ([], 0).

Definition common_prefixes : list string :=
  ["VESSEL:"; "SHIP:"; "ORBIT:"; "BODY:"; "VECTOR:"; "DIRECTION:"].

Definition get_usage_frequency (entry : DocEntry) : string :=
  let entry_id := py.upper (id entry) in
  let name_upper := py.upper (name entry) in
  if deprecated entry then "rare"
  else if py.mem entry_id COMMON_ENTRIES || py.mem name_upper COMMON_ENTRIES
  then "common"
  else if py.mem entry_id RARE_ENTRIES || py.mem name_upper RARE_ENTRIES
  then "rare"
  else if
    match parent_structure entry with
    | Some (String c p) =>
        let parent_upper := py.upper (String c p) in
        py.mem parent_upper COMMON_ENTRIES
        || py.mem (parent_upper ++ ":" ++ name_upper)%string COMMON_ENTRIES
    | _ => false
    end
  then "moderate"
  else if existsb (fun prefix => py.startswith entry_id prefix) common_prefixes
  then "moderate"
  else if py.contains "GUI" entry_id || py.contains "ADDON" entry_id
  then "rare"
  else "moderate".

(** [counts[frequency] += 1]: fails (KeyError) on a missing key. *)
Definition increment (key : string) (counts : py.dict nat)
  : option (py.dict nat) :=
  match py.get key counts with
  | Some n => Some (py.set key (n + 1) counts)
  | None => None
  end.

Definition assign_frequency_step (state : option (list string * py.dict nat))
  (entry : DocEntry) : option (list string * py.dict nat) :=
  match state with
  | None => None
  | Some (frequencies, counts) =>
      let frequency := get_usage_frequency entry in
      match increment frequency counts with
      | Some counts' => Some (frequencies ++ [frequency], counts')
      | None => None
      end
  end.

(** [assign_usage_frequency(entries)]: the value of [entry.usage_frequency]
    for each entry and the final [counts], or [None] if the loop raises. *)
Definition assign_usage_frequency (entries : list DocEntry)
  : option (list string * py.dict nat) :=
  fold_left assign_frequency_step entries
    (Some ([], [("common", 0); ("moderate", 0); ("rare", 0)])).

(** How often a frequency was assigned. *)
Definition occurrences (frequency : string) (frequencies : list string) : nat :=
  List.length (filter (String.eqb frequency) frequencies).

End classifiers.

Import classifiers.

(** ** models.py: [DocEntry.to_dict] *)

Module serialisation.

(** The JSON values [to_dict] stores. *)
Inductive json : Type :=
| JNull
| JString (s : string)
| JBool (b : bool)
| JStrings (l : list string).

(** [self.type.value]. *)
Definition DocEntryType_value (t : DocEntryType) : string :=
  match t with
  | STRUCTURE => "structure"
  | SUFFIX => "suffix"
  | FUNCTION => "function"
  | KEYWORD => "keyword"
  | CONSTANT => "constant"
  | COMMAND => "command"
  end.

(** [self.access.value]; [DocAccessMode.NONE] has the value [None]. *)
Definition DocAccessMode_value (a : DocAccessMode) : json :=
  match a with
  | NONE => JNull
  | GET => JString "get"
  | SET => JString "set"
  | GET_SET => JString "get/set"
  | METHOD => JString "method"
  end.

(** [if self.f: result[k] = self.f else: result[k] = None]. *)
Definition string_or_null (o : option string) : json :=
  match o with
  | Some (String c s) => JString (String c s)
  | _ => JNull
  end.

Definition to_dict (self : DocEntry) : py.dict json :=
  let result :=
    [ ("id", JString (id self));
      ("name", JString (name self));
      ("type", JString (DocEntryType_value (type self))) ] in
  let result :=
    py.set "parentStructure" (string_or_null (parent_structure self)) result in
  let result :=
    py.set "returnType" (string_or_null (return_type self)) result in
  let result := py.set "access" (DocAccessMode_value (access self)) result in
  let result := py.set "signature" (string_or_null (signature self)) result in
  let result :=
    py.set "description" (string_or_null (description self)) result in
  let result := py.set "snippet" (string_or_null (snippet self)) result in
  let result := py.set "sourceRef" (string_or_null (source_ref self)) result in
  let result :=
    match tags self with
    | [] => result
    | _ :: _ => py.set "tags" (JStrings (tags self)) result
    end in
  let result :=
    match aliases self with
    | [] => result
    | _ :: _ => py.set "aliases" (JStrings (aliases self)) result
    end in
  let result :=
    match related self with
    | [] => result
    | _ :: _ => py.set "related" (JStrings (related self)) result
    end in
  if deprecated self
  then
    let result := py.set "deprecated" (JBool (deprecated self)) result in
    match deprecation_note self with
    | Some (String c s) => py.set "deprecationNote" (JString (String c s)) result
    | _ => result
    end
  else result.

(** A list of strings that holds none twice, as a test. *)
Fixpoint distinctb (l : list string) : bool :=
  match l with
  | [] => true
  | x :: l' => negb (py.mem x l') && distinctb l'
  end.

(** The keys every serialised entry has, in this order. *)
Definition fixed_keys : list string :=
  [ "id"; "name"; "type"; "parentStructure"; "returnType"; "access";
    "signature"; "description"; "snippet"; "sourceRef" ].

End serialisation.

Import serialisation.

(** ** postprocess.py: the tag engine over a collection and the tag
    indexes *)

Module tag_index.

(** [assign_domain_tags(entries)]: [entry.tags = assign_tags_to_entry(entry)]
    for every entry; an iteration reads no other entry. *)
Definition assign_domain_tags (entries : list DocEntry) : list DocEntry :=
  map (fun entry => set_tags entry (assign_tags_to_entry entry)) entries.

(** [str.title()] on ASCII text: a letter is uppercased when the character
    before it is not a letter, and lowercased otherwise. *)
Fixpoint title_from (previous_is_cased : bool) (s : string) : string :=
  match s with
  | EmptyString => EmptyString
  | String c s' =>
      if in_range 97 122 c
      then String (if previous_is_cased then c else py.upper_char c)
             (title_from true s')
      else if in_range 65 90 c
      then String (if previous_is_cased then py.lower_char c else c)
             (title_from true s')
      else String c (title_from false s')
  end.

Definition title (s : string) : string := title_from false s.

(** The set of all tags used: [for entry in entries:
    used_tags.update(entry.tags)]. *)
Definition used_tags (entries : list DocEntry) : list string :=
  fold_left (fun all_tags entry => py.update all_tags (tags entry)) entries [].


(** [{tag: tag_descriptions.get(tag, tag.title()) for tag in sorted(tags)}]. *)
Definition index_of (tag_descriptions : py.dict string) (tags : list string)
  : py.dict string :=
  fold_left
    (fun index tag =>
       py.set tag (get_default tag (title tag) tag_descriptions) index)
    (sorted tags) [].


Definition build_enhanced_tag_index (entries : list DocEntry)
  : py.dict string :=
  index_of get_all_tag_descriptions (used_tags entries).

End tag_index.

Import tag_index.

(** * Properties *)

(** ** Association lists and string membership *)

Lemma mem_In (x : string) (xs : list string) :
  py.mem x xs = true <-> In x xs.
Proof.
  unfold py.mem. rewrite existsb_exists. split.
  - intros [y [Hy Heq]]. apply String.eqb_eq in Heq. now subst.
  - intros Hin. exists x. split; [assumption | apply String.eqb_refl].
Qed.

Lemma mem_app (x : string) (xs ys : list string) :
  py.mem x (xs ++ ys) = py.mem x xs || py.mem x ys.
Proof. unfold py.mem. apply existsb_app. Qed.

Lemma get_None_keys {V : Type} (k : string) (d : py.dict V) :
  py.get k d = None <-> ~ In k (py.keys d).
Proof.
  induction d as [|[k' v] d IH]; simpl.
  - tauto.
  - destruct (String.eqb_spec k k') as [->|Hne].
    + split; [discriminate | intros H; exfalso; apply H; now left].
    + rewrite IH. split.
      * intros H [Heq|Hin]; [now apply Hne | now apply H].
      * intros H Hin. apply H. now right.
Qed.

Lemma set_fresh {V : Type} (k : string) (v : V) (d : py.dict V) :
  py.get k d = None -> py.set k v d = d ++ [(k, v)].
Proof.
  induction d as [|[k' v'] d IH]; simpl; intros H.
  - reflexivity.
  - destruct (String.eqb k k'); [discriminate|]. now rewrite IH.
Qed.

Lemma keys_set_present {V : Type} (k : string) (v w : V) (d : py.dict V) :
  py.get k d = Some w -> py.keys (py.set k v d) = py.keys d.
Proof.
  induction d as [|[k' v'] d IH]; simpl; intros H.
  - discriminate.
  - destruct (String.eqb k k'); simpl; [reflexivity|]. f_equal. now apply IH.
Qed.

(** ** The deduplicator *)

Lemma score_is_spec_score (e : DocEntry) :
  _entry_quality_score e = spec_score e.
Proof.
  unfold _entry_quality_score, spec_score, present, has_fragment.
  destruct e as [i n t p rt a sg d sn sr tg al rl dp dn]; cbn [description
    snippet tags related source_ref].
  assert (Hd : (if py.truthy d then 0 + Nat.min (py.len d) 200 else 0)
               = Nat.min (py.len d) 200).
  { destruct d as [[|c d]|]; reflexivity. }
  rewrite Hd. clear Hd.
  set (m := Nat.min (py.len d) 200).
  assert (Hr : forall s, (match sr with
                | Some r => if py.truthy (Some r) && py.contains "#" r
                            then s + 10 else s
                | None => s end)
               = s + 10 * match sr with
                          | Some r => if py.contains "#" r then 1 else 0
                          | None => 0 end).
  { intros s. destruct sr as [[|c r]|]; cbn -[Nat.mul]; try lia.
    destruct (_ : bool); lia. }
  rewrite Hr. clear Hr.
  destruct (py.truthy sn), tg, rl; cbn [List.length]; lia.
Qed.

(** The score counts the characters of a description, not the bytes of its
    encoding: five two-byte letters weigh 5, so the later entry with seven
    ASCII letters replaces the earlier one. *)
Lemma score_counts_code_points :
  String.length (greek_delta ++ greek_delta ++ greek_delta ++ greek_delta
                 ++ greek_delta) = 10 /\
  _entry_quality_score delta_first = 5 /\
  _entry_quality_score delta_second = 7 /\
  deduplicate_entries [delta_first; delta_second] = [delta_second].
Proof. repeat split. Qed.

Lemma code_points_le_length (s : string) :
  py.code_points s <= String.length s.
Proof.
  induction s as [|c s IH]; simpl; [lia|].
  destruct (py.continuation_byte c); lia.
Qed.

Lemma code_points_ascii (s : string) :
  forallb (fun c => nat_of_ascii c <? 128) (list_ascii_of_string s) = true ->
  py.code_points s = String.length s.
Proof.
  induction s as [|c s IH]; simpl; [reflexivity|].
  intros H. apply andb_prop in H. destruct H as [Hc Hs].
  rewrite (IH Hs).
  destruct c as [b0 b1 b2 b3 b4 b5 b6 [|]]; [|reflexivity].
  exfalso. revert Hc.
  destruct b0, b1, b2, b3, b4, b5, b6; vm_compute; discriminate.
Qed.

Lemma fresh_in_order_ext (s1 s2 xs : list string) :
  (forall y, py.mem y s1 = py.mem y s2) ->
  fresh_in_order s1 xs = fresh_in_order s2 xs.
Proof.
  revert s1 s2.
  induction xs as [|x xs IH]; intros s1 s2 Hext; simpl.
  - reflexivity.
  - rewrite <- Hext. destruct (py.mem x s1).
    + now apply IH.
    + f_equal. apply IH. intros y. unfold py.mem. simpl.
      fold (py.mem y s1) (py.mem y s2). now rewrite Hext.
Qed.

Lemma append_missing_is_union (target source : list string) :
  append_missing target source = spec_union target source.
Proof.
  unfold append_missing, spec_union. revert target.
  induction source as [|x xs IH]; intros target; simpl.
  - now rewrite app_nil_r.
  - destruct (py.mem x target) eqn:Hx.
    + apply IH.
    + rewrite IH, <- app_assoc. simpl. do 2 f_equal.
      apply fresh_in_order_ext. intros y. rewrite mem_app.
      unfold py.mem. simpl. rewrite orb_false_r. apply orb_comm.
Qed.

Lemma merge_is_spec_merge (target source : DocEntry) :
  _merge_entry_fields target source = spec_merge target source.
Proof.
  unfold _merge_entry_fields, spec_merge, spec_fill.
  destruct target as [i n t p rt a sg d sn sr tg al rl dp dn].
  destruct source as [i' n' t' p' rt' a' sg' d' sn' sr' tg' al' rl' dp' dn'].
  cbn [snippet description].
  destruct (py.truthy sn) eqn:Hsn, (py.truthy sn') eqn:Hsn';
    cbn [negb andb set_snippet snippet description id name type
         parent_structure return_type access signature source_ref tags
         aliases related deprecated deprecation_note];
    destruct (py.truthy d) eqn:Hd, (py.truthy d') eqn:Hd';
    cbn [negb andb set_snippet set_description set_tags set_related snippet
         description id name type parent_structure return_type access
         signature source_ref tags aliases related deprecated
         deprecation_note];
    now rewrite !append_missing_is_union.
Qed.

Lemma dedup_step_resolve (m : py.dict DocEntry) (entry existing : DocEntry) :
  py.get (id entry) m = Some existing ->
  dedup_step m entry = py.set (id entry) (spec_resolve existing entry) m.
Proof.
  intros H. unfold dedup_step, spec_resolve. rewrite H.
  rewrite !score_is_spec_score, merge_is_spec_merge.
  now destruct (spec_score existing <? spec_score entry).
Qed.

Lemma dedup_loop_snoc (seen : list DocEntry) (entry : DocEntry) :
  dedup_loop (seen ++ [entry]) = dedup_step (dedup_loop seen) entry.
Proof. unfold dedup_loop. now rewrite fold_left_app. Qed.

(** C1. When the loop of [deduplicate_entries] meets an entry whose id is
    already kept, both entries get the score min(len(description), 200)
    + 50 if a snippet is present + 5 per tag + 3 per related id + 10 if
    sourceRef has a '#'; the new entry replaces the kept one exactly when its
    score is strictly greater, and otherwise the kept entry is merged: snippet
    and description are filled only where the kept field is empty, tags and
    related are appended in order without repeats. This holds at every
    position of every input list [seen ++ entry :: rest]. *)
Theorem dedup_repeat_scores_then_replaces_or_merges :
  forall (seen rest : list DocEntry) (entry existing : DocEntry),
    py.get (id entry) (dedup_loop seen) = Some existing ->
    _entry_quality_score existing = spec_score existing /\
    _entry_quality_score entry = spec_score entry /\
    dedup_loop (seen ++ [entry]) =
      py.set (id entry)
        (if spec_score existing <? spec_score entry then entry
         else spec_merge existing entry)
        (dedup_loop seen) /\
    py.keys (dedup_loop (seen ++ [entry])) = py.keys (dedup_loop seen) /\
    deduplicate_entries (seen ++ entry :: rest) =
      py.values
        (fold_left dedup_step rest
           (py.set (id entry)
              (if spec_score existing <? spec_score entry then entry
               else spec_merge existing entry)
              (dedup_loop seen))).
Proof.
  intros seen rest entry existing Hget.
  assert (Hstep : dedup_loop (seen ++ [entry]) =
                  py.set (id entry) (spec_resolve existing entry)
                    (dedup_loop seen)).
  { rewrite dedup_loop_snoc. now apply dedup_step_resolve. }
  repeat split.
  - apply score_is_spec_score.
  - apply score_is_spec_score.
  - exact Hstep.
  - rewrite Hstep. now apply keys_set_present with (w := existing).
  - unfold deduplicate_entries, dedup_loop. rewrite fold_left_app. simpl.
    fold (dedup_loop seen). f_equal. f_equal.
    now apply dedup_step_resolve.
Qed.

Lemma dedup_repeat_witness :
  py.get (id (lock_second "LOCK" KEYWORD))
    (dedup_loop [lock_first "LOCK" KEYWORD])
  = Some (lock_first "LOCK" KEYWORD) /\
  dedup_loop ([lock_first "LOCK" KEYWORD] ++ [lock_second "LOCK" KEYWORD])
  = [("LOCK", lock_second "LOCK" KEYWORD)].
Proof.
  split; [reflexivity|].
  destruct (dedup_repeat_scores_then_replaces_or_merges
              [lock_first "LOCK" KEYWORD] [] (lock_second "LOCK" KEYWORD)
              (lock_first "LOCK" KEYWORD) eq_refl) as (_ & _ & H & _).
  rewrite H. reflexivity.
Defined.

(** *** The scenario with two [LOCK] entries *)

(** C2, as stated, fails: the second entry scores 18 (13 characters of
    description and one tag) against 5, so it replaces the first and the tag
    "language" is lost. *)
Lemma lock_scenario_drops_language :
  _entry_quality_score (lock_first "LOCK" KEYWORD) = 5 /\
  _entry_quality_score (lock_second "LOCK" KEYWORD) = 18 /\
  deduplicate_entries [lock_first "LOCK" KEYWORD; lock_second "LOCK" KEYWORD]
  = [lock_second "LOCK" KEYWORD] /\
  map (fun e => py.mem "language" (tags e))
    (deduplicate_entries
       [lock_first "LOCK" KEYWORD; lock_second "LOCK" KEYWORD])
  = [false].
Proof. repeat split. Qed.

(** C2, amended. Whatever the names and types of the two [LOCK] entries, the
    second scores 18 and the first 5, the replace path is taken, and the
    single surviving entry is the second one, with tags exactly ["core"]. *)
Theorem lock_scenario_replaces :
  forall (n1 n2 : string) (t1 t2 : DocEntryType),
    _entry_quality_score (lock_first n1 t1) = 5 /\
    _entry_quality_score (lock_second n2 t2) = 18 /\
    deduplicate_entries [lock_first n1 t1; lock_second n2 t2]
    = [lock_second n2 t2] /\
    tags (lock_second n2 t2) = ["core"] /\
    description (lock_second n2 t2) = Some "Locks a value".
Proof. intros n1 n2 t1 t2. repeat split. Qed.

(** *** The frame of the merge *)

(** C10. [_merge_entry_fields] leaves id, name, type, parent_structure,
    return_type, access, signature, source_ref, aliases, deprecated and
    deprecation_note of the kept entry as they were, and a non-empty snippet
    or description of the kept entry is never overwritten. *)
Theorem merge_changes_only_snippet_description_tags_related :
  forall target source : DocEntry,
    let merged := _merge_entry_fields target source in
    id merged = id target /\
    name merged = name target /\
    type merged = type target /\
    parent_structure merged = parent_structure target /\
    return_type merged = return_type target /\
    access merged = access target /\
    signature merged = signature target /\
    source_ref merged = source_ref target /\
    aliases merged = aliases target /\
    deprecated merged = deprecated target /\
    deprecation_note merged = deprecation_note target /\
    (py.truthy (snippet target) = true -> snippet merged = snippet target) /\
    (py.truthy (description target) = true ->
     description merged = description target) /\
    (snippet merged = snippet target \/ snippet merged = snippet source) /\
    (description merged = description target \/
     description merged = description source).
Proof.
  intros target source merged. subst merged.
  rewrite merge_is_spec_merge. unfold spec_merge, spec_fill. cbn.
  repeat split.
  - intros ->. reflexivity.
  - intros ->. reflexivity.
  - destruct (py.truthy (snippet target)), (py.truthy (snippet source)); auto.
  - destruct (py.truthy (description target)),
      (py.truthy (description source)); auto.
Qed.

(** *** Idempotence *)

Lemma get_Some_In {V : Type} (k : string) (v : V) (d : py.dict V) :
  py.get k d = Some v -> In (k, v) d.
Proof.
  induction d as [|[k' v'] d IH]; simpl; [discriminate|].
  destruct (String.eqb_spec k k') as [->|Hne].
  - intros [= ->]. now left.
  - intros H. right. now apply IH.
Qed.

Lemma Forall_set {V : Type} (P : string * V -> Prop) (k : string) (v : V)
  (d : py.dict V) :
  Forall P d -> P (k, v) -> Forall P (py.set k v d).
Proof.
  intros Hd Hkv. induction d as [|[k' v'] d IH]; simpl.
  - now constructor.
  - inversion Hd as [|? ? Hhd Htl]; subst.
    destruct (String.eqb_spec k k') as [->|Hne]; constructor; auto.
Qed.

Lemma spec_resolve_id (existing entry : DocEntry) :
  id existing = id entry -> id (spec_resolve existing entry) = id entry.
Proof.
  intros H. unfold spec_resolve.
  now destruct (spec_score existing <? spec_score entry).
Qed.

Lemma dedup_step_keyed (m : py.dict DocEntry) (entry : DocEntry) :
  keyed m -> keyed (dedup_step m entry).
Proof.
  intros [Hnd Hid].
  destruct (py.get (id entry) m) as [existing|] eqn:Hget.
  - rewrite (dedup_step_resolve _ _ _ Hget). split.
    + now rewrite (keys_set_present _ _ _ _ Hget).
    + apply Forall_set; [assumption|]. simpl. apply spec_resolve_id.
      apply get_Some_In in Hget. rewrite Forall_forall in Hid.
      exact (Hid _ Hget).
  - unfold dedup_step. rewrite Hget, (set_fresh _ _ _ Hget). split.
    + unfold py.keys. rewrite map_app. simpl.
      apply NoDup_app; [assumption | repeat constructor; intros [] | ].
      intros k Hk [<-|[]]. now apply get_None_keys in Hget.
    + apply Forall_app. split; [assumption | now repeat constructor].
Qed.

Lemma dedup_loop_keyed (entries : list DocEntry) : keyed (dedup_loop entries).
Proof.
  unfold dedup_loop.
  assert (H : forall m, keyed m -> keyed (fold_left dedup_step entries m)).
  { induction entries as [|e l IH]; intros m Hm; simpl; [assumption|].
    apply IH. now apply dedup_step_keyed. }
  apply H. split; constructor.
Qed.

Lemma dedup_distinct_ids (entries : list DocEntry) (m : py.dict DocEntry) :
  NoDup (map id entries) ->
  (forall e, In e entries -> ~ In (id e) (py.keys m)) ->
  fold_left dedup_step entries m = m ++ map (fun e => (id e, e)) entries.
Proof.
  revert m. induction entries as [|e l IH]; intros m Hnd Hfresh; simpl.
  - now rewrite app_nil_r.
  - inversion Hnd as [|? ? Hnotin Hnd']; subst.
    assert (Hget : py.get (id e) m = None).
    { apply get_None_keys. apply Hfresh. now left. }
    unfold dedup_step at 2. rewrite Hget, (set_fresh _ _ _ Hget).
    rewrite IH.
    + now rewrite <- app_assoc.
    + assumption.
    + intros e' He'. unfold py.keys. rewrite map_app, in_app_iff. simpl.
      intros [Hin|[Heq|[]]].
      * apply (Hfresh e'); [now right | assumption].
      * apply Hnotin. rewrite Heq. now apply in_map.
Qed.

Lemma keyed_values_ids (m : py.dict DocEntry) :
  keyed m -> map id (py.values m) = py.keys m.
Proof.
  intros [_ Hid]. unfold py.values, py.keys. rewrite map_map.
  apply map_ext_in. intros kv Hkv. rewrite Forall_forall in Hid.
  now apply Hid.
Qed.

(** After the deduplicator every id occurs once. *)
Lemma deduplicate_entries_unique_ids (entries : list DocEntry) :
  NoDup (map id (deduplicate_entries entries)).
Proof.
  unfold deduplicate_entries.
  rewrite (keyed_values_ids _ (dedup_loop_keyed entries)).
  apply dedup_loop_keyed.
Qed.

(** C7. Running the deduplicator on its own output returns that output: the
    same entries, with the same fields, in the same order. *)
Theorem deduplicate_entries_idempotent :
  forall entries : list DocEntry,
    deduplicate_entries (deduplicate_entries entries)
    = deduplicate_entries entries.
Proof.
  intros entries.
  pose proof (deduplicate_entries_unique_ids entries) as Hnd.
  set (out := deduplicate_entries entries) in *.
  unfold deduplicate_entries at 1. unfold dedup_loop.
  rewrite dedup_distinct_ids; [| assumption | intros e _ []].
  simpl. unfold py.values. rewrite map_map. simpl. apply map_id.
Qed.

(** ** Sets kept as duplicate-free lists *)

Lemma add_In (x y : string) (s : list string) :
  In y (py.add x s) <-> y = x \/ In y s.
Proof.
  induction s as [|z s IH]; simpl.
  - intuition.
  - destruct (String.eqb_spec x z) as [->|Hne]; simpl.
    + intuition.
    + rewrite IH. intuition.
Qed.

Lemma add_cases (x : string) (s : list string) :
  py.add x s = s \/ py.add x s = s ++ [x].
Proof.
  induction s as [|z s IH]; simpl.
  - now right.
  - destruct (String.eqb x z); [now left|].
    destruct IH as [-> | ->]; [now left | now right].
Qed.

Lemma update_In (y : string) (xs s : list string) :
  In y (py.update s xs) <-> In y s \/ In y xs.
Proof.
  unfold py.update. revert s.
  induction xs as [|x xs IH]; intros s; simpl.
  - intuition.
  - rewrite IH, add_In. intuition.
Qed.

Lemma set_of_In (y : string) (xs : list string) :
  In y (py.set_of xs) <-> In y xs.
Proof. unfold py.set_of. rewrite update_In. simpl. intuition. Qed.

Lemma get_set {V : Type} (k k' : string) (v : V) (d : py.dict V) :
  py.get k (py.set k' v d) = if String.eqb k k' then Some v else py.get k d.
Proof.
  induction d as [|[k0 v0] d IH]; simpl.
  - reflexivity.
  - destruct (String.eqb_spec k' k0) as [->|Hne]; simpl.
    + now destruct (String.eqb k k0).
    + rewrite IH. destruct (String.eqb_spec k k0) as [->|Hne'].
      * destruct (String.eqb_spec k0 k') as [->|]; [now elim Hne | reflexivity].
      * reflexivity.
Qed.

(** ** The cross-referencer *)

Lemma has_key_entry_by_id (k : string) (entries : list DocEntry) :
  has_key k (entry_by_id_of entries) = true <-> In k (map id entries).
Proof.
  unfold entry_by_id_of.
  assert (H : forall d,
             has_key k (fold_left (fun d e => py.set (id e) e d) entries d)
             = true <-> has_key k d = true \/ In k (map id entries)).
  { induction entries as [|e l IH]; intros d; simpl.
    - intuition.
    - rewrite IH. unfold has_key at 1. rewrite get_set.
      destruct (String.eqb_spec k (id e)) as [->|Hne].
      + intuition.
      + fold (has_key k d). intuition. }
  rewrite H. unfold has_key. simpl. intuition discriminate.
Qed.


(** What a fold of guarded additions adds satisfies the guard's promise. *)
Lemma fold_adds_within {A : Type} (step : list string -> A -> list string)
  (P : string -> Prop) (xs : list A) :
  (forall s a y, In y (step s a) -> In y s \/ P y) ->
  forall s y, In y (fold_left step xs s) -> In y s \/ P y.
Proof.
  intros Hstep. induction xs as [|a xs IH]; intros s y Hy; simpl in Hy.
  - now left.
  - destruct (IH _ _ Hy) as [Hin|HP]; [now apply Hstep in Hin | now right].
Qed.


Lemma link_parent_adds_within entry_by_id entry s y :
  In y (link_parent entry_by_id entry s) ->
  In y s \/ parent_structure entry = Some y.
Proof.
  unfold link_parent.
  destruct (parent_structure entry) as [p|]; [|now left].
  destruct (_ && _); [|now left].
  rewrite add_In. intros [->|Hy]; [now right | now left].
Qed.


Lemma link_suffix_step_adds_within entry s other y :
  In y (link_suffix_step entry s other) -> In y s \/ y <> id entry.
Proof.
  unfold link_suffix_step.
  destruct (parent_is other entry); simpl; [|now left].
  destruct (String.eqb_spec (id other) (id entry)) as [Heq|Hne]; simpl;
    [now left|].
  destruct (_ <? _); [|now left].
  rewrite add_In. intros [->|Hy]; [now right | now left].
Qed.


Lemma link_suffixes_adds_within entries entry s y :
  In y (link_suffixes entries entry s) -> In y s \/ y <> id entry.
Proof.
  unfold link_suffixes.
  destruct (type entry); try (now left).
  apply (fold_adds_within _ (fun y => y <> id entry)). intros s' a y'.
  apply link_suffix_step_adds_within.
Qed.


Lemma link_pair_step_adds_within entry_by_id entry s pair y :
  fst pair <> snd pair ->
  In y (link_pair_step entry_by_id entry s pair) -> In y s \/ y <> id entry.
Proof.
  intros Hpair. unfold link_pair_step.
  destruct (String.eqb_spec (id entry) (fst pair)) as [Hfst|Hfst]; simpl.
  - destruct (has_key (snd pair) entry_by_id).
    + rewrite add_In. intros [->|Hy]; [right | now left]. congruence.
    + destruct (String.eqb_spec (id entry) (snd pair)) as [Hsnd|Hsnd]; simpl.
      * congruence.
      * now left.
  - destruct (String.eqb_spec (id entry) (snd pair)) as [Hsnd|Hsnd]; simpl.
    + destruct (has_key (fst pair) entry_by_id); [|now left].
      rewrite add_In. intros [->|Hy]; [right | now left]. congruence.
    + now left.
Qed.

Lemma complementary_pairs_distinct :
  Forall (fun pair => fst pair <> snd pair) complementary_pairs.
Proof. repeat constructor; discriminate. Qed.


Lemma link_pairs_adds_within entry_by_id entry s y :
  In y (link_pairs entry_by_id entry s) -> In y s \/ y <> id entry.
Proof.
  unfold link_pairs. generalize complementary_pairs_distinct.
  generalize complementary_pairs as pairs. intros pairs Hd. revert s.
  induction Hd as [|pair pairs Hpair Hd IH]; intros s; simpl.
  - now left.
  - intros Hy. destruct (IH _ Hy) as [Hin|Hne]; [|now right].
    now apply link_pair_step_adds_within in Hin.
Qed.


Lemma link_mention_step_adds_within entry desc s item y :
  In y (link_mention_step entry desc s item) -> In y s \/ y <> id entry.
Proof.
  unfold link_mention_step. destruct item as [other_id other].
  destruct (String.eqb_spec other_id (id entry)) as [Heq|Hne]; [now left|].
  destruct (py.contains _ _); [|now left].
  destruct (re_search_word _ _); [|now left].
  rewrite add_In. intros [->|Hy]; [now right | now left].
Qed.


Lemma link_mentions_adds_within entry_by_id entry s y :
  In y (link_mentions entry_by_id entry s) -> In y s \/ y <> id entry.
Proof.
  unfold link_mentions.
  destruct (description entry) as [d|]; [|now left].
  destruct (py.truthy (Some d)); [|now left].
  apply (fold_adds_within _ (fun y => y <> id entry)). intros s' a y'.
  apply link_mention_step_adds_within.
Qed.

(** A self-reference in [related_ids] was carried over from the entry's own
    [related] or is the entry's [parent_structure]. *)
Lemma related_ids_self_origin (entries : list DocEntry) (entry : DocEntry) :
  In (id entry) (related_ids_of entries entry) ->
  In (id entry) (related entry) \/ parent_structure entry = Some (id entry).
Proof.
  unfold related_ids_of. intros H.
  apply link_mentions_adds_within in H. destruct H as [H|H]; [|now elim H].
  apply link_pairs_adds_within in H. destruct H as [H|H]; [|now elim H].
  apply link_suffixes_adds_within in H. destruct H as [H|H]; [|now elim H].
  apply link_parent_adds_within in H. destruct H as [H|H]; [|now right].
  left. now apply set_of_In.
Qed.

Lemma In_firstn (n : nat) (y : string) (l : list string) :
  In y (firstn n l) -> In y l.
Proof.
  intros H. rewrite <- (firstn_skipn n l). apply in_or_app. now left.
Qed.

(** *** The loop and its iterations *)

Lemma same_core_refl (a : DocEntry) : same_core a a.
Proof. repeat split. Qed.

Lemma same_core_sym (a b : DocEntry) : same_core a b -> same_core b a.
Proof. intros (H1 & H2 & H3). repeat split; now symmetry. Qed.

Lemma same_core_list_refl (l : list DocEntry) : Forall2 same_core l l.
Proof. induction l; constructor; auto using same_core_refl. Qed.

Lemma same_core_list_sym (l l' : list DocEntry) :
  Forall2 same_core l l' -> Forall2 same_core l' l.
Proof. induction 1; constructor; auto using same_core_sym. Qed.

Lemma same_core_ids (l l' : list DocEntry) :
  Forall2 same_core l l' -> map id l = map id l'.
Proof.
  induction 1 as [|a b l l' (Hid & _) _ IH]; simpl; [reflexivity|].
  now rewrite Hid, IH.
Qed.

Lemma fold_left_pointwise {A B : Type} (f g : A -> B -> A) (l : list B) :
  (forall a b, f a b = g a b) ->
  forall a, fold_left f l a = fold_left g l a.
Proof.
  intros Hfg. induction l as [|b l IH]; intros a; simpl; [reflexivity|].
  now rewrite Hfg, IH.
Qed.

Lemma set_same_item (d d' : py.dict DocEntry) (e e' : DocEntry) :
  Forall2 same_item d d' -> same_core e e' ->
  Forall2 same_item (py.set (id e) e d) (py.set (id e') e' d').
Proof.
  intros Hd He. assert (Hid : id e = id e') by apply He. rewrite <- Hid.
  induction Hd as [|[k v] [k' v'] d d' [Hk Hv] Hd IH]; simpl.
  - constructor; [split; [reflexivity | assumption] | constructor].
  - simpl in Hk. subst k'.
    destruct (String.eqb (id e) k); constructor; try assumption;
      split; simpl; auto.
Qed.

Lemma entry_by_id_same_items (l l' : list DocEntry) :
  Forall2 same_core l l' ->
  Forall2 same_item (entry_by_id_of l) (entry_by_id_of l').
Proof.
  unfold entry_by_id_of. intros Hl.
  assert (H : forall d d',
             Forall2 same_item d d' ->
             Forall2 same_item
               (fold_left (fun d e => py.set (id e) e d) l d)
               (fold_left (fun d e => py.set (id e) e d) l' d')).
  { induction Hl as [|e e' l l' He Hl IH]; intros d d' Hd; simpl.
    - assumption.
    - apply IH. now apply set_same_item. }
  apply H. constructor.
Qed.

Lemma has_key_same_core (k : string) (l l' : list DocEntry) :
  Forall2 same_core l l' ->
  has_key k (entry_by_id_of l) = has_key k (entry_by_id_of l').
Proof.
  intros Hl. apply eq_true_iff_eq.
  now rewrite !has_key_entry_by_id, (same_core_ids _ _ Hl).
Qed.

Lemma link_suffixes_same_core (l l' : list DocEntry) (entry : DocEntry) :
  Forall2 same_core l l' ->
  forall s, link_suffixes l entry s = link_suffixes l' entry s.
Proof.
  intros Hl s. unfold link_suffixes. destruct (type entry); try reflexivity.
  revert s.
  induction Hl as [|o o' l l' (Hid & _ & Hpar) Hl IH]; intros s; simpl.
  - reflexivity.
  - rewrite <- IH. f_equal. unfold link_suffix_step, parent_is.
    now rewrite Hid, Hpar.
Qed.

Lemma link_mentions_same_items (d d' : py.dict DocEntry) (entry : DocEntry) :
  Forall2 same_item d d' ->
  forall s, link_mentions d entry s = link_mentions d' entry s.
Proof.
  intros Hd s. unfold link_mentions.
  destruct (description entry) as [desc|]; [|reflexivity].
  destruct (py.truthy (Some desc)); [|reflexivity].
  revert s.
  induction Hd as [|[k v] [k' v'] d d' [Hk (_ & Hname & _)] Hd IH];
    intros s; simpl.
  - reflexivity.
  - simpl in Hk, Hname. subst k'. rewrite <- IH, Hname. reflexivity.
Qed.

(** The set computed for an entry depends on the others only through
    their [id], [name] and [parent_structure]. *)
Lemma related_ids_same_core (l l' : list DocEntry) (entry : DocEntry) :
  Forall2 same_core l l' ->
  related_ids_of l entry = related_ids_of l' entry.
Proof.
  intros Hl. unfold related_ids_of.
  rewrite (link_mentions_same_items _ _ entry (entry_by_id_same_items _ _ Hl)).
  f_equal.
  transitivity
    (link_pairs (entry_by_id_of l') entry
       (link_suffixes l entry
          (link_parent (entry_by_id_of l) entry (py.set_of (related entry))))).
  { unfold link_pairs. apply fold_left_pointwise. intros s pair.
    unfold link_pair_step. now rewrite !(has_key_same_core _ _ _ Hl). }
  f_equal. rewrite (link_suffixes_same_core _ _ entry Hl). f_equal.
  unfold link_parent. destruct (parent_structure entry) as [p|]; [|reflexivity].
  now rewrite (has_key_same_core _ _ _ Hl).
Qed.

Lemma relink_same_core enum entries entry :
  same_core entry (relink enum entries entry).
Proof. repeat split. Qed.

Lemma relink_loop_map enum (before visited todo : list DocEntry) :
  Forall2 same_core before visited ->
  relink_loop enum visited todo
  = visited ++ map (relink enum (before ++ todo)) todo.
Proof.
  revert before visited.
  induction todo as [|entry rest IH]; intros before visited Hsame; simpl.
  - now rewrite app_nil_r.
  - assert (Hnow : relink enum (visited ++ entry :: rest) entry
                   = relink enum (before ++ entry :: rest) entry).
    { unfold relink. f_equal. f_equal. f_equal.
      apply related_ids_same_core. apply Forall2_app.
      - now apply same_core_list_sym.
      - apply same_core_list_refl. }
    rewrite (IH (before ++ [entry])).
    + rewrite Hnow, <- !app_assoc. reflexivity.
    + apply Forall2_app; [assumption|]. constructor; [|constructor].
      apply relink_same_core.
Qed.

(** The iterations do not see each other's writes: the loop leaves each
    entry as its own iteration on the incoming collection would. *)
Lemma build_related_links_map enum (entries : list DocEntry) :
  build_related_links enum entries = map (relink enum entries) entries.
Proof.
  unfold build_related_links.
  now rewrite (relink_loop_map enum [] [] entries (Forall2_nil _)).
Qed.

Lemma related_relink enum entries entry :
  related (relink enum entries entry)
  = firstn 10 (enum (related_ids_of entries entry)).
Proof. reflexivity. Qed.

Section Enumeration.

(** Any order in which the set may be enumerated. *)
Variable enum : list string -> list string.
Hypothesis enum_perm : forall s, Permutation (enum s) s.

Lemma relink_related_within entries entry y :
  In y (related (relink enum entries entry)) ->
  In y (related_ids_of entries entry).
Proof.
  rewrite related_relink. intros H. apply In_firstn in H.
  eapply Permutation_in; [apply enum_perm | exact H].
Qed.

Lemma relink_keeps_small_sets entries entry y :
  List.length (related_ids_of entries entry) <= 10 ->
  In y (related_ids_of entries entry) ->
  In y (related (relink enum entries entry)).
Proof.
  intros Hlen Hy. rewrite related_relink, firstn_all2.
  - eapply Permutation_in; [apply Permutation_sym, enum_perm | exact Hy].
  - now rewrite (Permutation_length (enum_perm _)).
Qed.

Lemma relink_no_added_self_reference entries entry :
  ~ In (id entry) (related entry) ->
  parent_structure entry <> Some (id entry) ->
  ~ In (id (relink enum entries entry)) (related (relink enum entries entry)).
Proof.
  intros Hrel Hpar H.
  change (id (relink enum entries entry)) with (id entry) in H.
  apply relink_related_within, related_ids_self_origin in H.
  tauto.
Qed.

End Enumeration.

Lemma Forall2_map_same {A B : Type} (R : A -> B -> Prop) (f : A -> B)
  (l : list A) :
  (forall a, In a l -> R a (f a)) -> Forall2 R l (map f l).
Proof.
  induction l as [|a l IH]; intros H; simpl; constructor.
  - apply H. now left.
  - apply IH. intros b Hb. apply H. now right.
Qed.

(** C5, as stated, fails: an entry that arrives with its own id in [related]
    keeps it (the stage starts from [set(entry.related)] and removes
    nothing). *)
Lemma carried_self_reference_survives :
  build_related_links insertion_order [self_related]
  = [set_related self_related ["LOCK"; "UNLOCK"]] /\
  map (fun e => py.mem (id e) (related e))
    (build_related_links insertion_order [self_related])
  = [true].
Proof. split; reflexivity. Qed.

(** C5, amended. After [build_related_links], in whatever order the sets are
    enumerated, every [related] list has at most 10 elements, ids are as
    before, and an entry whose incoming [related] did not hold its own id and
    whose [parent_structure] is not its own id has no self-reference. *)
Theorem related_at_most_ten_and_no_added_self_reference :
  forall (enum : list string -> list string) (entries : list DocEntry),
    (forall s, Permutation (enum s) s) ->
    Forall (fun e' => List.length (related e') <= 10)
      (build_related_links enum entries) /\
    Forall2
      (fun e e' =>
         id e' = id e /\
         (~ In (id e) (related e) ->
          parent_structure e <> Some (id e) ->
          ~ In (id e') (related e')))
      entries (build_related_links enum entries).
Proof.
  intros enum entries Hperm. rewrite build_related_links_map. split.
  - apply Forall_map, Forall_forall. intros e _. rewrite related_relink.
    apply firstn_le_length.
  - apply Forall2_map_same. intros e _. split; [reflexivity|].
    now apply relink_no_added_self_reference.
Qed.

Lemma related_at_most_ten_witness :
  (forall s, Permutation (insertion_order s) s) /\
  Forall (fun e' => List.length (related e') <= 10)
    (build_related_links insertion_order vessel_entries).
Proof.
  split.
  - intros s. apply Permutation_refl.
  - apply (related_at_most_ten_and_no_added_self_reference
             insertion_order vessel_entries).
    intros s. apply Permutation_refl.
Defined.

(** The carried self-reference survives in every enumeration order. *)
Lemma carried_self_reference_any_order (enum : list string -> list string) :
  (forall s, Permutation (enum s) s) ->
  In "LOCK" (related (relink enum [self_related] self_related)).
Proof.
  intros Hperm. apply relink_keeps_small_sets; [assumption | simpl; lia |].
  simpl. now left.
Qed.

(** *** Complementary pairs *)






(** Hence the link is not kept in every run: it is not a consequence of
    both entries existing. *)
Lemma complement_link_not_guaranteed :
  ~ (forall (enum : list string -> list string) (entries : list DocEntry)
            (p r : DocEntry),
        (forall s, Permutation (enum s) s) ->
        In p entries -> id p = "PROGRADE" ->
        In r entries -> id r = "RETROGRADE" ->
        In "RETROGRADE" (related (relink enum entries p))).
Proof.
  intros H.
  specialize (H insertion_order [prograde_crowded; retrograde]
                prograde_crowded retrograde
                (fun s => Permutation_refl s)
                (or_introl eq_refl) eq_refl
                (or_intror (or_introl eq_refl)) eq_refl).
  apply mem_In in H. discriminate H.
Qed.

(** *** Structures and their suffixes *)

Lemma count_suffix_ids_add entry x s :
  count_suffix_ids entry (py.add x s) <= S (count_suffix_ids entry s).
Proof.
  unfold count_suffix_ids.
  destruct (add_cases x s) as [-> | ->]; [lia|].
  rewrite filter_app, length_app. simpl.
  destruct (py.startswith x _); simpl; lia.
Qed.

Lemma link_suffix_step_count entry s other :
  count_suffix_ids entry (link_suffix_step entry s other)
  <= Nat.max (count_suffix_ids entry s) 5.
Proof.
  unfold link_suffix_step.
  destruct (_ && _); [|lia].
  destruct (Nat.ltb_spec (count_suffix_ids entry s) 5) as [Hlt|Hge]; [|lia].
  pose proof (count_suffix_ids_add entry (id other) s). lia.
Qed.

Lemma link_suffix_step_full entry s other :
  5 <= count_suffix_ids entry s -> link_suffix_step entry s other = s.
Proof.
  intros Hge. unfold link_suffix_step.
  destruct (_ && _); [|reflexivity].
  destruct (Nat.ltb_spec (count_suffix_ids entry s) 5); [lia | reflexivity].
Qed.

(** C4, as stated, fails: with four ids starting with "VESSEL:" already in
    the set the rule still adds a fifth, and the structure ends with five of
    its suffixes; only the sixth is left out. *)
Lemma fifth_suffix_still_linked :
  count_suffix_ids vessel
    ["VESSEL:ALTITUDE"; "VESSEL:APOAPSIS"; "VESSEL:PERIAPSIS";
     "VESSEL:VELOCITY"] = 4 /\
  link_suffix_step vessel
    ["VESSEL:ALTITUDE"; "VESSEL:APOAPSIS"; "VESSEL:PERIAPSIS";
     "VESSEL:VELOCITY"] (vessel_suffix "MASS")
  = ["VESSEL:ALTITUDE"; "VESSEL:APOAPSIS"; "VESSEL:PERIAPSIS";
     "VESSEL:VELOCITY"; "VESSEL:MASS"] /\
  link_suffixes vessel_entries vessel []
  = ["VESSEL:ALTITUDE"; "VESSEL:APOAPSIS"; "VESSEL:PERIAPSIS";
     "VESSEL:VELOCITY"; "VESSEL:MASS"] /\
  map related (firstn 1 (build_related_links insertion_order vessel_entries))
  = [["VESSEL:ALTITUDE"; "VESSEL:APOAPSIS"; "VESSEL:PERIAPSIS";
      "VESSEL:VELOCITY"; "VESSEL:MASS"]].
Proof. repeat split. Qed.

(** C4, amended. For an entry [other] whose [parent_structure] is the
    structure's id and whose id differs, the suffix rule adds [other]'s id
    exactly while fewer than 5 ids starting with "<structureId>:" are in the
    structure's set; once 5 are present the rule adds nothing more, so it
    never raises the number of such ids above 5. *)
Theorem suffix_linkage_stops_at_five :
  forall (entries : list DocEntry) (entry other : DocEntry)
         (related_ids : list string),
    (parent_is other entry = true -> id other <> id entry ->
     link_suffix_step entry related_ids other
     = if count_suffix_ids entry related_ids <? 5
       then py.add (id other) related_ids else related_ids) /\
    (5 <= count_suffix_ids entry related_ids ->
     link_suffixes entries entry related_ids = related_ids) /\
    count_suffix_ids entry (link_suffixes entries entry related_ids)
    <= Nat.max (count_suffix_ids entry related_ids) 5.
Proof.
  intros entries entry other related_ids. repeat split.
  - intros Hpar Hne. unfold link_suffix_step. rewrite Hpar.
    apply String.eqb_neq in Hne. now rewrite Hne.
  - intros Hge. unfold link_suffixes. destruct (type entry); try reflexivity.
    induction entries as [|o l IH]; simpl; [reflexivity|].
    now rewrite link_suffix_step_full.
  - unfold link_suffixes. destruct (type entry); try lia.
    revert related_ids.
    induction entries as [|o l IH]; intros s; simpl; [lia|].
    specialize (IH (link_suffix_step entry s o)).
    pose proof (link_suffix_step_count entry s o). lia.
Qed.

(** ** The cross-reference validator *)

Lemma mem_set_of (y : string) (xs : list string) :
  py.mem y (py.set_of xs) = py.mem y xs.
Proof.
  apply eq_true_iff_eq. rewrite !mem_In. apply set_of_In.
Qed.

Lemma filter_none_rejected {A : Type} (f : A -> bool) (l : list A) :
  filter (fun a => negb (f a)) l = [] -> filter f l = l.
Proof.
  induction l as [|a l IH]; simpl; [reflexivity|].
  destruct (f a); simpl; [|discriminate].
  intros H. now rewrite IH.
Qed.

Lemma set_related_same (e : DocEntry) : set_related e (related e) = e.
Proof. now destruct e. Qed.

Lemma validate_entry_eq (entries : list DocEntry) (e : DocEntry) :
  validate_entry (py.set_of (map id entries)) e
  = (set_related e
       (filter (fun r => py.mem r (map id entries)) (related e)),
     if dangling_parent entries e then [parent_warning e (parent_of e)]
     else []).
Proof.
  unfold validate_entry, dangling_parent, parent_of.
  rewrite (filter_ext _ (fun r => negb (py.mem r (map id entries))))
    by (intros r; now rewrite mem_set_of).
  rewrite (filter_ext (fun r => py.mem r (py.set_of _))
             (fun r => py.mem r (map id entries)))
    by (intros r; now rewrite mem_set_of).
  destruct (filter (fun r => negb _) (related e)) eqn:Hinv.
  - rewrite (filter_none_rejected _ _ Hinv), set_related_same.
    destruct (parent_structure e) as [p|]; [|reflexivity].
    rewrite mem_set_of. now destruct (_ && _).
  - cbn [parent_structure set_related].
    destruct (parent_structure e) as [p|]; [|reflexivity].
    rewrite mem_set_of. now destruct (_ && _).
Qed.

(** C8. [validate_cross_references] rewrites each [related] list to the ids
    that name an entry and touches nothing else; afterwards every related id
    is an entry id; no error is returned, and the warnings are exactly one
    per entry whose [parent_structure] names no entry, so a dropped related
    id is not reported, while a dangling parent is reported and left in
    place. *)
Theorem validate_cross_references_prunes_related_reports_parents :
  forall entries : list DocEntry,
    let result := validate_cross_references entries in
    let entries' := fst result in
    let errors := fst (snd result) in
    let warnings := snd (snd result) in
    entries'
    = map (fun e =>
             set_related e
               (filter (fun r => py.mem r (map id entries)) (related e)))
        entries /\
    map id entries' = map id entries /\
    map parent_structure entries' = map parent_structure entries /\
    Forall (fun e' => Forall (fun r => In r (map id entries')) (related e'))
      entries' /\
    errors = [] /\
    warnings
    = map (fun e => parent_warning e (parent_of e))
        (filter (dangling_parent entries) entries) /\
    (forall e p,
        In e entries -> parent_structure e = Some p -> p <> EmptyString ->
        ~ In p (map id entries) -> In (parent_warning e p) warnings).
Proof.
  intros entries result entries' errors warnings.
  assert (Hent : entries'
                 = map (fun e =>
                          set_related e
                            (filter (fun r => py.mem r (map id entries))
                               (related e))) entries).
  { subst entries' result. unfold validate_cross_references. cbn [fst].
    rewrite map_map. apply map_ext. intros e.
    now rewrite validate_entry_eq. }
  assert (Hids : map id entries' = map id entries).
  { rewrite Hent, map_map. now apply map_ext. }
  assert (Hwarn : warnings
                  = map (fun e => parent_warning e (parent_of e))
                      (filter (dangling_parent entries) entries)).
  { subst warnings result. unfold validate_cross_references. cbn [snd].
    rewrite map_map.
    generalize entries at 2 4 as l.
    induction l as [|e l IH]; cbn [map concat filter]; [reflexivity|].
    rewrite validate_entry_eq. cbn [snd].
    destruct (dangling_parent entries e); cbn [map app]; now rewrite IH. }
  repeat split.
  - exact Hent.
  - exact Hids.
  - rewrite Hent, map_map. now apply map_ext.
  - rewrite Hids, Hent. apply Forall_map, Forall_forall. intros e _.
    cbn [related set_related]. apply Forall_forall. intros r Hr.
    apply filter_In in Hr. now apply mem_In.
  - exact Hwarn.
  - intros e p He Hp Hne Hdangling. rewrite Hwarn.
    apply in_map_iff. exists e. split.
    + unfold parent_of. now rewrite Hp.
    + apply filter_In. split; [assumption|].
      unfold dangling_parent. rewrite Hp.
      destruct p as [|c p]; [now elim Hne|]. simpl.
      destruct (py.mem (String c p) (map id entries)) eqn:Hmem;
        [|reflexivity].
      apply mem_In in Hmem. now elim Hdangling.
Qed.

(** The validator on a suffix whose parent and related ids all dangle. *)
Example validate_orphan :
  validate_cross_references [orphan]
  = ([set_related orphan []],
     ([], ["Entry ORBIT:PERIOD references non-existent parent: ORBIT"])).
Proof. reflexivity. Qed.

(** ** The tag engine *)

(** C3. The floor of two tags does not hold for every entry: a Suffix entry
    with id and name "FOOBAR" and every other field absent matches no rule,
    has no parent to borrow tags from, and leaves [assign_tags_to_entry] with
    the single tag "misc"; so does the suffix "PIDLOOP:KP", whose parent
    matches no pattern either. *)
Theorem unmatched_suffix_gets_only_misc :
  assigned_tag_set (new_entry "FOOBAR" "FOOBAR" SUFFIX) = ["misc"] /\
  assign_tags_to_entry (new_entry "FOOBAR" "FOOBAR" SUFFIX) = ["misc"] /\
  List.length (assign_tags_to_entry (new_entry "FOOBAR" "FOOBAR" SUFFIX)) = 1 /\
  assign_tags_to_entry pidloop_kp = ["misc"].
Proof. repeat split. Qed.

Lemma add_length (x : string) (s : list string) :
  List.length (py.add x s)
  = if py.mem x s then List.length s else S (List.length s).
Proof.
  induction s as [|y s IH]; simpl; [reflexivity|].
  destruct (String.eqb x y); simpl; [reflexivity|].
  rewrite IH. fold (py.mem x s). now destruct (py.mem x s).
Qed.

Lemma insert_sorted_length (x : string) (l : list string) :
  List.length (insert_sorted x l) = S (List.length l).
Proof.
  induction l as [|y l IH]; simpl; [reflexivity|].
  destruct (String.leb x y); simpl; [reflexivity | now rewrite IH].
Qed.

Lemma sorted_length (l : list string) :
  List.length (sorted l) = List.length l.
Proof.
  induction l as [|x l IH]; simpl; [reflexivity|].
  now rewrite insert_sorted_length, IH.
Qed.

Lemma sorted_In (y : string) (l : list string) : In y (sorted l) <-> In y l.
Proof.
  assert (Hins : forall x l', In y (insert_sorted x l') <-> y = x \/ In y l').
  { intros x l'. induction l' as [|z l' IH]; simpl; [intuition|].
    destruct (String.leb x z); simpl; [intuition|]. rewrite IH. intuition. }
  induction l as [|x l IH]; simpl; [tauto|].
  rewrite Hins, IH. intuition.
Qed.

(** The fallback reaches two tags as soon as the set holds a tag other than
    "misc". *)
Lemma misc_fallback_reaches_two (t : string) (s : list string) :
  In t s -> t <> "misc" ->
  2 <= List.length (if List.length s <? 2 then py.add "misc" s else s).
Proof.
  intros Hin Hne.
  destruct (Nat.ltb_spec (List.length s) 2) as [Hlt|Hge]; [|exact Hge].
  rewrite add_length. destruct (py.mem "misc" s) eqn:Hmisc.
  - apply mem_In in Hmisc. destruct s as [|a [|b s]]; simpl in Hlt.
    + now elim Hin.
    + destruct Hin as [Ha|[]]. destruct Hmisc as [Hm|[]]. congruence.
    + lia.
  - destruct s; [now elim Hin | simpl; lia].
Qed.

Lemma type_tag_member (t : DocEntryType) (base : list string) :
  t <> SUFFIX ->
  exists tag, In tag (py.update base (type_tags t)) /\ tag <> "misc".
Proof.
  intros Ht.
  destruct t; try (now elim Ht); eexists;
    (split; [apply update_In; right; left; reflexivity | discriminate]).
Qed.

Lemma floor_with_parent_tags (tag : string) (s : list string)
  (parent : option string) (parent_tags : string -> list string) :
  In tag s -> tag <> "misc" ->
  2 <= List.length
         (if List.length s <? 2
          then
            if List.length
                 match parent with
                 | Some (String c p) => py.update s (parent_tags (String c p))
                 | _ => s
                 end <? 2
            then
              py.add "misc"
                match parent with
                | Some (String c p) => py.update s (parent_tags (String c p))
                | _ => s
                end
            else
              match parent with
              | Some (String c p) => py.update s (parent_tags (String c p))
              | _ => s
              end
          else s).
Proof.
  intros Hin Hne.
  destruct (Nat.ltb_spec (List.length s) 2) as [Hlt|Hge]; [|exact Hge].
  apply (misc_fallback_reaches_two tag); [|exact Hne].
  destruct parent as [[|c p]|]; try exact Hin.
  apply update_In. now left.
Qed.

(** The floor of two tags does hold for every entry that is not a Suffix:
    its type contributes a tag, and "misc" then makes a second. *)
Lemma tag_floor_outside_suffixes (entry : DocEntry) :
  type entry <> SUFFIX -> 2 <= List.length (assign_tags_to_entry entry).
Proof.
  intros Htype. unfold assign_tags_to_entry. rewrite sorted_length.
  unfold assigned_tag_set. cbv zeta.
  match goal with
  | |- context [py.update ?base (type_tags (type entry))] =>
      destruct (type_tag_member (type entry) base Htype)
        as (tag & Hin & Hne);
      generalize dependent (py.update base (type_tags (type entry)))
  end.
  intros s0 Hin.
  assert (Hin1 : In tag (if deprecated entry
                         then py.add "deprecated" s0 else s0)).
  { destruct (deprecated entry); [apply add_In; now right | exact Hin]. }
  generalize dependent (if deprecated entry
                        then py.add "deprecated" s0 else s0).
  intros s1 Hin1.
  now apply (floor_with_parent_tags tag s1 (parent_structure entry)
               get_tags_from_patterns).
Qed.

Lemma tag_floor_outside_suffixes_witness :
  2 <= List.length (assign_tags_to_entry (new_entry "FOOBAR" "FOOBAR" STRUCTURE)).
Proof.
  apply (tag_floor_outside_suffixes (new_entry "FOOBAR" "FOOBAR" STRUCTURE)).
  simpl. discriminate.
Defined.

(** ** The category classifier *)






(** * Further properties of the pipeline *)

(** ** The deduplicator: ids, order and scores *)

Lemma fresh_in_order_In (x : string) (seen xs : list string) :
  In x (fresh_in_order seen xs) <-> In x xs /\ ~ In x seen.
Proof.
  revert seen. induction xs as [|y xs IH]; intros seen; simpl.
  - tauto.
  - destruct (py.mem y seen) eqn:Hy.
    + apply mem_In in Hy. rewrite IH. split.
      * intros [H1 H2]. auto.
      * intros [[->|H1] H2]; [contradiction | auto].
    + assert (Hy' : ~ In y seen).
      { intros H. apply mem_In in H. congruence. }
      simpl. rewrite IH. simpl. split.
      * intros [->|[H1 H2]]; [auto | split; [auto | intuition]].
      * intros [[->|H1] H2]; [now left|].
        destruct (string_dec y x) as [->|Hne]; [now left|].
        right. split; [assumption|]. intros [H|H]; contradiction.
Qed.

Lemma fresh_in_order_NoDup (seen xs : list string) :
  NoDup (fresh_in_order seen xs).
Proof.
  revert seen. induction xs as [|y xs IH]; intros seen; simpl.
  - constructor.
  - destruct (py.mem y seen); [apply IH|].
    constructor; [|apply IH].
    rewrite fresh_in_order_In. simpl. intuition.
Qed.

Lemma fresh_in_order_nothing_new (seen xs : list string) :
  (forall x, In x xs -> In x seen) -> fresh_in_order seen xs = [].
Proof.
  revert seen. induction xs as [|y xs IH]; intros seen Hall; simpl.
  - reflexivity.
  - assert (Hy : py.mem y seen = true) by (apply mem_In, Hall; now left).
    rewrite Hy. apply IH. intros x Hx. apply Hall. now right.
Qed.

Lemma dedup_step_keys (m : py.dict DocEntry) (entry : DocEntry) :
  py.keys (dedup_step m entry)
  = if py.mem (id entry) (py.keys m) then py.keys m
    else py.keys m ++ [id entry].
Proof.
  destruct (py.get (id entry) m) as [existing|] eqn:Hget.
  - rewrite (dedup_step_resolve _ _ _ Hget),
      (keys_set_present _ _ _ _ Hget).
    assert (Hin : In (id entry) (py.keys m)).
    { apply get_Some_In in Hget.
      change (id entry) with (fst (id entry, existing)). now apply in_map. }
    apply mem_In in Hin. now rewrite Hin.
  - unfold dedup_step. rewrite Hget, (set_fresh _ _ _ Hget).
    apply get_None_keys in Hget.
    destruct (py.mem (id entry) (py.keys m)) eqn:Hmem.
    + apply mem_In in Hmem. contradiction.
    + unfold py.keys. now rewrite map_app.
Qed.

Lemma dedup_fold_keys (entries : list DocEntry) (m : py.dict DocEntry) :
  py.keys (fold_left dedup_step entries m)
  = py.keys m ++ fresh_in_order (py.keys m) (map id entries).
Proof.
  revert m. induction entries as [|e l IH]; intros m; simpl.
  - now rewrite app_nil_r.
  - rewrite IH, dedup_step_keys.
    destruct (py.mem (id e) (py.keys m)); [reflexivity|].
    rewrite <- app_assoc. simpl. do 2 f_equal.
    apply fresh_in_order_ext. intros y. rewrite mem_app.
    unfold py.mem. simpl. rewrite orb_false_r. apply orb_comm.
Qed.

(** X1. The ids of the deduplicated list are the ids of the input, each
    once, in the order in which they are first seen. *)
Theorem deduplicate_entries_ids_first_seen :
  forall entries : list DocEntry,
    map id (deduplicate_entries entries)
    = fresh_in_order [] (map id entries) /\
    NoDup (map id (deduplicate_entries entries)) /\
    (forall i, In i (map id (deduplicate_entries entries))
               <-> In i (map id entries)) /\
    List.length (deduplicate_entries entries) <= List.length entries.
Proof.
  intros entries.
  assert (Hids : map id (deduplicate_entries entries)
                 = fresh_in_order [] (map id entries)).
  { unfold deduplicate_entries.
    rewrite (keyed_values_ids _ (dedup_loop_keyed entries)).
    unfold dedup_loop. now rewrite dedup_fold_keys. }
  repeat split.
  - exact Hids.
  - rewrite Hids. apply fresh_in_order_NoDup.
  - rewrite Hids, fresh_in_order_In. tauto.
  - rewrite Hids, fresh_in_order_In. intros H. split; [assumption | intros []].
  - rewrite <- (length_map id), Hids, <- (length_map id entries).
    generalize (map id entries) as ids. generalize (@nil string) as seen.
    intros seen ids. revert seen.
    induction ids as [|i ids IH]; intros seen; simpl; [lia|].
    destruct (py.mem i seen); simpl; [specialize (IH seen) | specialize (IH (i :: seen))]; lia.
Qed.

(** X2. A list in which every id occurs once is returned as it is. *)
Theorem deduplicate_entries_identity_on_distinct_ids :
  forall entries : list DocEntry,
    NoDup (map id entries) -> deduplicate_entries entries = entries.
Proof.
  intros entries Hnd. unfold deduplicate_entries, dedup_loop.
  rewrite dedup_distinct_ids; [| assumption | intros e _ []].
  simpl. unfold py.values. rewrite map_map. simpl. apply map_id.
Qed.

Lemma deduplicate_entries_identity_witness :
  deduplicate_entries vessel_entries = vessel_entries.
Proof.
  apply (deduplicate_entries_identity_on_distinct_ids vessel_entries).
  repeat constructor; simpl; intuition discriminate.
Defined.

Lemma spec_fill_len (kept new : option string) :
  Nat.min (py.len kept) 200 <= Nat.min (py.len (spec_fill kept new)) 200.
Proof.
  unfold spec_fill. destruct kept as [[|c k]|]; simpl py.truthy; cbv iota;
    try (destruct (py.truthy new)); simpl py.len; lia.
Qed.

Lemma spec_fill_present (kept new : option string) :
  present kept <= present (spec_fill kept new).
Proof.
  unfold spec_fill, present.
  destruct (py.truthy kept) eqn:Hk; [now rewrite Hk|].
  destruct (py.truthy new) eqn:Hn; [rewrite Hn; lia | rewrite Hk; lia].
Qed.

(** Merging never lowers the quality score of the kept entry. *)
Lemma merge_score_not_lower (kept new : DocEntry) :
  spec_score kept <= spec_score (spec_merge kept new).
Proof.
  unfold spec_score, spec_merge, spec_union.
  cbn [description snippet tags related source_ref].
  pose proof (spec_fill_len (description kept) (description new)).
  pose proof (spec_fill_present (snippet kept) (snippet new)).
  rewrite !length_app. lia.
Qed.

Lemma spec_resolve_score (existing entry : DocEntry) :
  spec_score existing <= spec_score (spec_resolve existing entry) /\
  spec_score entry <= spec_score (spec_resolve existing entry).
Proof.
  unfold spec_resolve.
  pose proof (merge_score_not_lower existing entry).
  destruct (Nat.ltb_spec (spec_score existing) (spec_score entry)); lia.
Qed.

Lemma dedup_loop_dominates (entries : list DocEntry) :
  forall e, In e entries ->
    exists k, py.get (id e) (dedup_loop entries) = Some k /\
              spec_score e <= spec_score k.
Proof.
  induction entries as [|x l IH] using rev_ind; intros e He.
  - now elim He.
  - rewrite dedup_loop_snoc. apply in_app_or in He.
    destruct (py.get (id x) (dedup_loop l)) as [existing|] eqn:Hget.
    + rewrite (dedup_step_resolve _ _ _ Hget), get_set.
      pose proof (spec_resolve_score existing x) as [Hex Hx].
      destruct (String.eqb_spec (id e) (id x)) as [Heq|Hne].
      * eexists. split; [reflexivity|].
        destruct He as [He|[<-|[]]]; [|assumption].
        destruct (IH e He) as (k & Hk & Hle).
        rewrite Heq, Hget in Hk. injection Hk as <-. lia.
      * destruct He as [He|[<-|[]]]; [now apply IH | now elim Hne].
    + unfold dedup_step. rewrite Hget, get_set.
      destruct (String.eqb_spec (id e) (id x)) as [Heq|Hne].
      * destruct He as [He|[<-|[]]].
        -- destruct (IH e He) as (k & Hk & _). rewrite Heq, Hget in Hk.
           discriminate.
        -- eexists. split; [reflexivity | lia].
      * destruct He as [He|[<-|[]]]; [now apply IH | now elim Hne].
Qed.

(** X3. For every entry of the input, the survivor with its id scores at
    least as much: deduplication never keeps an entry poorer than one it
    replaced or absorbed. *)
Theorem deduplicate_entries_survivor_dominates :
  forall (entries : list DocEntry) (e : DocEntry),
    In e entries ->
    exists k,
      In k (deduplicate_entries entries) /\ id k = id e /\
      _entry_quality_score e <= _entry_quality_score k.
Proof.
  intros entries e He.
  destruct (dedup_loop_dominates entries e He) as (k & Hget & Hle).
  exists k. apply get_Some_In in Hget. repeat split.
  - unfold deduplicate_entries, py.values.
    change k with (snd (id e, k)). now apply in_map.
  - destruct (dedup_loop_keyed entries) as [_ Hid].
    rewrite Forall_forall in Hid. exact (Hid _ Hget).
  - now rewrite !score_is_spec_score.
Qed.

Lemma deduplicate_entries_survivor_witness :
  exists k,
    In k (deduplicate_entries
            [lock_first "LOCK" KEYWORD; lock_second "LOCK" KEYWORD]) /\
    id k = "LOCK" /\ 5 <= _entry_quality_score k.
Proof.
  apply (deduplicate_entries_survivor_dominates
           [lock_first "LOCK" KEYWORD; lock_second "LOCK" KEYWORD]
           (lock_first "LOCK" KEYWORD)).
  simpl. now left.
Defined.

(** ** The merge: union and absorption *)

Lemma spec_union_In (x : string) (kept new : list string) :
  In x (spec_union kept new) <-> In x kept \/ In x new.
Proof.
  unfold spec_union. rewrite in_app_iff, fresh_in_order_In.
  destruct (in_dec string_dec x kept); tauto.
Qed.

Lemma spec_union_NoDup (kept new : list string) :
  NoDup kept -> NoDup (spec_union kept new).
Proof.
  intros Hk. unfold spec_union. apply NoDup_app.
  - assumption.
  - apply fresh_in_order_NoDup.
  - intros x Hx Hf. apply fresh_in_order_In in Hf. tauto.
Qed.

(** X4. After a merge the kept entry's tags (and related ids) are those of
    both entries; the kept ones stay in front in their order, and a list
    without repeats stays without repeats. *)
Theorem merge_entry_fields_unions_lists :
  forall target source : DocEntry,
    let merged := _merge_entry_fields target source in
    (forall t, In t (tags merged) <-> In t (tags target) \/ In t (tags source)) /\
    (forall r, In r (related merged)
               <-> In r (related target) \/ In r (related source)) /\
    firstn (List.length (tags target)) (tags merged) = tags target /\
    firstn (List.length (related target)) (related merged) = related target /\
    (NoDup (tags target) -> NoDup (tags merged)) /\
    (NoDup (related target) -> NoDup (related merged)).
Proof.
  intros target source merged. subst merged. rewrite merge_is_spec_merge.
  unfold spec_merge. cbn [tags related]. repeat split.
  - now apply spec_union_In.
  - now apply spec_union_In.
  - now apply spec_union_In.
  - now apply spec_union_In.
  - unfold spec_union. rewrite firstn_app, Nat.sub_diag, firstn_all. simpl.
    apply app_nil_r.
  - unfold spec_union. rewrite firstn_app, Nat.sub_diag, firstn_all. simpl.
    apply app_nil_r.
  - apply spec_union_NoDup.
  - apply spec_union_NoDup.
Qed.

Lemma spec_union_absorbs (kept new : list string) :
  spec_union (spec_union kept new) new = spec_union kept new.
Proof.
  unfold spec_union at 1. rewrite fresh_in_order_nothing_new.
  - apply app_nil_r.
  - intros x Hx. apply spec_union_In. now right.
Qed.

Lemma spec_fill_absorbs (kept new : option string) :
  spec_fill (spec_fill kept new) new = spec_fill kept new.
Proof.
  unfold spec_fill.
  destruct (py.truthy kept) eqn:Hk; [now rewrite Hk|].
  destruct (py.truthy new) eqn:Hn; rewrite ?Hk, ?Hn; reflexivity.
Qed.

(** X5. Merging the same source a second time changes nothing. *)
Theorem merge_entry_fields_absorbs :
  forall target source : DocEntry,
    _merge_entry_fields (_merge_entry_fields target source) source
    = _merge_entry_fields target source.
Proof.
  intros target source. rewrite !merge_is_spec_merge.
  unfold spec_merge at 1. cbn [id name type parent_structure return_type
    access signature description snippet source_ref tags aliases related
    deprecated deprecation_note spec_merge].
  now rewrite !spec_fill_absorbs, !spec_union_absorbs.
Qed.

(** ** The essential-entry injector *)

Lemma add_essential_fold (existing_ids : list string) (base_url : string)
  (table : py.dict essential) (entries : list DocEntry) (added : nat) :
  fold_left (add_essential_step existing_ids base_url) table (entries, added)
  = (entries
     ++ map (essential_entry base_url)
          (filter (fun item => negb (py.mem (fst item) existing_ids)) table),
     added
     + List.length
         (filter (fun item => negb (py.mem (fst item) existing_ids)) table)).
Proof.
  revert entries added.
  induction table as [|item table IH]; intros entries added; simpl.
  - now rewrite app_nil_r, Nat.add_0_r.
  - destruct (negb (py.mem (fst item) existing_ids)); simpl.
    + rewrite IH, <- app_assoc. simpl. f_equal. lia.
    + apply IH.
Qed.

(** The essential ids a collection lacks, in table order. *)
Lemma add_essential_entries_eq (entries : list DocEntry) (base_url : string) :
  add_essential_entries entries base_url
  = entries
    ++ map (essential_entry base_url)
         (filter (fun item => negb (py.mem (fst item) (map id entries)))
            ESSENTIAL_ENTRIES).
Proof.
  unfold add_essential_entries, add_essential_loop.
  rewrite add_essential_fold. cbn [fst]. do 2 f_equal.
  apply filter_ext. intros item. now rewrite mem_set_of.
Qed.

Lemma essential_entry_id (base_url : string) (item : string * essential) :
  id (essential_entry base_url item) = fst item.
Proof. now destruct item. Qed.

Lemma essential_keys_distinct : NoDup (py.keys ESSENTIAL_ENTRIES).
Proof. repeat constructor; simpl; intuition discriminate. Qed.

(** Dropping items from a dict leaves its keys distinct. *)
Lemma keys_filter_NoDup {V : Type} (keep : string * V -> bool)
  (d : py.dict V) :
  NoDup (py.keys d) -> NoDup (py.keys (filter keep d)).
Proof.
  unfold py.keys. induction d as [|[k v] d IH]; simpl; intros Hnd.
  - constructor.
  - inversion Hnd as [|? ? Hfresh Hrest]; subst.
    destruct (keep (k, v)); simpl; [|now apply IH].
    constructor; [|now apply IH].
    intros Hin. apply Hfresh. apply in_map_iff in Hin.
    destruct Hin as ([k' v'] & Hk & Hin). simpl in Hk. subst k'.
    apply filter_In in Hin. destruct Hin as [Hin _].
    change k with (fst (k, v')). now apply in_map.
Qed.

(** X6. [add_essential_entries] only appends: the incoming entries stay in
    front, unchanged; each appended entry carries an essential id that no
    incoming entry has, the fallback URL as its source and its id as its
    name; no id is appended twice, and the reported count is the number of
    appended entries. *)
Theorem add_essential_entries_only_appends :
  forall (entries : list DocEntry) (base_url : string),
    exists added : list DocEntry,
      add_essential_entries entries base_url = entries ++ added /\
      Forall (fun e => In (id e) (py.keys ESSENTIAL_ENTRIES) /\
                       ~ In (id e) (map id entries) /\
                       name e = id e /\
                       source_ref e = Some base_url /\
                       parent_structure e = None /\
                       deprecated e = false) added /\
      NoDup (map id added) /\
      added_count entries base_url = List.length added.
Proof.
  intros entries base_url. eexists. split; [apply add_essential_entries_eq|].
  repeat split.
  - apply Forall_map, Forall_forall. intros [k d] Hin.
    apply filter_In in Hin. destruct Hin as [Hin Hmem].
    change (id (essential_entry base_url (k, d))) with k.
    split; [| split; [| repeat split]].
    + unfold py.keys. change k with (fst (k, d)). now apply in_map.
    + intros H. apply mem_In in H. simpl fst in Hmem. now rewrite H in Hmem.
  - rewrite map_map.
    rewrite (map_ext _ fst) by (intros item; apply essential_entry_id).
    apply (keys_filter_NoDup _ _ essential_keys_distinct).
  - unfold added_count, add_essential_loop. rewrite add_essential_fold.
    cbn [snd]. rewrite length_map, Nat.add_0_l. f_equal.
    apply filter_ext. intros item. now rewrite mem_set_of.
Qed.

Lemma add_essential_entries_covers_table_aux (entries : list DocEntry)
  (base_url k : string) :
  In k (py.keys ESSENTIAL_ENTRIES) ->
  In k (map id (add_essential_entries entries base_url)).
Proof.
  intros Hk.
  rewrite add_essential_entries_eq, map_app, in_app_iff.
  destruct (py.mem k (map id entries)) eqn:Hmem.
  - left. now apply mem_In.
  - right. unfold py.keys in Hk. apply in_map_iff in Hk.
    destruct Hk as (item & Hfst & Hin).
    apply in_map_iff. exists (essential_entry base_url item). split.
    + now rewrite essential_entry_id.
    + apply in_map, filter_In. split; [assumption|].
      now rewrite Hfst, Hmem.
Qed.

(** X7. After [add_essential_entries] every essential id is the id of some
    entry, whatever the input held. *)
Theorem add_essential_entries_covers_table :
  forall (entries : list DocEntry) (base_url : string) (k : string),
    In k (py.keys ESSENTIAL_ENTRIES) ->
    In k (map id (add_essential_entries entries base_url)).
Proof.
  intros entries base_url k. apply add_essential_entries_covers_table_aux.
Qed.

Lemma add_essential_entries_covers_witness :
  In "THROTTLE" (map id (add_essential_entries [] "https://ksp-kos.github.io/KOS/")).
Proof.
  apply (add_essential_entries_covers_table [] "https://ksp-kos.github.io/KOS/"
           "THROTTLE").
  simpl. tauto.
Defined.

Lemma filter_nothing {A : Type} (p : A -> bool) (l : list A) :
  (forall a, In a l -> p a = false) -> filter p l = [].
Proof.
  induction l as [|a l IH]; intros H; simpl; [reflexivity|].
  rewrite (H a (or_introl eq_refl)). apply IH. intros b Hb. apply H.
  now right.
Qed.

(** X8. A second run of [add_essential_entries] appends nothing, whatever
    URL it is given, and a collection with distinct ids keeps distinct
    ids. *)
Theorem add_essential_entries_idempotent :
  forall (entries : list DocEntry) (base_url base_url' : string),
    add_essential_entries (add_essential_entries entries base_url) base_url'
    = add_essential_entries entries base_url /\
    (NoDup (map id entries) ->
     NoDup (map id (add_essential_entries entries base_url))).
Proof.
  intros entries base_url base_url'. split.
  - rewrite (add_essential_entries_eq (add_essential_entries _ _)).
    rewrite filter_nothing; [apply app_nil_r|].
    intros item Hitem. apply negb_false_iff, mem_In.
    apply add_essential_entries_covers_table_aux.
    unfold py.keys. now apply in_map.
  - intros Hnd. rewrite add_essential_entries_eq, map_app, map_map.
    rewrite (map_ext _ fst) by (intros item; apply essential_entry_id).
    apply NoDup_app.
    + assumption.
    + apply (keys_filter_NoDup _ _ essential_keys_distinct).
    + intros k Hk Hk'. apply in_map_iff in Hk'.
      destruct Hk' as (item & Hfst & Hin). apply filter_In in Hin.
      destruct Hin as [_ Hmem]. apply mem_In in Hk.
      rewrite Hfst, Hk in Hmem. discriminate.
Qed.

(** ** The cross-referencer: what the related lists hold *)

Lemma add_NoDup (x : string) (s : list string) :
  NoDup s -> NoDup (py.add x s).
Proof.
  induction s as [|y s IH]; simpl; intros Hnd.
  - repeat constructor. intros [].
  - destruct (String.eqb_spec x y) as [->|Hne]; [assumption|].
    inversion Hnd as [|? ? Hnotin Hnd']; subst.
    constructor; [|now apply IH].
    rewrite add_In. intros [Heq|Hin]; [now apply Hne | contradiction].
Qed.

Lemma update_NoDup (s xs : list string) : NoDup s -> NoDup (py.update s xs).
Proof.
  unfold py.update. revert s.
  induction xs as [|x xs IH]; intros s Hnd; simpl; [assumption|].
  apply IH. now apply add_NoDup.
Qed.

Lemma set_of_NoDup (xs : list string) : NoDup (py.set_of xs).
Proof. apply update_NoDup. constructor. Qed.

Lemma fold_keeps {A S : Type} (P : S -> Prop) (step : S -> A -> S)
  (xs : list A) :
  (forall s a, P s -> P (step s a)) ->
  forall s, P s -> P (fold_left step xs s).
Proof.
  intros Hstep. induction xs as [|a xs IH]; intros s Hs; simpl; auto.
Qed.

Lemma fold_adds_from {A : Type} (step : list string -> A -> list string)
  (P : string -> Prop) (xs : list A) :
  (forall s a y, In a xs -> In y (step s a) -> In y s \/ P y) ->
  forall s y, In y (fold_left step xs s) -> In y s \/ P y.
Proof.
  induction xs as [|a xs IH]; intros Hstep s y Hy; simpl in Hy.
  - now left.
  - destruct (IH (fun s' a' y' Ha' => Hstep s' a' y' (or_intror Ha')) _ _ Hy)
      as [Hin|HP]; [|now right].
    apply (Hstep s a y (or_introl eq_refl)) in Hin. exact Hin.
Qed.

Lemma related_ids_NoDup (entries : list DocEntry) (entry : DocEntry) :
  NoDup (related_ids_of entries entry).
Proof.
  unfold related_ids_of, link_mentions, link_pairs, link_suffixes,
    link_parent.
  assert (H0 : NoDup (py.set_of (related entry))) by apply set_of_NoDup.
  revert H0. generalize (py.set_of (related entry)) as s0. intros s0 H0.
  assert (H1 : NoDup
                 match parent_structure entry with
                 | Some p =>
                     if py.truthy (Some p)
                        && has_key p (entry_by_id_of entries)
                     then py.add p s0 else s0
                 | None => s0
                 end).
  { destruct (parent_structure entry) as [p|]; [|assumption].
    destruct (_ && _); [now apply add_NoDup | assumption]. }
  revert H1. generalize (match parent_structure entry with
                         | Some p =>
                             if py.truthy (Some p)
                                && has_key p (entry_by_id_of entries)
                             then py.add p s0 else s0
                         | None => s0
                         end) as s1.
  intros s1 H1.
  assert (H2 : NoDup
                 match type entry with
                 | STRUCTURE => fold_left (link_suffix_step entry) entries s1
                 | _ => s1
                 end).
  { destruct (type entry); try assumption.
    apply fold_keeps; [|assumption]. intros s other Hs.
    unfold link_suffix_step. destruct (_ && _); [|assumption].
    destruct (_ <? _); [now apply add_NoDup | assumption]. }
  revert H2. generalize (match type entry with
                         | STRUCTURE =>
                             fold_left (link_suffix_step entry) entries s1
                         | _ => s1
                         end) as s2.
  intros s2 H2.
  assert (H3 : NoDup
                 (fold_left (link_pair_step (entry_by_id_of entries) entry)
                    complementary_pairs s2)).
  { apply fold_keeps; [|assumption]. intros s pair Hs.
    unfold link_pair_step. destruct (_ && _); [now apply add_NoDup|].
    destruct (_ && _); [now apply add_NoDup | assumption]. }
  revert H3. generalize (fold_left
                           (link_pair_step (entry_by_id_of entries) entry)
                           complementary_pairs s2) as s3.
  intros s3 H3.
  destruct (description entry) as [d|]; [|assumption].
  destruct (py.truthy (Some d)); [|assumption].
  apply fold_keeps; [|assumption]. intros s [other_id other] Hs.
  unfold link_mention_step.
  destruct (String.eqb other_id (id entry)); [assumption|].
  destruct (py.contains _ _); [|assumption].
  destruct (re_search_word _ _); [now apply add_NoDup | assumption].
Qed.

Lemma NoDup_firstn {A : Type} (n : nat) (l : list A) :
  NoDup l -> NoDup (firstn n l).
Proof.
  revert n. induction l as [|a l IH]; intros [|n] Hnd; simpl;
    try constructor.
  - inversion Hnd as [|? ? Hnotin _]; subst. intros Hin. apply Hnotin.
    rewrite <- (firstn_skipn n l). apply in_or_app. now left.
  - inversion Hnd; subst. now apply IH.
Qed.

Lemma has_key_In_keys (k : string) (d : py.dict DocEntry) :
  has_key k d = true <-> In k (py.keys d).
Proof.
  unfold has_key. pose proof (get_None_keys k d) as H.
  destruct (py.get k d).
  - split; [|reflexivity]. intros _.
    destruct (in_dec string_dec k (py.keys d)) as [Hin|Hnotin];
      [assumption|]. apply H in Hnotin. discriminate.
  - split; [discriminate|]. intros Hin. now apply H in Hin.
Qed.

(** Whatever the stage adds to [related_ids] is the id of an entry. *)
Lemma related_ids_origin (entries : list DocEntry) (entry : DocEntry)
  (y : string) :
  In y (related_ids_of entries entry) ->
  In y (related entry) \/ In y (map id entries).
Proof.
  unfold related_ids_of. intros H.
  assert (Hkey : forall k, has_key k (entry_by_id_of entries) = true ->
                           In k (map id entries)).
  { intros k. apply has_key_entry_by_id. }
  unfold link_mentions in H.
  assert (H3 : In y (link_pairs (entry_by_id_of entries) entry
                       (link_suffixes entries entry
                          (link_parent (entry_by_id_of entries) entry
                             (py.set_of (related entry)))))
               \/ In y (map id entries)).
  { destruct (description entry) as [d|]; [|now left].
    destruct (py.truthy (Some d)); [|now left].
    apply (fold_adds_from _ (fun y => In y (map id entries))) in H;
      [exact H|].
    intros s [other_id other] y' Hitem. unfold link_mention_step.
    destruct (String.eqb other_id (id entry)); [now left|].
    destruct (py.contains _ _); [|now left].
    destruct (re_search_word _ _); [|now left].
    rewrite add_In. intros [->|Hin]; [right | now left].
    apply Hkey, has_key_In_keys.
    change other_id with (fst (other_id, other)). now apply in_map. }
  clear H. destruct H3 as [H|H]; [|now right].
  assert (H2 : In y (link_suffixes entries entry
                       (link_parent (entry_by_id_of entries) entry
                          (py.set_of (related entry))))
               \/ In y (map id entries)).
  { unfold link_pairs in H.
    apply (fold_adds_from _ (fun y => In y (map id entries))) in H;
      [exact H|].
    intros s pair y' _. unfold link_pair_step.
    destruct (String.eqb (id entry) (fst pair)); simpl.
    - destruct (has_key (snd pair) _) eqn:Hk.
      + rewrite add_In. intros [->|Hin]; [right; now apply Hkey | now left].
      + destruct (String.eqb (id entry) (snd pair)); simpl; [|now left].
        destruct (has_key (fst pair) _) eqn:Hk'; [|now left].
        rewrite add_In. intros [->|Hin]; [right; now apply Hkey | now left].
    - destruct (String.eqb (id entry) (snd pair)); simpl; [|now left].
      destruct (has_key (fst pair) _) eqn:Hk'; [|now left].
      rewrite add_In. intros [->|Hin]; [right; now apply Hkey | now left]. }
  clear H. destruct H2 as [H|H]; [|now right].
  assert (H1 : In y (link_parent (entry_by_id_of entries) entry
                       (py.set_of (related entry)))
               \/ In y (map id entries)).
  { unfold link_suffixes in H. destruct (type entry); try (now left).
    apply (fold_adds_from _ (fun y => In y (map id entries))) in H;
      [exact H|].
    intros s other y' Hother. unfold link_suffix_step.
    destruct (_ && _); [|now left]. destruct (_ <? _); [|now left].
    rewrite add_In. intros [->|Hin]; [right; now apply in_map | now left]. }
  clear H. destruct H1 as [H|H]; [|now right].
  unfold link_parent in H.
  destruct (parent_structure entry) as [p|];
    [|left; now apply set_of_In].
  destruct (py.truthy (Some p)); simpl in H; [|left; now apply set_of_In].
  destruct (has_key p _) eqn:Hk; [|left; now apply set_of_In].
  apply add_In in H. destruct H as [->|H];
    [right; now apply Hkey | left; now apply set_of_In].
Qed.

Lemma build_related_links_ids enum (entries : list DocEntry) :
  map id (build_related_links enum entries) = map id entries.
Proof.
  rewrite build_related_links_map, map_map. now apply map_ext.
Qed.

(** X9. [build_related_links] rewrites nothing but [related]: the result has
    the entries of the input in the same order, each equal to the incoming
    one up to its [related] list. *)
Theorem build_related_links_changes_only_related :
  forall (enum : list string -> list string) (entries : list DocEntry),
    List.length (build_related_links enum entries) = List.length entries /\
    Forall2 (fun e e' => e' = set_related e (related e'))
      entries (build_related_links enum entries).
Proof.
  intros enum entries. rewrite build_related_links_map. split.
  - apply length_map.
  - apply Forall2_map_same. intros e _. reflexivity.
Qed.

(** X10. In whatever order the sets are enumerated, a [related] list left by
    [build_related_links] holds no id twice, and each of its ids either was
    in the entry's incoming [related] or is the id of an entry of the
    collection: the stage itself creates no dangling reference. *)
Theorem build_related_links_no_repeats_no_new_dangling :
  forall (enum : list string -> list string) (entries : list DocEntry),
    (forall s, Permutation (enum s) s) ->
    Forall2
      (fun e e' =>
         NoDup (related e') /\
         forall r, In r (related e') ->
                   In r (related e) \/ In r (map id entries))
      entries (build_related_links enum entries).
Proof.
  intros enum entries Hperm. rewrite build_related_links_map.
  apply Forall2_map_same. intros e _. split.
  - rewrite related_relink. apply NoDup_firstn.
    apply (Permutation_NoDup (Permutation_sym (Hperm _))).
    apply related_ids_NoDup.
  - intros r Hr. apply relink_related_within in Hr; [|assumption].
    now apply related_ids_origin.
Qed.

Lemma build_related_links_no_repeats_witness :
  (forall s, Permutation (reverse_order s) s) /\
  Forall2
    (fun e e' =>
       NoDup (related e') /\
       forall r, In r (related e') ->
                 In r (related e) \/ In r (map id vessel_entries))
    vessel_entries (build_related_links reverse_order vessel_entries).
Proof.
  assert (H : forall s, Permutation (reverse_order s) s).
  { intros s. apply Permutation_sym, Permutation_rev. }
  split; [exact H|].
  exact (build_related_links_no_repeats_no_new_dangling
           reverse_order vessel_entries H).
Defined.



(** ** The validator: repeated and composed runs *)

Lemma validate_cross_references_eq (entries : list DocEntry) :
  validate_cross_references entries
  = (map (fun e =>
            set_related e
              (filter (fun r => py.mem r (map id entries)) (related e)))
       entries,
     ([], map (fun e => parent_warning e (parent_of e))
            (filter (dangling_parent entries) entries))).
Proof.
  unfold validate_cross_references. f_equal.
  - rewrite map_map. apply map_ext. intros e. now rewrite validate_entry_eq.
  - f_equal. rewrite map_map.
    generalize entries at 2 4 as l.
    induction l as [|e l IH]; cbn [map concat filter]; [reflexivity|].
    rewrite validate_entry_eq. cbn [snd].
    destruct (dangling_parent entries e); cbn [map app]; now rewrite IH.
Qed.

Lemma filter_all {A : Type} (p : A -> bool) (l : list A) :
  (forall a, In a l -> p a = true) -> filter p l = l.
Proof.
  induction l as [|a l IH]; intros H; simpl; [reflexivity|].
  rewrite (H a (or_introl eq_refl)). f_equal. apply IH. intros b Hb.
  apply H. now right.
Qed.

Lemma filter_map_commute {A B : Type} (f : A -> B) (p : B -> bool)
  (l : list A) :
  filter p (map f l) = map f (filter (fun a => p (f a)) l).
Proof.
  induction l as [|a l IH]; simpl; [reflexivity|].
  destruct (p (f a)); simpl; now rewrite IH.
Qed.

(** X12. A second run of [validate_cross_references] changes no entry and
    returns the same warnings as the first: pruning is done once, and a
    dangling parent is reported again. *)
Theorem validate_cross_references_idempotent :
  forall entries : list DocEntry,
    let first := validate_cross_references entries in
    validate_cross_references (fst first) = first.
Proof.
  intros entries first. subst first.
  rewrite (validate_cross_references_eq entries). cbn [fst].
  set (prune := fun e : DocEntry =>
                  set_related e
                    (filter (fun r => py.mem r (map id entries)) (related e))).
  rewrite validate_cross_references_eq.
  assert (Hids : map id (map prune entries) = map id entries).
  { rewrite map_map. now apply map_ext. }
  rewrite Hids. f_equal.
  - rewrite map_map. apply map_ext. intros e. unfold prune.
    change (set_related (set_related e ?l) ?l') with (set_related e l').
    change (related (set_related e ?l)) with l.
    f_equal. apply filter_all. intros r Hr. apply filter_In in Hr. tauto.
  - f_equal. rewrite filter_map_commute, map_map.
    rewrite (filter_ext (fun a => dangling_parent (map prune entries) (prune a))
               (dangling_parent entries)).
    + now apply map_ext.
    + intros e. unfold dangling_parent. now rewrite Hids.
Qed.

(** X13. On a collection whose incoming [related] ids all name entries,
    [build_related_links] followed by [validate_cross_references] prunes
    nothing: the validator returns the cross-referenced entries as they
    are. *)
Theorem validate_after_build_related_links_prunes_nothing :
  forall (enum : list string -> list string) (entries : list DocEntry),
    (forall s, Permutation (enum s) s) ->
    (forall e r, In e entries -> In r (related e) -> In r (map id entries)) ->
    fst (validate_cross_references (build_related_links enum entries))
    = build_related_links enum entries.
Proof.
  intros enum entries Hperm Hclosed.
  rewrite validate_cross_references_eq. cbn [fst].
  rewrite build_related_links_ids, build_related_links_map, map_map.
  apply map_ext_in. intros e He.
  rewrite filter_all; [apply set_related_same|].
  intros r Hr. apply mem_In.
  apply relink_related_within in Hr; [|assumption].
  apply related_ids_origin in Hr. destruct Hr as [Hr|Hr]; [|assumption].
  now apply (Hclosed e).
Qed.

Lemma validate_after_build_witness :
  fst (validate_cross_references
         (build_related_links insertion_order vessel_entries))
  = build_related_links insertion_order vessel_entries.
Proof.
  apply (validate_after_build_related_links_prunes_nothing
           insertion_order vessel_entries).
  - intros s. apply Permutation_refl.
  - intros e r He Hr. simpl in He.
    repeat (destruct He as [<-|He]; [now elim Hr|]). now elim He.
Defined.

(** ** Tags inferred from relationships *)

Lemma infer_loop_pointwise (R : DocEntry -> DocEntry -> Prop)
  (enum : list string -> list string) :
  (forall entries e, R e (infer_entry enum entries e)) ->
  forall visited todo,
    exists out,
      infer_loop enum visited todo = visited ++ out /\ Forall2 R todo out.
Proof.
  intros HR visited todo. revert visited.
  induction todo as [|e rest IH]; intros visited; simpl.
  - exists []. split; [now rewrite app_nil_r | constructor].
  - destruct (IH (visited ++ [infer_entry enum (visited ++ e :: rest) e]))
      as (out & Heq & Hout).
    exists (infer_entry enum (visited ++ e :: rest) e :: out). split.
    + now rewrite Heq, <- app_assoc.
    + constructor; [apply HR | assumption].
Qed.

(** X14. [infer_additional_tags] rewrites nothing but [tags], and only by
    appending: every entry keeps its incoming tags in front, in their order,
    and a tag list without repeats stays without repeats, in whatever order
    the inferred set is enumerated. *)
Theorem infer_additional_tags_only_appends :
  forall (enum : list string -> list string) (entries : list DocEntry),
    Forall2
      (fun e e' =>
         e' = set_tags e (tags e') /\
         (exists extra, tags e' = tags e ++ extra) /\
         (NoDup (tags e) -> NoDup (tags e')))
      entries (infer_additional_tags enum entries).
Proof.
  intros enum entries. unfold infer_additional_tags.
  destruct (infer_loop_pointwise
              (fun e e' =>
                 e' = set_tags e (tags e') /\
                 (exists extra, tags e' = tags e ++ extra) /\
                 (NoDup (tags e) -> NoDup (tags e')))
              enum) with (visited := @nil DocEntry) (todo := entries)
    as (out & -> & Hout); [|exact Hout].
  intros l e. unfold infer_entry. cbn [tags set_tags].
  rewrite append_missing_is_union. repeat split.
  - eexists. reflexivity.
  - apply spec_union_NoDup.
Qed.

Lemma parent_tags_to_add_no_core (parent : DocEntry) (s : list string) :
  ~ In "core" s -> ~ In "core" (parent_tags_to_add parent s).
Proof.
  unfold parent_tags_to_add. revert s.
  induction (tags parent) as [|t ts IH]; intros s Hs; simpl; [assumption|].
  apply IH. destruct (String.eqb_spec t "core") as [->|Hne]; simpl.
  - assumption.
  - rewrite add_In. intros [Heq|Hin]; [now apply Hne | contradiction].
Qed.

Lemma return_type_tags_to_add_no_core (type_lower : string)
  (s : list string) :
  ~ In "core" s -> ~ In "core" (return_type_tags_to_add type_lower s).
Proof.
  intros Hs. unfold return_type_tags_to_add.
  repeat match goal with
         | |- context [if ?b then py.add ?t ?s' else ?s'] =>
             let H := fresh in
             assert (H : ~ In "core" (if b then py.add t s' else s'));
             [ destruct b;
               [ rewrite add_In; intros [Heq|Hin];
                 [discriminate Heq | contradiction ]
               | assumption ]
             | revert H;
               generalize (if b then py.add t s' else s'); intros ? ? ]
         end.
  assumption.
Qed.

Lemma tags_to_add_no_core (entries : list DocEntry) (entry : DocEntry) :
  ~ In "core" (tags_to_add_of entries entry).
Proof.
  unfold tags_to_add_of.
  assert (H : ~ In "core"
                match parent_structure entry with
                | Some (String c p) =>
                    match find_by_id (String c p) entries with
                    | Some parent => parent_tags_to_add parent []
                    | None => []
                    end
                | _ => []
                end).
  { destruct (parent_structure entry) as [[|c p]|]; try (intros []).
    destruct (find_by_id _ _); [|intros []].
    apply parent_tags_to_add_no_core. intros []. }
  destruct (return_type entry) as [[|c r]|]; try exact H.
  now apply return_type_tags_to_add_no_core.
Qed.

(** X15. The tag "core" is never propagated: an entry has it after
    [infer_additional_tags] only if it had it before. *)
Theorem infer_additional_tags_never_adds_core :
  forall (enum : list string -> list string) (entries : list DocEntry),
    (forall s, Permutation (enum s) s) ->
    Forall2 (fun e e' => In "core" (tags e') -> In "core" (tags e))
      entries (infer_additional_tags enum entries).
Proof.
  intros enum entries Hperm. unfold infer_additional_tags.
  destruct (infer_loop_pointwise
              (fun e e' => In "core" (tags e') -> In "core" (tags e))
              enum) with (visited := @nil DocEntry) (todo := entries)
    as (out & -> & Hout); [|exact Hout].
  intros l e. unfold infer_entry. cbn [tags set_tags].
  rewrite append_missing_is_union, spec_union_In.
  intros [H|H]; [assumption|].
  apply (Permutation_in _ (Hperm _)) in H.
  now apply tags_to_add_no_core in H.
Qed.

Lemma infer_additional_tags_core_witness :
  Forall2 (fun e e' => In "core" (tags e') -> In "core" (tags e))
    vessel_entries (infer_additional_tags insertion_order vessel_entries).
Proof.
  apply (infer_additional_tags_never_adds_core insertion_order vessel_entries).
  intros s. apply Permutation_refl.
Defined.

(** An entry as a later iteration may find it: same id, no tag lost. *)
Lemma find_by_id_grown (p : string) (l l' : list DocEntry) (a : DocEntry) :
  Forall2 (fun a b => id b = id a /\ incl (tags a) (tags b)) l l' ->
  find_by_id p l = Some a ->
  exists b, find_by_id p l' = Some b /\ incl (tags a) (tags b).
Proof.
  unfold find_by_id. induction 1 as [|x y l l' [Hid Hincl] _ IH]; simpl.
  - discriminate.
  - rewrite Hid. destruct (String.eqb (id x) p).
    + intros [= <-]. now exists y.
    + exact IH.
Qed.

Lemma parent_tags_to_add_In (parent : DocEntry) (s : list string)
  (t : string) :
  In t (parent_tags_to_add parent s)
  <-> In t s \/ (In t (tags parent) /\ t <> "core").
Proof.
  unfold parent_tags_to_add. revert s.
  induction (tags parent) as [|x xs IH]; intros s; simpl.
  - tauto.
  - rewrite IH. destruct (String.eqb_spec x "core") as [->|Hne]; simpl.
    + split; [tauto|]. intros [H|[[<-|H] Hne]]; tauto.
    + rewrite add_In. split.
      * intros [[->|H]|H]; tauto.
      * intros [H|[[->|H] Hne']]; tauto.
Qed.

Lemma return_type_tags_to_add_keeps (type_lower : string) (s : list string)
  (t : string) :
  In t s -> In t (return_type_tags_to_add type_lower s).
Proof.
  intros Hs. unfold return_type_tags_to_add.
  repeat match goal with
         | |- context [if ?b then py.add ?x ?s' else ?s'] =>
             let H := fresh in
             assert (H : In t (if b then py.add x s' else s'));
             [ destruct b; [apply add_In; now right | assumption]
             | revert H;
               generalize (if b then py.add x s' else s'); intros ? ? ]
         end.
  assumption.
Qed.

Lemma infer_loop_propagates (enum : list string -> list string)
  (orig : list DocEntry) :
  (forall s, Permutation (enum s) s) ->
  forall before visited todo,
    orig = before ++ todo ->
    Forall2 (fun a b => id b = id a /\ incl (tags a) (tags b))
      before visited ->
    exists out,
      infer_loop enum visited todo = visited ++ out /\
      Forall2
        (fun e e' =>
           forall p parent t,
             parent_structure e = Some p -> p <> EmptyString ->
             find_by_id p orig = Some parent ->
             In t (tags parent) -> t <> "core" -> In t (tags e'))
        todo out.
Proof.
  intros Hperm before visited todo. revert before visited.
  induction todo as [|e rest IH]; intros before visited Horig Hgrown; simpl.
  - exists []. split; [now rewrite app_nil_r | constructor].
  - set (now := visited ++ e :: rest).
    assert (Hnow : Forall2 (fun a b => id b = id a /\ incl (tags a) (tags b))
                     orig now).
    { rewrite Horig. apply Forall2_app; [assumption|].
      clear. induction (e :: rest) as [|x xs IHxs]; constructor;
        [split; [reflexivity | apply incl_refl] | assumption]. }
    destruct (IH (before ++ [e]) (visited ++ [infer_entry enum now e]))
      as (out & Heq & Hout).
    + now rewrite <- app_assoc.
    + apply Forall2_app; [assumption|]. constructor; [|constructor].
      split; [reflexivity|]. unfold infer_entry. cbn [tags set_tags].
      rewrite append_missing_is_union. unfold spec_union.
      apply incl_appl, incl_refl.
    + exists (infer_entry enum now e :: out). split.
      * now rewrite Heq, <- app_assoc.
      * constructor; [|assumption].
        intros p parent t Hp Hne Hfind Ht Hcore.
        destruct (find_by_id_grown _ _ _ _ Hnow Hfind) as (b & Hb & Hincl).
        unfold infer_entry. cbn [tags set_tags].
        rewrite append_missing_is_union, spec_union_In. right.
        apply (Permutation_in _ (Permutation_sym (Hperm _))).
        unfold tags_to_add_of. rewrite Hp.
        destruct p as [|c p]; [now elim Hne|]. rewrite Hb.
        assert (Hin : In t (parent_tags_to_add b [])).
        { apply parent_tags_to_add_In. right. auto. }
        destruct (return_type e) as [[|c' r]|]; try assumption.
        now apply return_type_tags_to_add_keeps.
Qed.

(** X16. Tags flow from parent to member: after [infer_additional_tags], an
    entry whose non-empty [parent_structure] is the id of an entry has every
    tag, other than "core", that the first entry with that id came with. *)
Theorem infer_additional_tags_propagates_parent_tags :
  forall (enum : list string -> list string) (entries : list DocEntry),
    (forall s, Permutation (enum s) s) ->
    Forall2
      (fun e e' =>
         forall p parent t,
           parent_structure e = Some p -> p <> EmptyString ->
           find_by_id p entries = Some parent ->
           In t (tags parent) -> t <> "core" -> In t (tags e'))
      entries (infer_additional_tags enum entries).
Proof.
  intros enum entries Hperm. unfold infer_additional_tags.
  destruct (infer_loop_propagates enum entries Hperm [] [] entries
              eq_refl (Forall2_nil _)) as (out & -> & Hout).
  exact Hout.
Qed.

Lemma infer_additional_tags_propagates_witness :
  parent_structure (vessel_suffix "MASS") = Some "VESSEL" /\
  find_by_id "VESSEL" tagged_family = Some tagged_vessel /\
  tags (vessel_suffix "MASS") = [] /\
  tags tagged_vessel = ["vessel"; "core"] /\
  map tags (infer_additional_tags reverse_order tagged_family)
  = [["vessel"]; ["vessel"; "core"]] /\
  Forall2
    (fun e e' =>
       forall p parent t,
         parent_structure e = Some p -> p <> EmptyString ->
         find_by_id p tagged_family = Some parent ->
         In t (tags parent) -> t <> "core" -> In t (tags e'))
    tagged_family (infer_additional_tags reverse_order tagged_family).
Proof.
  do 5 (split; [reflexivity|]).
  apply (infer_additional_tags_propagates_parent_tags
           reverse_order tagged_family).
  intros s. apply Permutation_sym, Permutation_rev.
Defined.

(** ** The tag engine: order, vocabulary and repeated runs *)

Lemma leb_iff (a b : string) :
  String.leb a b = true <-> a = b \/ OrderedTypeEx.String_as_OT.lt a b.
Proof.
  unfold String.leb.
  pose proof (OrderedTypeEx.String_as_OT.cmp_eq a b) as Heq.
  pose proof (OrderedTypeEx.String_as_OT.cmp_lt a b) as Hlt.
  unfold OrderedTypeEx.String_as_OT.cmp in Heq, Hlt.
  destruct (String.compare a b).
  - split; [intros _; left; now apply Heq | reflexivity].
  - split; [intros _; right; now apply Hlt | reflexivity].
  - split; [discriminate|].
    intros [H|H]; [apply Heq in H | apply Hlt in H]; discriminate.
Qed.

Lemma leb_trans (a b c : string) :
  String.leb a b = true -> String.leb b c = true -> String.leb a c = true.
Proof.
  rewrite !leb_iff. intros [->|Hab] [->|Hbc]; auto.
  right. eapply OrderedTypeEx.String_as_OT.lt_trans; eassumption.
Qed.

Lemma insert_sorted_In (y x : string) (l : list string) :
  In y (insert_sorted x l) <-> y = x \/ In y l.
Proof.
  induction l as [|z l IH]; simpl; [intuition|].
  destruct (String.leb x z); simpl; [intuition|]. rewrite IH. intuition.
Qed.

Lemma insert_sorted_sorted (x : string) (l : list string) :
  StronglySorted (fun a b => String.leb a b = true) l ->
  StronglySorted (fun a b => String.leb a b = true) (insert_sorted x l).
Proof.
  induction 1 as [|y l Hl IH Hy]; simpl.
  - repeat constructor.
  - destruct (String.leb x y) eqn:Hxy.
    + constructor; [now constructor|].
      constructor; [assumption|].
      rewrite Forall_forall in *. intros z Hz.
      apply (leb_trans x y z); auto.
    + constructor; [assumption|].
      rewrite Forall_forall in *. intros z Hz.
      apply insert_sorted_In in Hz. destruct Hz as [->|Hz]; auto.
      destruct (String.leb_total x y) as [H|H]; congruence.
Qed.

Lemma sorted_is_sorted (l : list string) :
  StronglySorted (fun a b => String.leb a b = true) (sorted l).
Proof.
  induction l as [|x l IH]; simpl; [constructor|].
  now apply insert_sorted_sorted.
Qed.

Lemma insert_sorted_NoDup (x : string) (l : list string) :
  ~ In x l -> NoDup l -> NoDup (insert_sorted x l).
Proof.
  induction l as [|y l IH]; simpl; intros Hx Hnd.
  - repeat constructor. intros [].
  - destruct (String.leb x y).
    + now constructor.
    + inversion Hnd as [|? ? Hy Hnd']; subst.
      constructor.
      * rewrite insert_sorted_In. intros [->|H]; [apply Hx; now left|].
        contradiction.
      * apply IH; [|assumption]. intros H. apply Hx. now right.
Qed.

Lemma sorted_NoDup (l : list string) : NoDup l -> NoDup (sorted l).
Proof.
  induction 1 as [|x l Hx Hnd IH]; simpl; [constructor|].
  apply insert_sorted_NoDup; [|assumption]. now rewrite sorted_In.
Qed.

(** Two sorted lists without repeats that hold the same strings are the
    same list. *)
Lemma sorted_lists_equal (l l' : list string) :
  StronglySorted (fun a b => String.leb a b = true) l ->
  StronglySorted (fun a b => String.leb a b = true) l' ->
  NoDup l -> NoDup l' ->
  (forall x, In x l <-> In x l') -> l = l'.
Proof.
  intros Hl. revert l'.
  induction Hl as [|a l Hl IH Ha]; intros l' Hl' Hnd Hnd' Hsame.
  - destruct l' as [|b l']; [reflexivity|].
    exfalso. apply (Hsame b). now left.
  - destruct Hl' as [|b l' Hl' Hb].
    + exfalso. apply (Hsame a). now left.
    + rewrite Forall_forall in Ha, Hb.
      inversion Hnd as [|? ? Ha' Hndl]; subst.
      inversion Hnd' as [|? ? Hb' Hndl']; subst.
      assert (Hab : a = b).
      { assert (H1 : In a (b :: l')) by (apply Hsame; now left).
        assert (H2 : In b (a :: l)) by (apply Hsame; now left).
        destruct H1 as [H1|H1]; [now symmetry|].
        destruct H2 as [H2|H2]; [assumption|].
        apply String.leb_antisym; auto. }
      subst b. f_equal. apply IH; try assumption.
      intros x. split; intros Hx.
      * assert (H : In x (a :: l')) by (apply Hsame; now right).
        destruct H as [<-|H]; [contradiction | assumption].
      * assert (H : In x (a :: l)) by (apply Hsame; now right).
        destruct H as [<-|H]; [contradiction | assumption].
Qed.

Lemma assigned_tag_set_floor (entry : DocEntry) :
  assigned_tag_set entry = tag_floor entry (base_tag_set entry).
Proof. reflexivity. Qed.

Lemma base_tag_set_NoDup (entry : DocEntry) : NoDup (base_tag_set entry).
Proof.
  unfold base_tag_set. cbv zeta.
  assert (H : NoDup
                (py.update
                   (py.update
                      (py.update
                         (py.update
                            (py.update (py.set_of (tags entry))
                               (get_tags_from_patterns (id entry)))
                            (get_tags_from_keyword (name entry)))
                         (get_tags_from_return_type (return_type entry)))
                      (get_tags_from_description (description entry)))
                   (type_tags (type entry)))).
  { do 5 apply update_NoDup. apply set_of_NoDup. }
  destruct (deprecated entry); [now apply add_NoDup | assumption].
Qed.

Lemma tag_floor_NoDup (entry : DocEntry) (s : list string) :
  NoDup s -> NoDup (tag_floor entry s).
Proof.
  intros Hs. unfold tag_floor. cbv zeta.
  destruct (List.length s <? 2); [|assumption].
  assert (H : NoDup
                match parent_structure entry with
                | Some (String c p) =>
                    py.update s (get_tags_from_patterns (String c p))
                | _ => s
                end).
  { destruct (parent_structure entry) as [[|c p]|]; try assumption.
    now apply update_NoDup. }
  destruct (_ <? 2); [now apply add_NoDup | assumption].
Qed.

Lemma tag_floor_keeps (entry : DocEntry) (s : list string) (t : string) :
  In t s -> In t (tag_floor entry s).
Proof.
  intros Hs. unfold tag_floor. cbv zeta.
  destruct (List.length s <? 2); [|assumption].
  assert (H : In t
                match parent_structure entry with
                | Some (String c p) =>
                    py.update s (get_tags_from_patterns (String c p))
                | _ => s
                end).
  { destruct (parent_structure entry) as [[|c p]|]; try assumption.
    apply update_In. now left. }
  destruct (_ <? 2); [apply add_In; now right | assumption].
Qed.

Lemma base_tag_set_keeps (entry : DocEntry) (t : string) :
  In t (tags entry) -> In t (base_tag_set entry).
Proof.
  intros Ht. unfold base_tag_set. cbv zeta.
  assert (H : In t
                (py.update
                   (py.update
                      (py.update
                         (py.update
                            (py.update (py.set_of (tags entry))
                               (get_tags_from_patterns (id entry)))
                            (get_tags_from_keyword (name entry)))
                         (get_tags_from_return_type (return_type entry)))
                      (get_tags_from_description (description entry)))
                   (type_tags (type entry)))).
  { do 5 (apply update_In; left). now apply set_of_In. }
  destruct (deprecated entry); [apply add_In; now right | assumption].
Qed.

(** X17. [assign_tags_to_entry] returns the tags in ascending order, each
    once, and among them every tag the entry came with. *)
Theorem assign_tags_sorted_distinct_keeps_existing :
  forall entry : DocEntry,
    StronglySorted (fun a b => String.leb a b = true)
      (assign_tags_to_entry entry) /\
    NoDup (assign_tags_to_entry entry) /\
    (forall t, In t (tags entry) -> In t (assign_tags_to_entry entry)).
Proof.
  intros entry. unfold assign_tags_to_entry.
  rewrite assigned_tag_set_floor. repeat split.
  - apply sorted_is_sorted.
  - apply sorted_NoDup, tag_floor_NoDup, base_tag_set_NoDup.
  - intros t Ht. apply sorted_In, tag_floor_keeps.
    now apply base_tag_set_keeps.
Qed.

Lemma fold_update_within {A : Type} (f : A * list string -> bool)
  (table : list (A * list string)) (s : list string) (t : string) :
  In t (fold_left
          (fun tags item => if f item then py.update tags (snd item) else tags)
          table s) ->
  In t s \/ In t (concat (map snd table)).
Proof.
  revert s. induction table as [|item table IH]; intros s; simpl.
  - now left.
  - intros H. apply IH in H. rewrite in_app_iff.
    destruct H as [H|H]; [|tauto].
    destruct (f item); [|tauto]. apply update_In in H. tauto.
Qed.

Lemma patterns_within_table (entry_id t : string) :
  In t (get_tags_from_patterns entry_id) ->
  In t (concat (map snd TAG_PATTERNS)).
Proof.
  unfold get_tags_from_patterns. cbv zeta. intros H.
  apply (fold_update_within
           (fun item => re_search (fst item) (py.upper entry_id))) in H.
  destruct H as [[]|H]. exact H.
Qed.

Lemma keyword_within_table (name t : string) :
  In t (get_tags_from_keyword name) ->
  In t (concat (map snd KEYWORD_TAG_HINTS)).
Proof.
  unfold get_tags_from_keyword. cbv zeta.
  destruct (py.get (py.upper name) KEYWORD_TAG_HINTS) as [hints|] eqn:Hget;
    [|intros []].
  rewrite set_of_In. intros Ht. apply in_concat. exists hints. split; [|exact Ht].
  apply get_Some_In in Hget.
  change hints with (snd (py.upper name, hints)). now apply in_map.
Qed.

Lemma return_type_within_table (return_type : option string) (t : string) :
  In t (get_tags_from_return_type return_type) ->
  In t (concat (map snd RETURN_TYPE_TAGS)).
Proof.
  unfold get_tags_from_return_type.
  destruct return_type as [[|c r]|]; try (intros []). cbv zeta. intros H.
  apply (fold_update_within
           (fun item => py.contains (fst item) (py.lower (String c r)))) in H.
  destruct H as [[]|H]. exact H.
Qed.

Lemma description_within_table (description : option string) (t : string) :
  In t (get_tags_from_description description) ->
  In t (map fst description_hints).
Proof.
  unfold get_tags_from_description.
  destruct description as [[|c d]|]; try (intros []). cbv zeta.
  generalize (py.lower (String c d)) as desc_lower. intros desc_lower.
  assert (H : forall table s,
             In t (fold_left
                     (fun tags (item : string * list string) =>
                        if existsb (fun keyword => py.contains keyword desc_lower)
                             (snd item)
                        then py.add (fst item) tags else tags) table s) ->
             In t s \/ In t (map fst table)).
  { induction table as [|item table IH]; intros s; simpl; [now left|].
    intros H. apply IH in H. destruct H as [H|H]; [|tauto].
    destruct (existsb _ _); [|tauto]. apply add_In in H.
    destruct H as [->|H]; tauto. }
  intros Ht. apply H in Ht. destruct Ht as [[]|Ht]. exact Ht.
Qed.

Lemma type_tags_within (ty : DocEntryType) (t : string) :
  In t (type_tags ty) ->
  In t ["structure"; "function"; "keyword"; "constant"; "command";
        "deprecated"; "misc"].
Proof.
  destruct ty; cbn [type_tags In]; intros H; try contradiction;
    destruct H as [<-|[]]; auto 10.
Qed.

Lemma rule_vocabulary_parts (t : string) :
  In t (concat (map snd TAG_PATTERNS))
  \/ In t (concat (map snd KEYWORD_TAG_HINTS))
  \/ In t (concat (map snd RETURN_TYPE_TAGS))
  \/ In t (map fst description_hints)
  \/ In t ["structure"; "function"; "keyword"; "constant"; "command";
           "deprecated"; "misc"] ->
  In t rule_vocabulary.
Proof.
  unfold rule_vocabulary. intros [H|[H|[H|[H|H]]]].
  - apply in_or_app. now left.
  - apply in_or_app. right. apply in_or_app. now left.
  - do 2 (apply in_or_app; right). apply in_or_app. now left.
  - do 3 (apply in_or_app; right). apply in_or_app. now left.
  - do 4 (apply in_or_app; right). exact H.
Qed.

Lemma base_tag_set_within (entry : DocEntry) (t : string) :
  In t (base_tag_set entry) -> In t (tags entry) \/ In t rule_vocabulary.
Proof.
  unfold base_tag_set, rule_vocabulary. cbv zeta. intros H.
  assert (H' : In t
                 (py.update
                    (py.update
                       (py.update
                          (py.update
                             (py.update (py.set_of (tags entry))
                                (get_tags_from_patterns (id entry)))
                             (get_tags_from_keyword (name entry)))
                          (get_tags_from_return_type (return_type entry)))
                       (get_tags_from_description (description entry)))
                    (type_tags (type entry)))
               \/ t = "deprecated").
  { destruct (deprecated entry); [|now left].
    apply add_In in H. tauto. }
  clear H.
  destruct H' as [H| ->].
  2:{ right. apply rule_vocabulary_parts. do 4 right.
      right. right. right. right. right. now left. }
  rewrite !update_In, set_of_In in H.
  destruct H as [[[[[H|H]|H]|H]|H]|H].
  - now left.
  - right. apply rule_vocabulary_parts. left.
    now apply patterns_within_table in H.
  - right. apply rule_vocabulary_parts. right. left.
    now apply keyword_within_table in H.
  - right. apply rule_vocabulary_parts. right. right. left.
    now apply return_type_within_table in H.
  - right. apply rule_vocabulary_parts. do 3 right. left.
    now apply description_within_table in H.
  - right. apply rule_vocabulary_parts. do 4 right.
    now apply type_tags_within in H.
Qed.

Lemma tag_floor_within (entry : DocEntry) (s : list string) (t : string) :
  In t (tag_floor entry s) ->
  In t s \/ In t (parent_pattern_tags entry) \/ t = "misc".
Proof.
  unfold tag_floor, parent_pattern_tags. cbv zeta.
  destruct (List.length s <? 2); [|now left].
  assert (H : forall s',
             In t (if List.length s' <? 2 then py.add "misc" s' else s') ->
             In t s' \/ t = "misc").
  { intros s'. destruct (_ <? 2); [|now left]. rewrite add_In. tauto. }
  intros Ht. apply H in Ht. destruct Ht as [Ht|Ht]; [|tauto].
  destruct (parent_structure entry) as [[|c p]|]; try tauto.
  apply update_In in Ht. tauto.
Qed.

Lemma rule_vocabulary_described :
  forallb (fun t => described t || String.eqb t "structure"
                    || String.eqb t "misc") rule_vocabulary = true.
Proof. vm_compute. reflexivity. Qed.

Lemma assign_tags_vocabulary (entry : DocEntry) (t : string) :
  In t (assign_tags_to_entry entry) ->
  In t (tags entry) \/ described t = true \/ t = "structure" \/ t = "misc".
Proof.
  intros Ht. unfold assign_tags_to_entry in Ht.
  apply (proj1 (sorted_In _ _)) in Ht. rewrite assigned_tag_set_floor in Ht.
  assert (Hvoc : In t (tags entry) \/ In t rule_vocabulary).
  { apply tag_floor_within in Ht. destruct Ht as [Ht|[Ht| ->]].
    - now apply base_tag_set_within.
    - right. unfold parent_pattern_tags in Ht.
      destruct (parent_structure entry) as [[|c p]|];
        [destruct Ht | | destruct Ht].
      apply patterns_within_table in Ht. apply rule_vocabulary_parts.
      now left.
    - right. apply rule_vocabulary_parts. do 4 right.
      do 6 right. now left. }
  destruct Hvoc as [H|H]; [now left | right].
  pose proof rule_vocabulary_described as Hall.
  rewrite forallb_forall in Hall. specialize (Hall t H).
  apply orb_prop in Hall. destruct Hall as [Hall|Hall].
  - apply orb_prop in Hall. destruct Hall as [Hall|Hall]; [now left|].
    right. left. now apply String.eqb_eq.
  - right. right. now apply String.eqb_eq.
Qed.

(** X18. Every tag that [assign_tags_to_entry] adds to an entry has a
    description in [ALL_TAG_DESCRIPTIONS], with two exceptions, "structure"
    and "misc"; in particular the tag "suffix" is in the result only if the
    entry came with it. *)
Theorem assign_tags_adds_only_described_tags :
  forall (entry : DocEntry) (t : string),
    (In t (assign_tags_to_entry entry) ->
     In t (tags entry) \/ described t = true \/ t = "structure"
     \/ t = "misc") /\
    (In "suffix" (assign_tags_to_entry entry) -> In "suffix" (tags entry)) /\
    described "structure" = false /\ described "misc" = false.
Proof.
  intros entry t. repeat split.
  - apply assign_tags_vocabulary.
  - intros H. apply assign_tags_vocabulary in H.
    destruct H as [H|[H|[H|H]]]; [assumption | | |].
    + vm_compute in H. discriminate H.
    + discriminate H.
    + discriminate H.
Qed.

Lemma short_list_with_member (x : string) (l : list string) :
  In x l -> List.length l < 2 -> l = [x].
Proof.
  destruct l as [|a [|b l]]; simpl; intros Hin Hlen.
  - now elim Hin.
  - destruct Hin as [->|[]]. reflexivity.
  - lia.
Qed.

(** A floor that ends under two tags went through both fallbacks. *)
Lemma tag_floor_short (entry : DocEntry) (s : list string) :
  List.length (tag_floor entry s) < 2 ->
  tag_floor entry s = ["misc"] /\
  (forall t, In t s -> In t (tag_floor entry s)) /\
  (forall t, In t (parent_pattern_tags entry) -> In t (tag_floor entry s)).
Proof.
  unfold tag_floor, parent_pattern_tags. cbv zeta.
  destruct (Nat.ltb_spec (List.length s) 2) as [Hs|Hs]; [|lia].
  assert (Hwith : forall t,
             In t s \/ In t match parent_structure entry with
                            | Some (String c p) =>
                                get_tags_from_patterns (String c p)
                            | _ => []
                            end ->
             In t match parent_structure entry with
                  | Some (String c p) =>
                      py.update s (get_tags_from_patterns (String c p))
                  | _ => s
                  end).
  { intros t. destruct (parent_structure entry) as [[|c p]|].
    - intros [H|[]]. exact H.
    - rewrite update_In. tauto.
    - intros [H|[]]. exact H. }
  revert Hwith.
  generalize (match parent_structure entry with
              | Some (String c p) =>
                  py.update s (get_tags_from_patterns (String c p))
              | _ => s
              end) as s'.
  intros s' Hwith.
  destruct (Nat.ltb_spec (List.length s') 2) as [Hs'|Hs']; [|lia].
  intros Hlen.
  assert (Hmisc : In "misc" (py.add "misc" s')) by (apply add_In; now left).
  rewrite (short_list_with_member _ _ Hmisc Hlen) in *.
  split; [reflexivity|].
  split; intros t Ht.
  - assert (H : In t (py.add "misc" s')) by (apply add_In; right; auto).
    now rewrite (short_list_with_member _ _ Hmisc Hlen) in H.
  - assert (H : In t (py.add "misc" s')) by (apply add_In; right; auto).
    now rewrite (short_list_with_member _ _ Hmisc Hlen) in H.
Qed.

(** X19. The only entries that leave [assign_tags_to_entry] with fewer than
    two tags are Suffix entries, and the tags they leave with are exactly
    ["misc"]. *)
Theorem assign_tags_under_two_only_misc_suffix :
  forall entry : DocEntry,
    List.length (assign_tags_to_entry entry) < 2 ->
    type entry = SUFFIX /\ assign_tags_to_entry entry = ["misc"].
Proof.
  intros entry Hlen. split.
  - destruct (type entry) eqn:Hty; try reflexivity;
      assert (Hne : type entry <> SUFFIX) by (rewrite Hty; discriminate);
      apply tag_floor_outside_suffixes in Hne; lia.
  - unfold assign_tags_to_entry in *. rewrite sorted_length in Hlen.
    rewrite assigned_tag_set_floor in *.
    destruct (tag_floor_short _ _ Hlen) as [-> _]. reflexivity.
Qed.

Lemma assign_tags_under_two_witness :
  type pidloop_kp = SUFFIX /\ assign_tags_to_entry pidloop_kp = ["misc"].
Proof.
  apply (assign_tags_under_two_only_misc_suffix pidloop_kp).
  vm_compute. lia.
Defined.

(** The set before the floor is the incoming tags and what the rules add. *)
Lemma base_tag_set_split (entry : DocEntry) (x : string) :
  In x (base_tag_set entry)
  <-> In x (tags entry) \/ In x (base_tag_set (set_tags entry [])).
Proof.
  unfold base_tag_set. cbv zeta.
  cbn [set_tags tags id name return_type description type deprecated].
  destruct (deprecated entry).
  - rewrite !add_In, !update_In, !set_of_In. cbn [In]. tauto.
  - rewrite !update_In, !set_of_In. cbn [In]. tauto.
Qed.

Lemma tag_floor_set_tags (entry : DocEntry) (ts s : list string) :
  tag_floor (set_tags entry ts) s = tag_floor entry s.
Proof. reflexivity. Qed.

Lemma base_tag_set_rules_set_tags (entry : DocEntry) (ts : list string) :
  base_tag_set (set_tags (set_tags entry ts) []) = base_tag_set (set_tags entry []).
Proof. reflexivity. Qed.

Lemma tag_floor_long (entry : DocEntry) (s : list string) :
  2 <= List.length s -> tag_floor entry s = s.
Proof.
  intros Hlen. unfold tag_floor.
  destruct (Nat.ltb_spec (List.length s) 2); [lia | reflexivity].
Qed.

Lemma tag_floor_stable (entry : DocEntry) (s0 s : list string) :
  NoDup s0 -> NoDup s ->
  (forall x, In x s <-> In x (tag_floor entry s0)) ->
  forall x, In x (tag_floor entry s) <-> In x (tag_floor entry s0).
Proof.
  intros Hs0 Hs Hsame x.
  assert (Hlen : List.length s = List.length (tag_floor entry s0)).
  { apply Permutation_length, NoDup_Permutation; try assumption.
    now apply tag_floor_NoDup. }
  destruct (Nat.lt_ge_cases (List.length (tag_floor entry s0)) 2)
    as [Hshort|Hlong].
  - destruct (tag_floor_short _ _ Hshort) as (Hmisc & _ & Hparent).
    split.
    + intros Hx. apply tag_floor_within in Hx.
      destruct Hx as [Hx|[Hx| ->]].
      * now apply Hsame.
      * now apply Hparent.
      * rewrite Hmisc. now left.
    + intros Hx. apply tag_floor_keeps. now apply Hsame.
  - rewrite tag_floor_long by lia. apply Hsame.
Qed.

(** X20. Running the tag engine on its own output changes nothing:
    [assign_tags_to_entry] applied to an entry that already carries the
    assigned tags returns the same list. *)
Theorem assign_tags_idempotent :
  forall entry : DocEntry,
    assign_tags_to_entry (set_tags entry (assign_tags_to_entry entry))
    = assign_tags_to_entry entry.
Proof.
  intros entry. unfold assign_tags_to_entry at 1 3.
  rewrite !assigned_tag_set_floor, tag_floor_set_tags.
  apply sorted_lists_equal.
  - apply sorted_is_sorted.
  - apply sorted_is_sorted.
  - apply sorted_NoDup, tag_floor_NoDup, base_tag_set_NoDup.
  - apply sorted_NoDup, tag_floor_NoDup, base_tag_set_NoDup.
  - intros x. rewrite !sorted_In.
    apply tag_floor_stable; try apply base_tag_set_NoDup.
    intros y. rewrite base_tag_set_split, base_tag_set_rules_set_tags.
    change (tags (set_tags entry ?ts)) with ts.
    unfold assign_tags_to_entry. rewrite sorted_In, assigned_tag_set_floor.
    split; [|tauto].
    intros [H|H]; [assumption|].
    apply tag_floor_keeps, base_tag_set_split. now right.
Qed.

(** ** Categories and usage frequency *)

Lemma first_structure_prefix_value (id_upper : string) (items : py.dict string)
  (category : string) :
  first_structure_prefix id_upper items = Some category ->
  In category (py.values items).
Proof.
  induction items as [|[struct cat] items IH]; simpl; [discriminate|].
  destruct (_ || _).
  - intros [= ->]. now left.
  - intros H. right. now apply IH.
Qed.

Lemma get_value_In (k : string) (d : py.dict string) (v : string) :
  py.get k d = Some v -> In v (py.values d).
Proof.
  intros H. apply get_Some_In in H.
  change v with (snd (k, v)). unfold py.values. now apply in_map.
Qed.

(** A category that [get_category_for_entry] returns is a value of one of
    the two tables. *)
Lemma category_from_tables (entry : DocEntry) (category : string) :
  get_category_for_entry entry = Some category ->
  In category (py.values STRUCTURE_CATEGORIES ++ py.values TYPE_CATEGORIES).
Proof.
  unfold get_category_for_entry. intros H. apply in_or_app.
  destruct (DocEntryType_eqb (type entry) FUNCTION);
    [right; injection H as <-; cbv; tauto|].
  destruct (DocEntryType_eqb (type entry) KEYWORD);
    [right; injection H as <-; cbv; tauto|].
  destruct (DocEntryType_eqb (type entry) COMMAND);
    [right; injection H as <-; cbv; tauto|].
  destruct (DocEntryType_eqb (type entry) CONSTANT);
    [right; injection H as <-; cbv; tauto|].
  left. cbv zeta in H.
  destruct (py.get (py.upper _) STRUCTURE_CATEGORIES) as [c|] eqn:Hdirect.
  - injection H as <-. exact (get_value_In _ _ _ Hdirect).
  - destruct (py.get (py.split_head _ _) STRUCTURE_CATEGORIES) as [c|] eqn:Hseg.
    + injection H as <-. exact (get_value_In _ _ _ Hseg).
    + exact (first_structure_prefix_value _ _ _ H).
Qed.

Lemma table_categories_proper :
  forallb (fun c => negb (String.eqb c "") && negb (String.eqb c "Miscellaneous"))
    (py.values STRUCTURE_CATEGORIES ++ py.values TYPE_CATEGORIES) = true.
Proof. vm_compute. reflexivity. Qed.

Lemma typed_entry_has_category (entry : DocEntry) :
  type entry <> STRUCTURE -> type entry <> SUFFIX ->
  exists category, get_category_for_entry entry = Some category.
Proof.
  intros Hs Hx. unfold get_category_for_entry.
  destruct (type entry); try (now elim Hs); try (now elim Hx);
    cbn [DocEntryType_eqb]; eexists; reflexivity.
Qed.

Lemma assign_category_step_spec (categories : list string) (n : nat)
  (entry : DocEntry) :
  exists category,
    assign_category_step (categories, n) entry = (categories ++ [category], n)
    /\ category <> "Miscellaneous" /\ category <> EmptyString
    /\ (get_category_for_entry entry = Some category
        \/ (get_category_for_entry entry = None
            /\ (type entry = STRUCTURE /\ category = "Structures"
                \/ type entry = SUFFIX /\ category = "Structure Members"))).
Proof.
  unfold assign_category_step.
  destruct (get_category_for_entry entry) as [category|] eqn:Hcat.
  - pose proof (category_from_tables _ _ Hcat) as Hin.
    pose proof table_categories_proper as Hall.
    rewrite forallb_forall in Hall. specialize (Hall _ Hin).
    apply andb_prop in Hall. destruct Hall as [Hne Hmisc].
    apply negb_true_iff, String.eqb_neq in Hne, Hmisc.
    destruct category as [|c s]; [now elim Hne|].
    eexists. split; [reflexivity|]. auto.
  - destruct (type entry) eqn:Hty; cbn [DocEntryType_eqb];
      try (destruct (typed_entry_has_category entry) as [c Hc];
           [rewrite Hty; discriminate | rewrite Hty; discriminate
           | congruence]).
    + eexists. split; [reflexivity|].
      split; [discriminate|]. split; [discriminate|]. right. auto.
    + eexists. split; [reflexivity|].
      split; [discriminate|]. split; [discriminate|]. right. auto.
Qed.

(** X21. [assign_categories] gives every entry a non-empty category and
    never the category "Miscellaneous": its counter of uncategorized entries
    ends at 0 for every collection. A category is the one
    [get_category_for_entry] returns, or "Structures" (for a Structure) or
    "Structure Members" (for a Suffix) when it returns none. *)
Theorem assign_categories_never_miscellaneous :
  forall entries : list DocEntry,
    snd (assign_categories entries) = 0 /\
    Forall2
      (fun entry category =>
         category <> "Miscellaneous" /\ category <> EmptyString /\
         (get_category_for_entry entry = Some category
          \/ (get_category_for_entry entry = None
              /\ (type entry = STRUCTURE /\ category = "Structures"
                  \/ type entry = SUFFIX /\ category = "Structure Members"))))
      entries (fst (assign_categories entries)).
Proof.
  intros entries. unfold assign_categories.
  assert (H : forall categories n,
             exists added,
               fold_left assign_category_step entries (categories, n)
               = (categories ++ added, n) /\
               Forall2
                 (fun entry category =>
                    category <> "Miscellaneous" /\ category <> EmptyString /\
                    (get_category_for_entry entry = Some category
                     \/ (get_category_for_entry entry = None
                         /\ (type entry = STRUCTURE /\ category = "Structures"
                             \/ type entry = SUFFIX
                                /\ category = "Structure Members"))))
                 entries added).
  { induction entries as [|e l IH]; intros categories n; cbn [fold_left].
    - exists []. split; [now rewrite app_nil_r | constructor].
    - destruct (assign_category_step_spec categories n e)
        as (c & -> & Hc).
      destruct (IH (categories ++ [c]) n) as (added & -> & Hadded).
      exists (c :: added). split; [now rewrite <- app_assoc|].
      now constructor. }
  destruct (H [] 0) as (added & -> & Hadded). simpl. split; [reflexivity|].
  exact Hadded.
Qed.

Lemma frequency_range (entry : DocEntry) :
  get_usage_frequency entry = "common"
  \/ get_usage_frequency entry = "moderate"
  \/ get_usage_frequency entry = "rare".
Proof.
  unfold get_usage_frequency. cbv zeta.
  repeat match goal with
         | |- context [if ?b then _ else _] => destruct b
         end; auto.
Qed.

Lemma occurrences_total (frequencies : list string) :
  Forall (fun f => f = "common" \/ f = "moderate" \/ f = "rare") frequencies ->
  occurrences "common" frequencies + occurrences "moderate" frequencies
  + occurrences "rare" frequencies = List.length frequencies.
Proof.
  unfold occurrences. induction 1 as [|f l Hf _ IH]; [reflexivity|].
  destruct Hf as [->|[->| ->]];
    cbn [filter String.eqb Ascii.eqb Bool.eqb List.length] in *; lia.
Qed.

Lemma assign_frequency_fold (entries : list DocEntry)
  (frequencies : list string) (c m r : nat) :
  fold_left assign_frequency_step entries
    (Some (frequencies, [("common", c); ("moderate", m); ("rare", r)]))
  = Some (frequencies ++ map get_usage_frequency entries,
          [("common", c + occurrences "common" (map get_usage_frequency entries));
           ("moderate",
            m + occurrences "moderate" (map get_usage_frequency entries));
           ("rare", r + occurrences "rare" (map get_usage_frequency entries))]).
Proof.
  revert frequencies c m r.
  induction entries as [|e l IH]; intros frequencies c m r.
  - simpl. unfold occurrences. simpl. now rewrite app_nil_r, !Nat.add_0_r.
  - cbn [fold_left map assign_frequency_step].
    destruct (frequency_range e) as [H|[H|H]]; rewrite H;
      cbn [increment py.get py.set String.eqb Ascii.eqb Bool.eqb];
      rewrite IH, <- app_assoc; cbn [app];
      unfold occurrences; cbn [filter String.eqb Ascii.eqb Bool.eqb List.length];
      repeat (f_equal; try lia).
Qed.

(** X22. [assign_usage_frequency] never fails on its counter table: every
    entry gets one of "common", "moderate" and "rare" (a deprecated entry
    always "rare"), and the three counts it reports are the numbers of
    entries given each value, so they add up to the number of entries. *)
Theorem assign_usage_frequency_counts_every_entry :
  forall entries : list DocEntry,
    exists c m r,
      assign_usage_frequency entries
      = Some (map get_usage_frequency entries,
              [("common", c); ("moderate", m); ("rare", r)]) /\
      c = occurrences "common" (map get_usage_frequency entries) /\
      m = occurrences "moderate" (map get_usage_frequency entries) /\
      r = occurrences "rare" (map get_usage_frequency entries) /\
      c + m + r = List.length entries /\
      Forall (fun e => deprecated e = true -> get_usage_frequency e = "rare")
        entries.
Proof.
  intros entries. unfold assign_usage_frequency.
  rewrite assign_frequency_fold. do 3 eexists.
  split; [reflexivity|]. repeat split.
  - simpl. rewrite occurrences_total; [apply length_map|].
    apply Forall_map, Forall_forall. intros e _. apply frequency_range.
  - apply Forall_forall. intros e _ Hdep. unfold get_usage_frequency.
    now rewrite Hdep.
Qed.

(** ** Serialisation of an entry *)

Lemma to_dict_keys (self : DocEntry) :
  py.keys (to_dict self)
  = fixed_keys
    ++ (match tags self with [] => [] | _ :: _ => ["tags"] end)
    ++ (match aliases self with [] => [] | _ :: _ => ["aliases"] end)
    ++ (match related self with [] => [] | _ :: _ => ["related"] end)
    ++ (if deprecated self
        then "deprecated"
             :: (if py.truthy (deprecation_note self)
                 then ["deprecationNote"] else [])
        else []).
Proof.
  unfold to_dict, fixed_keys. cbv zeta.
  destruct (tags self) as [|t ts], (aliases self) as [|a al],
    (related self) as [|r rl], (deprecated self);
    try (destruct (deprecation_note self) as [[|c s]|]); reflexivity.
Qed.

Lemma distinctb_NoDup (l : list string) : distinctb l = true -> NoDup l.
Proof.
  induction l as [|x l IH]; simpl; intros H; constructor.
  - apply andb_prop in H. destruct H as [H _].
    apply negb_true_iff in H. intros Hin. apply mem_In in Hin. congruence.
  - apply IH. apply andb_prop in H. tauto.
Qed.

Lemma to_dict_values (self : DocEntry) :
  py.get "id" (to_dict self) = Some (JString (id self)) /\
  py.get "snippet" (to_dict self) = Some (string_or_null (snippet self)) /\
  py.get "description" (to_dict self)
  = Some (string_or_null (description self)) /\
  py.get "parentStructure" (to_dict self)
  = Some (string_or_null (parent_structure self)).
Proof.
  unfold to_dict. cbv zeta.
  destruct (tags self) as [|t ts], (aliases self) as [|a al],
    (related self) as [|r rl], (deprecated self);
    try (destruct (deprecation_note self) as [[|c s]|]);
    repeat split.
Qed.

Lemma to_dict_other_values (self : DocEntry) :
  py.get "name" (to_dict self) = Some (JString (name self)) /\
  py.get "type" (to_dict self)
  = Some (JString (DocEntryType_value (type self))) /\
  py.get "returnType" (to_dict self)
  = Some (string_or_null (return_type self)) /\
  py.get "access" (to_dict self)
  = Some (DocAccessMode_value (access self)) /\
  py.get "signature" (to_dict self)
  = Some (string_or_null (signature self)) /\
  py.get "sourceRef" (to_dict self)
  = Some (string_or_null (source_ref self)) /\
  py.get "tags" (to_dict self)
  = match tags self with [] => None | l => Some (JStrings l) end /\
  py.get "aliases" (to_dict self)
  = match aliases self with [] => None | l => Some (JStrings l) end /\
  py.get "related" (to_dict self)
  = match related self with [] => None | l => Some (JStrings l) end /\
  py.get "deprecated" (to_dict self)
  = (if deprecated self then Some (JBool true) else None) /\
  py.get "deprecationNote" (to_dict self)
  = (if deprecated self && py.truthy (deprecation_note self)
     then option_map JString (deprecation_note self) else None).
Proof.
  unfold to_dict. cbv zeta.
  destruct (tags self) as [|t ts], (aliases self) as [|a al],
    (related self) as [|r rl], (deprecated self);
    try (destruct (deprecation_note self) as [[|c s]|]);
    repeat split.
Qed.

Lemma string_or_null_cases (o : option string) :
  (py.truthy o = false -> string_or_null o = JNull) /\
  (forall s, o = Some s -> py.truthy o = true ->
             string_or_null o = JString s).
Proof.
  destruct o as [[|c s']|]; simpl; split; intros; try congruence.
Qed.

(** X23. [to_dict] always emits the ten keys id, name, type,
    parentStructure, returnType, access, signature, description, snippet and
    sourceRef, in this order, writing null for an optional text that is
    absent or empty; the keys tags, aliases and related follow only for
    non-empty lists, deprecated only for a deprecated entry and
    deprecationNote only after deprecated; no key occurs twice. Every key
    holds the field it is named after: id, name and the value of the type
    as strings; each of parentStructure, returnType, signature, description,
    snippet and sourceRef the text of its field, or null when the field is
    absent or empty; access the value of the mode, null for NONE; tags,
    aliases and related the whole list; deprecated the flag true; and
    deprecationNote the note. *)
Theorem to_dict_layout :
  forall self : DocEntry,
    firstn 10 (py.keys (to_dict self)) = fixed_keys /\
    NoDup (py.keys (to_dict self)) /\
    (In "tags" (py.keys (to_dict self)) <-> tags self <> []) /\
    (In "aliases" (py.keys (to_dict self)) <-> aliases self <> []) /\
    (In "related" (py.keys (to_dict self)) <-> related self <> []) /\
    (In "deprecated" (py.keys (to_dict self)) <-> deprecated self = true) /\
    (In "deprecationNote" (py.keys (to_dict self))
     <-> deprecated self = true /\ py.truthy (deprecation_note self) = true) /\
    py.get "id" (to_dict self) = Some (JString (id self)) /\
    py.get "snippet" (to_dict self) = Some (string_or_null (snippet self)) /\
    py.get "description" (to_dict self)
    = Some (string_or_null (description self)) /\
    py.get "parentStructure" (to_dict self)
    = Some (string_or_null (parent_structure self)) /\
    py.get "name" (to_dict self) = Some (JString (name self)) /\
    py.get "type" (to_dict self)
    = Some (JString (DocEntryType_value (type self))) /\
    py.get "returnType" (to_dict self)
    = Some (string_or_null (return_type self)) /\
    py.get "access" (to_dict self)
    = Some (DocAccessMode_value (access self)) /\
    py.get "signature" (to_dict self)
    = Some (string_or_null (signature self)) /\
    py.get "sourceRef" (to_dict self)
    = Some (string_or_null (source_ref self)) /\
    py.get "tags" (to_dict self)
    = match tags self with [] => None | l => Some (JStrings l) end /\
    py.get "aliases" (to_dict self)
    = match aliases self with [] => None | l => Some (JStrings l) end /\
    py.get "related" (to_dict self)
    = match related self with [] => None | l => Some (JStrings l) end /\
    py.get "deprecated" (to_dict self)
    = (if deprecated self then Some (JBool true) else None) /\
    py.get "deprecationNote" (to_dict self)
    = (if deprecated self && py.truthy (deprecation_note self)
       then option_map JString (deprecation_note self) else None) /\
    (forall o : option string,
        (py.truthy o = false -> string_or_null o = JNull) /\
        (forall s, o = Some s -> py.truthy o = true ->
                   string_or_null o = JString s)) /\
    (DocAccessMode_value (access self) = JNull <-> access self = NONE).
Proof.
  intros self.
  pose proof (to_dict_values self) as (Hid & Hsnippet & Hdescr & Hparent).
  pose proof (to_dict_other_values self) as Hothers.
  assert (Haccess : DocAccessMode_value (access self) = JNull
                    <-> access self = NONE).
  { destruct (access self); simpl; split; congruence. }
  rewrite to_dict_keys.
  split.
  { change 10 with (List.length fixed_keys + 0).
    now rewrite firstn_app_2, app_nil_r. }
  assert (Hvalues :
    py.get "id" (to_dict self) = Some (JString (id self)) /\
    py.get "snippet" (to_dict self) = Some (string_or_null (snippet self)) /\
    py.get "description" (to_dict self)
    = Some (string_or_null (description self)) /\
    py.get "parentStructure" (to_dict self)
    = Some (string_or_null (parent_structure self)) /\
    py.get "name" (to_dict self) = Some (JString (name self)) /\
    py.get "type" (to_dict self)
    = Some (JString (DocEntryType_value (type self))) /\
    py.get "returnType" (to_dict self)
    = Some (string_or_null (return_type self)) /\
    py.get "access" (to_dict self)
    = Some (DocAccessMode_value (access self)) /\
    py.get "signature" (to_dict self)
    = Some (string_or_null (signature self)) /\
    py.get "sourceRef" (to_dict self)
    = Some (string_or_null (source_ref self)) /\
    py.get "tags" (to_dict self)
    = match tags self with [] => None | l => Some (JStrings l) end /\
    py.get "aliases" (to_dict self)
    = match aliases self with [] => None | l => Some (JStrings l) end /\
    py.get "related" (to_dict self)
    = match related self with [] => None | l => Some (JStrings l) end /\
    py.get "deprecated" (to_dict self)
    = (if deprecated self then Some (JBool true) else None) /\
    py.get "deprecationNote" (to_dict self)
    = (if deprecated self && py.truthy (deprecation_note self)
       then option_map JString (deprecation_note self) else None) /\
    (forall o : option string,
        (py.truthy o = false -> string_or_null o = JNull) /\
        (forall s, o = Some s -> py.truthy o = true ->
                   string_or_null o = JString s)) /\
    (DocAccessMode_value (access self) = JNull <-> access self = NONE)).
  { repeat (split; [assumption|]).
    destruct Hothers as (? & ? & ? & ? & ? & ? & ? & ? & ? & ? & ?).
    repeat (split; [assumption|]).
    split; [exact string_or_null_cases | exact Haccess]. }
  clear Hid Hsnippet Hdescr Hparent Hothers Haccess.
  revert Hvalues. generalize (to_dict self). intros result Hvalues.
  destruct (tags self) as [|t ts], (aliases self) as [|a al],
    (related self) as [|r rl], (deprecated self);
    try (destruct (deprecation_note self) as [[|c s]|]);
    cbn [py.truthy app fixed_keys];
    (split; [apply distinctb_NoDup; reflexivity|]);
    do 5 (split;
          [ rewrite <- mem_In; vm_compute; split; intros H;
            first [ discriminate H | reflexivity | now elim H
                  | split; reflexivity | destruct H; discriminate ] |]);
    exact Hvalues.
Qed.

(** ** The tag indexes *)

Lemma used_tags_In (entries : list DocEntry) (t : string) :
  In t (used_tags entries) <-> exists e, In e entries /\ In t (tags e).
Proof.
  unfold used_tags.
  assert (H : forall s,
             In t (fold_left (fun all_tags entry =>
                                py.update all_tags (tags entry)) entries s)
             <-> In t s \/ exists e, In e entries /\ In t (tags e)).
  { induction entries as [|e l IH]; intros s; simpl.
    - split; [now left | intros [H|(e & [] & _)]; exact H].
    - rewrite IH, update_In. split.
      + intros [[H|H]|(e' & He' & Ht)]; [now left | right | right].
        * exists e. auto.
        * exists e'. auto.
      + intros [H|(e' & [<-|He'] & Ht)]; [tauto | tauto | right].
        exists e'. auto. }
  rewrite H. split; [intros [[]|H']; exact H' | now right].
Qed.

Lemma used_tags_NoDup (entries : list DocEntry) : NoDup (used_tags entries).
Proof.
  unfold used_tags. apply fold_keeps; [|constructor].
  intros s e Hs. now apply update_NoDup.
Qed.

Lemma index_fold_distinct (f : string -> string) (keys : list string)
  (index : py.dict string) :
  NoDup keys -> (forall k, In k keys -> ~ In k (py.keys index)) ->
  fold_left (fun index tag => py.set tag (f tag) index) keys index
  = index ++ map (fun tag => (tag, f tag)) keys.
Proof.
  revert index. induction keys as [|k keys IH]; intros index Hnd Hfresh; simpl.
  - now rewrite app_nil_r.
  - inversion Hnd as [|? ? Hk Hnd']; subst.
    rewrite set_fresh by (apply get_None_keys, Hfresh; now left).
    rewrite IH; [now rewrite <- app_assoc | assumption |].
    intros k' Hk'. unfold py.keys. rewrite map_app, in_app_iff. simpl.
    intros [H|[<-|[]]]; [|contradiction].
    apply (Hfresh k'); [now right | exact H].
Qed.

Lemma index_of_eq (tag_descriptions : py.dict string) (tags : list string) :
  NoDup tags ->
  index_of tag_descriptions tags
  = map (fun tag => (tag, get_default tag (title tag) tag_descriptions))
      (sorted tags).
Proof.
  intros Hnd. unfold index_of.
  rewrite (index_fold_distinct
             (fun tag => get_default tag (title tag) tag_descriptions)).
  - reflexivity.
  - now apply sorted_NoDup.
  - intros k _ [].
Qed.

Lemma index_of_get (tag_descriptions : py.dict string) (tags : list string)
  (t : string) :
  NoDup tags ->
  py.get t (index_of tag_descriptions tags)
  = if py.mem t tags
    then Some (get_default t (title t) tag_descriptions) else None.
Proof.
  intros Hnd. rewrite (index_of_eq _ _ Hnd).
  assert (Hmem : py.mem t tags = py.mem t (sorted tags)).
  { apply eq_true_iff_eq. rewrite !mem_In. symmetry. apply sorted_In. }
  rewrite Hmem. generalize (sorted tags) as l.
  induction l as [|k l IH]; simpl; [reflexivity|].
  destruct (String.eqb_spec t k) as [->|Hne]; [reflexivity | exact IH].
Qed.


Lemma described_get (t : string) :
  described t = true ->
  exists d, py.get t ALL_TAG_DESCRIPTIONS = Some d.
Proof.
  unfold described. destruct (py.get t ALL_TAG_DESCRIPTIONS) as [d|];
    [now exists d | discriminate].
Qed.

(** X25. When every incoming tag has a description in the taxonomy (for
    instance when the entries come without tags), the enhanced index built
    after [assign_domain_tags] describes every tag by the taxonomy's own
    text, except "structure" and "misc", which the taxonomy lacks and which
    appear as "Structure" and "Misc". *)
Theorem enhanced_index_after_tag_engine :
  forall (entries : list DocEntry) (t d : string),
    (forall e x, In e entries -> In x (tags e) -> described x = true) ->
    py.get t (build_enhanced_tag_index (assign_domain_tags entries)) = Some d ->
    py.get t ALL_TAG_DESCRIPTIONS = Some d
    \/ (t = "structure" /\ d = "Structure")
    \/ (t = "misc" /\ d = "Misc").
Proof.
  intros entries t d Hdescribed Hget.
  unfold build_enhanced_tag_index in Hget.
  rewrite (index_of_get _ _ _ (used_tags_NoDup _)) in Hget.
  destruct (py.mem t (used_tags (assign_domain_tags entries))) eqn:Hmem;
    [|discriminate].
  injection Hget as <-. apply mem_In, used_tags_In in Hmem.
  destruct Hmem as (e' & He' & Ht). unfold assign_domain_tags in He'.
  apply in_map_iff in He'. destruct He' as (e & <- & He).
  cbn [tags set_tags] in Ht.
  apply assign_tags_vocabulary in Ht.
  assert (Hcases : described t = true \/ t = "structure" \/ t = "misc").
  { destruct Ht as [Ht|[Ht|Ht]]; [left; now apply (Hdescribed e) | tauto | tauto]. }
  destruct Hcases as [Hd|[-> | ->]].
  - left. destruct (described_get _ Hd) as (d & Hd').
    unfold get_default, get_all_tag_descriptions. now rewrite Hd'.
  - right. left. split; reflexivity.
  - right. right. split; reflexivity.
Qed.

Lemma enhanced_index_after_tag_engine_witness :
  py.get "misc" ALL_TAG_DESCRIPTIONS = Some "Misc"
  \/ ("misc" = "structure" /\ "Misc" = "Structure")
  \/ ("misc" = "misc" /\ "Misc" = "Misc").
Proof.
  apply (enhanced_index_after_tag_engine [pidloop_kp] "misc" "Misc").
  - intros e x [<-|[]] [].
  - vm_compute. reflexivity.
Defined.

(** ** The stages in sequence *)

Lemma infer_additional_tags_ids enum (entries : list DocEntry) :
  map id (infer_additional_tags enum entries) = map id entries.
Proof.
  unfold infer_additional_tags.
  destruct (infer_loop_pointwise (fun e e' => id e' = id e) enum)
    with (visited := @nil DocEntry) (todo := entries)
    as (out & -> & Hout); [reflexivity|].
  simpl. induction Hout as [|e e' l l' He _ IH]; simpl; [reflexivity|].
  now rewrite He, IH.
Qed.

(** X26. The first four stages in the order the driver runs them
    ([add_essential_entries], [deduplicate_entries], [build_related_links],
    [infer_additional_tags]) leave a collection in which every id occurs
    once and every essential id occurs, whatever the parsers delivered and
    in whatever order the sets are enumerated. *)
Theorem pipeline_ids_distinct_and_essentials_present :
  forall (enum enum' : list string -> list string) (entries : list DocEntry)
         (base_url : string),
    let staged :=
      infer_additional_tags enum'
        (build_related_links enum
           (deduplicate_entries (add_essential_entries entries base_url))) in
    NoDup (map id staged) /\
    (forall k, In k (py.keys ESSENTIAL_ENTRIES) -> In k (map id staged)) /\
    (forall i, In i (map id entries) -> In i (map id staged)).
Proof.
  intros enum enum' entries base_url staged. subst staged.
  rewrite infer_additional_tags_ids, build_related_links_ids.
  assert (Hids : map id (deduplicate_entries
                           (add_essential_entries entries base_url))
                 = fresh_in_order []
                     (map id (add_essential_entries entries base_url))).
  { unfold deduplicate_entries.
    rewrite (keyed_values_ids _ (dedup_loop_keyed _)).
    unfold dedup_loop. now rewrite dedup_fold_keys. }
  rewrite Hids. repeat split.
  - apply fresh_in_order_NoDup.
  - intros k Hk. apply fresh_in_order_In. split; [|intros []].
    now apply add_essential_entries_covers_table_aux.
  - intros i Hi. apply fresh_in_order_In. split; [|intros []].
    rewrite add_essential_entries_eq, map_app. apply in_or_app. now left.
Qed.
